(** * Activity-timeline API: a shallow embedding of [server/api/views.py]

    The request handlers of the Django application are embedded as
    functions from a database snapshot and a query dictionary to a
    result: an HTTP response, or an exception that leaves the handler.
    The ORM calls, the paginator and the Python built-ins the handlers
    use are modelled next to them, each with the behaviour the handlers
    rely on.

    Conventions: the two tables are lists of rows in storage order;
    timestamps are aware datetimes in UTC, as the ORM returns them with
    time-zone support on; a person-reference is a flat JSON object whose
    fields are null, integers or strings; [Person.id] is the primary
    key, so a lookup by it finds at most one row; the randomness of
    [order_by("?")] is an explicit seed. *)

From Stdlib Require Import ZArith List String Ascii Bool Lia.
From Stdlib Require Import Sorting.Sorted Sorting.Permutation.
From stdpp Require Import base option gmap strings list sorting pretty.
Import ListNotations.

Local Open Scope string_scope.
Local Open Scope Z_scope.

(** ** Python values and built-ins *)

Module Py.

(** The scalar JSON values that occur as fields of an embedded
    person-reference: [None], an integer or a string. *)
Inductive value : Type :=
| VNone
| VInt (n : Z)
| VStr (s : string).

#[global] Instance value_eq_dec : EqDecision value.
Proof. solve_decision. Defined.

(** Truth value of an object: [None], [0] and [''] are false. *)
Definition truthy (v : value) : bool :=
  match v with
  | VNone => false
  | VInt n => negb (n =? 0)
  | VStr s => negb (String.eqb s "")
  end.

(** [a or b] *)
Definition or_ (a b : value) : value := if truthy a then a else b.

(** A JSON object, as the [dict] the JSON field decodes to. *)
Abbreviation dict := (gmap string value).

(** [d.get(k)] *)
Definition get (d : dict) (k : string) : value := default VNone (d !! k).

(** [d.get(k, dflt)] *)
Definition get_or (d : dict) (k : string) (dflt : value) : value :=
  default dflt (d !! k).

(** [str(v)], as an f-string replacement field renders a value. *)
Definition str (v : value) : string :=
  match v with
  | VNone => "None"
  | VInt n => pretty n
  | VStr s => s
  end.

(** [c.isspace()] on the ASCII range: TAB..CR, FS..US and the space. *)
Definition isspace (c : ascii) : bool :=
  let n := N_of_ascii c in
  ((9 <=? n) && (n <=? 13) || (28 <=? n) && (n <=? 32))%N.

Fixpoint lstrip (s : string) : string :=
  match s with
  | EmptyString => EmptyString
  | String c s' => if isspace c then lstrip s' else s
  end.

Fixpoint rstrip (s : string) : string :=
  match s with
  | EmptyString => EmptyString
  | String c s' =>
      match rstrip s' with
      | EmptyString => if isspace c then EmptyString else String c EmptyString
      | r => String c r
      end
  end.

(** [s.strip()] *)
Definition strip (s : string) : string := rstrip (lstrip s).

(** [s or dflt] on strings. *)
Definition str_or (s dflt : string) : string :=
  if String.eqb s "" then dflt else s.

(** [s.replace(old, new)] for a one-character [old]. *)
Fixpoint replace_char (old : ascii) (new : string) (s : string) : string :=
  match s with
  | EmptyString => EmptyString
  | String c s' =>
      if Ascii.eqb c old then new ++ replace_char old new s'
      else String c (replace_char old new s')
  end.

Definition isdigit (c : ascii) : bool :=
  let n := N_of_ascii c in ((48 <=? n) && (n <=? 57))%N.

Definition digit_value (c : ascii) : Z := Z.of_N (N_of_ascii c) - 48.

(** The digit part of an integer literal: decimal digits, with single
    underscores allowed between two digits. [seen] tells whether the
    previous character was a digit. *)
Fixpoint int_digits (s : string) (acc : Z) (seen : bool) : option Z :=
  match s with
  | EmptyString => if seen then Some acc else None
  | String c s' =>
      if isdigit c then int_digits s' (10 * acc + digit_value c) true
      else if Ascii.eqb c "_" && seen then int_digits s' acc false
      else None
  end.

Fixpoint count_digits (s : string) : Z :=
  match s with
  | EmptyString => 0
  | String c s' => (if isdigit c then 1 else 0) + count_digits s'
  end.

(** The interpreter's limit on the digits of a string converted by [int]. *)
Definition int_max_str_digits : Z := 4300.

(** [int(s)] for a string: [None] stands for [ValueError]. Surrounding
    white space is dropped, one sign is accepted. *)
Definition int_of_str (s : string) : option Z :=
  let t := strip s in
  if int_max_str_digits <? count_digits t then None
  else
    match t with
    | String "+" r => int_digits r 0 false
    | String "-" r => Z.opp <$> int_digits r 0 false
    | _ => int_digits t 0 false
    end.

End Py.

(** What a call returns: a value, or an exception that propagates. *)
Inductive exn : Type :=
| ValueError
| ZeroDivisionError
| EmptyPage.

Inductive result (A : Type) : Type :=
| Ok (a : A)
| Exc (e : exn).
Arguments Ok {A} a.
Arguments Exc {A} e.

#[global] Instance result_ret : MRet result := fun A a => Ok a.
#[global] Instance result_bind : MBind result := fun A B f m =>
  match m with
  | Ok a => f a
  | Exc e => Exc e
  end.

(** ** [datetime.date] and [datetime.datetime] *)

(** Lexicographic comparison of field tuples, the order of [date] and
    of [datetime] objects in one time zone. *)
Fixpoint lex_compare (l1 l2 : list Z) : comparison :=
  match l1, l2 with
  | [], [] => Eq
  | [], _ :: _ => Lt
  | _ :: _, [] => Gt
  | x :: l1', y :: l2' =>
      match x ?= y with
      | Eq => lex_compare l1' l2'
      | c => c
      end
  end.

Definition digit_char (d : Z) : ascii := ascii_of_N (Z.to_N (48 + d)).

(** The [w] low decimal digits of [x], most significant first. *)
Fixpoint fixed_width (w : nat) (x : Z) : string :=
  match w with
  | O => EmptyString
  | S w' => fixed_width w' (x / 10) ++ String (digit_char (x mod 10)) EmptyString
  end.

(** ["%0wd" % x]: zero-padded to [w] digits, never truncated. *)
Definition zero_pad (w : nat) (x : Z) : string :=
  if (0 <=? x) && (x <? 10 ^ Z.of_nat w) then fixed_width w x else pretty x.

Module Date.

Record t : Type := mk { year : Z; month : Z; day : Z }.

#[global] Instance eq_dec : EqDecision t.
Proof. solve_decision. Defined.

Definition fields (d : t) : list Z := [year d; month d; day d].

Definition compare (a b : t) : comparison := lex_compare (fields a) (fields b).

Definition ltb (a b : t) : bool :=
  match compare a b with Lt => true | _ => false end.

(** The range of the fields of a [date] object. *)
Definition valid (d : t) : Prop :=
  1 <= year d <= 9999 /\ 1 <= month d <= 12 /\ 1 <= day d <= 31.

(** [d.isoformat()]: [YYYY-MM-DD]. *)
Definition isoformat (d : t) : string :=
  (zero_pad 4 (year d) ++ "-" ++ zero_pad 2 (month d) ++ "-"
   ++ zero_pad 2 (day d))%string.

End Date.

Module Datetime.

(** A point in time as the ORM returns it: an aware [datetime] in UTC. *)
Record t : Type := mk {
  year : Z; month : Z; day : Z;
  hour : Z; minute : Z; second : Z; microsecond : Z
}.

#[global] Instance eq_dec : EqDecision t.
Proof. solve_decision. Defined.

Definition fields (d : t) : list Z :=
  [year d; month d; day d; hour d; minute d; second d; microsecond d].

Definition compare (a b : t) : comparison := lex_compare (fields a) (fields b).

Definition leb (a b : t) : bool :=
  match compare a b with Gt => false | _ => true end.

Definition le (a b : t) : Prop := leb a b = true.

(** The range of the fields of a [datetime] object. *)
Definition valid (d : t) : Prop :=
  1 <= year d <= 9999 /\ 1 <= month d <= 12 /\ 1 <= day d <= 31 /\
  0 <= hour d <= 23 /\ 0 <= minute d <= 59 /\ 0 <= second d <= 59 /\
  0 <= microsecond d <= 999999.

(** [d.date()], also what [TruncDate] computes in the UTC zone. *)
Definition date (d : t) : Date.t := Date.mk (year d) (month d) (day d).

(** [d.isoformat()]: [YYYY-MM-DDTHH:MM:SS[.ffffff]+00:00]; the
    fraction is printed only when the microsecond is not zero. *)
Definition isoformat (d : t) : string :=
  (zero_pad 4 (year d) ++ "-" ++ zero_pad 2 (month d) ++ "-"
   ++ zero_pad 2 (day d) ++ "T" ++ zero_pad 2 (hour d) ++ ":"
   ++ zero_pad 2 (minute d) ++ ":" ++ zero_pad 2 (second d)
   ++ (if (microsecond d =? 0)%Z then ""
       else "." ++ zero_pad 6 (microsecond d))
   ++ "+00:00")%string.

End Datetime.

(** ** The two models *)

(** Modelled from the spec: [models.py] is not among the sources; a
    person carries the attributes the data model lists and the
    handlers read. *)
Module Person.

Record t : Type := mk {
  id : Py.value;
  first_name : string;
  last_name : string;
  email_address : string;
  customer_org_id : string
}.

End Person.

Module ActivityEvent.

(** Modelled from the spec: the attributes of an event as the data
    model lists them and the handlers read them. [people] is the
    decoded JSON field: a list of person-references. A null field
    behaves as the empty list in every handler, which tests
    [if event.people] first. *)
Record t : Type := mk {
  id : Z;
  timestamp : Datetime.t;
  activity : string;
  channel : string;
  status : string;
  people : list Py.dict;
  involved_team_ids : list string;
  direction : string;
  customer_org_id : string;
  account_id : string
}.

End ActivityEvent.

(** A snapshot of the two tables, rows in storage order. *)
Record Db : Type := mkDb {
  event_rows : list ActivityEvent.t;
  person_rows : list Person.t
}.

(** ** The ORM calls the handlers make *)

Module Orm.

(** [filter(customer_org_id=c, account_id=a)] *)
Definition in_scope (c a : string) (e : ActivityEvent.t) : bool :=
  String.eqb (ActivityEvent.customer_org_id e) c
  && String.eqb (ActivityEvent.account_id e) a.

(** [filter(customer_org_id=c, account_id=a, direction=d)] *)
Definition in_scope_dir (c a d : string) (e : ActivityEvent.t) : bool :=
  in_scope c a e && String.eqb (ActivityEvent.direction e) d.

(** [filter(timestamp__gte=dt)] and [filter(timestamp__lte=dt)] *)
Definition timestamp_gte (dt : Datetime.t) (e : ActivityEvent.t) : bool :=
  Datetime.leb dt (ActivityEvent.timestamp e).

Definition timestamp_lte (dt : Datetime.t) (e : ActivityEvent.t) : bool :=
  Datetime.leb (ActivityEvent.timestamp e) dt.

(** A stable sort: elements that compare equal keep their order. It
    stands for [order_by] on a column and for Python's [sorted]. *)
Fixpoint insert_by {A : Type} (leb : A -> A -> bool) (x : A) (l : list A)
  : list A :=
  match l with
  | [] => [x]
  | y :: l' => if leb x y then x :: l else y :: insert_by leb x l'
  end.

Definition sort_by {A : Type} (leb : A -> A -> bool) (l : list A) : list A :=
  fold_right (insert_by leb) [] l.

(** [order_by("timestamp")] *)
Definition order_by_timestamp (l : list ActivityEvent.t) : list ActivityEvent.t :=
  sort_by (fun x y => Datetime.leb (ActivityEvent.timestamp x)
                                   (ActivityEvent.timestamp y)) l.

(** [order_by("?")]: the database draws the order; [seed] is its source
    of randomness, one draw for each row picked. *)
Fixpoint order_by_random {A : Type} (seed : list nat) (l : list A) : list A :=
  match seed with
  | [] => l
  | s :: seed' =>
      let i := (s mod length l)%nat in
      match l !! i with
      | Some x => x :: order_by_random seed' (delete i l)
      | None => []
      end
  end.

(** [Person.objects.get(id=v)] on the primary key; [None] stands for
    [Person.DoesNotExist]. *)
Definition get_person (rows : list Person.t) (v : Py.value) : option Person.t :=
  List.find (fun p => bool_decide (Person.id p = v)) rows.

(** [annotate(date=TruncDate('timestamp')).values('date')
     .annotate(count=Count('id')).order_by('date')]: one row for each
    date, with the number of events of that date, by ascending date. *)
Fixpoint count_date (d : Date.t) (acc : list (Date.t * Z)) : list (Date.t * Z) :=
  match acc with
  | [] => [(d, 1)]
  | (d', n) :: rest =>
      match Date.compare d d' with
      | Lt => (d, 1) :: acc
      | Eq => (d', n + 1) :: rest
      | Gt => (d', n) :: count_date d rest
      end
  end.

Definition count_by_date (l : list ActivityEvent.t) : list (Date.t * Z) :=
  fold_right
    (fun e acc => count_date (Datetime.date (ActivityEvent.timestamp e)) acc)
    [] l.

(** [values('customer_org_id', 'account_id').distinct()
     .order_by('customer_org_id', 'account_id')] *)
Definition pair_compare (p q : string * string) : comparison :=
  match String.compare (fst p) (fst q) with
  | Eq => String.compare (snd p) (snd q)
  | c => c
  end.

Fixpoint insert_distinct (p : string * string) (l : list (string * string))
  : list (string * string) :=
  match l with
  | [] => [p]
  | q :: l' =>
      match pair_compare p q with
      | Lt => p :: l
      | Eq => l
      | Gt => q :: insert_distinct p l'
      end
  end.

Definition distinct_scopes (l : list ActivityEvent.t) : list (string * string) :=
  fold_right
    (fun e acc =>
       insert_distinct
         (ActivityEvent.customer_org_id e, ActivityEvent.account_id e) acc)
    [] l.

End Orm.

(** ** [django.core.paginator] *)

(** A positive quotient of integers that is at most [2^-1075], half
    the least positive float, is the float zero. *)
Definition underflow_bound : Z := 2 ^ 1075.

Module Paginator.

Section Paginator.
Context {A : Type}.

Record t : Type := mk { object_list : list A; per_page : Z }.

Record page_t : Type := mk_page {
  page_items : list A;
  number : Z;
  paginator : t
}.

Definition count (p : t) : Z := Z.of_nat (length (object_list p)).

(** [ceil(hits / per_page)] with [hits = max(1, count)]: no orphans,
    and an empty first page is allowed. The quotient is a float. It is
    zero, and so is its ceiling, when [per_page] is so large that the
    exact quotient is at most [2^-1075]. Otherwise rounding the
    quotient leaves its ceiling that of the exact quotient, for every
    [hits] below [2^53]: more rows than that no table stores. *)
Definition num_pages (p : t) : result Z :=
  if per_page p =? 0 then Exc ZeroDivisionError
  else
    let hits := Z.max 1 (count p) in
    if hits * underflow_bound <=? per_page p then Ok 0
    else Ok (- ((- hits) / per_page p)).

Definition validate_number (p : t) (n : Z) : result Z :=
  if n <? 1 then Exc EmptyPage
  else
    np ← num_pages p;
    if np <? n then Exc EmptyPage else Ok n.

(** [object_list[bottom:top]] on a query set, which refuses negative
    bounds. *)
Definition slice (bottom top : Z) (l : list A) : result (list A) :=
  if (bottom <? 0) || (top <? 0) then Exc ValueError
  else Ok (take (Z.to_nat (top - bottom)) (drop (Z.to_nat bottom) l)).

Definition page (p : t) (n : Z) : result page_t :=
  n ← validate_number p n;
  let bottom := (n - 1) * per_page p in
  let top := bottom + per_page p in
  let top := if count p <=? top then count p else top in
  items ← slice bottom top (object_list p);
  Ok (mk_page items n p).

(** [get_page]: a number below one or past the end selects the last
    page. *)
Definition get_page (p : t) (n : Z) : result page_t :=
  match validate_number p n with
  | Ok n' => page p n'
  | Exc EmptyPage => np ← num_pages p; page p np
  | Exc e => Exc e
  end.

Definition has_next (pg : page_t) : result bool :=
  np ← num_pages (paginator pg); Ok (number pg <? np).

Definition has_previous (pg : page_t) : bool := 1 <? number pg.

End Paginator.
Arguments t : clear implicits.
Arguments page_t : clear implicits.

End Paginator.

(** ** Responses *)

Module EventDict.

Record t : Type := mk {
  id : Z;
  timestamp : string;
  activity : string;
  channel : string;
  status : string;
  people : list Py.dict;
  involved_team_ids : list string;
  direction : string;
  customer_org_id : string;
  account_id : string
}.

End EventDict.

Module Pagination.

Record t : Type := mk {
  current_page : Z;
  total_pages : Z;
  total_count : Z;
  has_next : bool;
  has_previous : bool
}.

End Pagination.

Module Touchpoint.

Record t : Type := mk {
  person_id : Py.value;
  person_name : string;
  email : Py.value;
  timestamp : string;
  activity : string;
  channel : string
}.

End Touchpoint.

(** The payload of a response, one constructor for each shape the
    handlers build. *)
Inductive body : Type :=
| Text (s : string)
| Error (msg : string)
| Events (events : list EventDict.t) (pagination : Pagination.t)
| DailyCounts (daily_counts : list (string * Z)) (direction : string)
| FirstTouchpoints (first_touchpoints : list Touchpoint.t)
| EventRows (rows : list ActivityEvent.t)
| PersonRows (rows : list Person.t)
| Customers (customers : list (string * list (string * string))).

(** The keys of the top-level JSON object of a body. *)
Definition body_keys (b : body) : list string :=
  match b with
  | Error _ => ["error"]
  | Events _ _ => ["events"; "pagination"]
  | DailyCounts _ _ => ["daily_counts"; "direction"]
  | FirstTouchpoints _ => ["first_touchpoints"]
  | Customers _ => ["customers"]
  | Text _ | EventRows _ | PersonRows _ => []
  end.

Record response : Type := mk_response { status : Z; content : body }.

(** [JsonResponse(data)] and [JsonResponse(data, status=s)] *)
Definition JsonResponse (data : body) : response := mk_response 200 data.
Definition JsonResponse_status (data : body) (s : Z) : response :=
  mk_response s data.
Definition HttpResponse (s : string) : response := mk_response 200 (Text s).

(** [request.GET], each key with the value [get] returns for it. *)
Abbreviation QueryDict := (gmap string string).

(** [not v] for the result of [request.GET.get(key)]: the parameter is
    absent or empty. *)
Definition not_ (v : option string) : bool :=
  match v with
  | None => true
  | Some s => String.eqb s ""
  end.

(** [int(request.GET.get(key, dflt))] *)
Definition int_param (v : option string) (dflt : Z) : result Z :=
  match v with
  | None => Ok dflt
  | Some s =>
      match Py.int_of_str s with
      | Some n => Ok n
      | None => Exc ValueError
      end
  end.

Definition both_required : string :=
  "Both 'customer_org_id' and 'account_id' query parameters are required.".

(** ** The handlers of [views.py] *)

Module Views.

Definition index : result response :=
  Ok (HttpResponse "Hello, world! This is the API root.").

(** [person_ref.get('id') or person_ref.get('person_id')] *)
Definition person_id_of (person_ref : Py.dict) : Py.value :=
  Py.or_ (Py.get person_ref "id") (Py.get person_ref "person_id").

(** One turn of the enrichment loop of [activity_events]: the entry
    appended to [enriched_people] for [person_ref]. *)
Definition enrich (persons : list Person.t) (person_ref : Py.dict) : Py.dict :=
  let person_id := person_id_of person_ref in
  if Py.truthy person_id then
    match Orm.get_person persons person_id with
    | Some person =>
        {[ "id" := Person.id person;
           "first_name" := Py.VStr (Person.first_name person);
           "last_name" := Py.VStr (Person.last_name person);
           "email_address" := Py.VStr (Person.email_address person);
           "role_in_touchpoint" := Py.get person_ref "role_in_touchpoint" ]}
    | None => person_ref
    end
  else person_ref.

Definition event_dict (persons : list Person.t) (event : ActivityEvent.t)
  : EventDict.t :=
  let enriched_people := List.map (enrich persons) (ActivityEvent.people event) in
  {| EventDict.id := ActivityEvent.id event;
     EventDict.timestamp := Datetime.isoformat (ActivityEvent.timestamp event);
     EventDict.activity := ActivityEvent.activity event;
     EventDict.channel := ActivityEvent.channel event;
     EventDict.status := ActivityEvent.status event;
     EventDict.people := enriched_people;
     EventDict.involved_team_ids := ActivityEvent.involved_team_ids event;
     EventDict.direction := ActivityEvent.direction event;
     EventDict.customer_org_id := ActivityEvent.customer_org_id event;
     EventDict.account_id := ActivityEvent.account_id event |}.

Section WithParser.

(** [datetime.fromisoformat]; [None] stands for [ValueError]. The parser
    is the standard library's, the handler is embedded over any. *)
Variable fromisoformat : string -> option Datetime.t.

(** One of the two date blocks of [activity_events]: when the parameter
    is given the query set is narrowed by [keep], and a parameter that
    does not parse ends the request with [msg]. *)
Definition date_filter (keep : Datetime.t -> ActivityEvent.t -> bool)
    (param : option string) (msg : string) (events_qs : list ActivityEvent.t)
  : list ActivityEvent.t + response :=
  match param with
  | Some s =>
      if String.eqb s "" then inl events_qs
      else
        match fromisoformat (Py.replace_char "Z" "+00:00" s) with
        | Some dt => inl (List.filter (keep dt) events_qs)
        | None => inr (JsonResponse_status (Error msg) 400)
        end
  | None => inl events_qs
  end.

(** The query set of [activity_events] once the date filters are
    applied, or the response that ends the request. *)
Definition matched_events (db : Db) (c a : string)
    (start_date end_date : option string) : list ActivityEvent.t + response :=
  let events_qs :=
    Orm.order_by_timestamp (List.filter (Orm.in_scope c a) (event_rows db)) in
  match date_filter Orm.timestamp_gte start_date "Invalid start_date format"
          events_qs with
  | inr r => inr r
  | inl events_qs =>
      date_filter Orm.timestamp_lte end_date "Invalid end_date format" events_qs
  end.

Definition activity_events (db : Db) (GET : QueryDict) : result response :=
  let customer_org_id := GET !! "customer_org_id" in
  let account_id := GET !! "account_id" in
  page ← int_param (GET !! "page") 1;
  page_size ← int_param (GET !! "page_size") 50;
  let start_date := GET !! "start_date" in
  let end_date := GET !! "end_date" in
  if not_ customer_org_id || not_ account_id then
    Ok (JsonResponse_status (Error both_required) 400)
  else
    match matched_events db (default "" customer_org_id) (default "" account_id)
            start_date end_date with
    | inr r => Ok r
    | inl events_qs =>
        let paginator := Paginator.mk events_qs page_size in
        page_obj ← Paginator.get_page paginator page;
        let events :=
          List.map (event_dict (person_rows db)) (Paginator.page_items page_obj) in
        total_pages ← Paginator.num_pages paginator;
        has_next ← Paginator.has_next page_obj;
        Ok (JsonResponse
              (Events events
                 {| Pagination.current_page := page;
                    Pagination.total_pages := total_pages;
                    Pagination.total_count := Paginator.count paginator;
                    Pagination.has_next := has_next;
                    Pagination.has_previous := Paginator.has_previous page_obj |}))
    end.

End WithParser.

Definition activity_counts (db : Db) (GET : QueryDict) : result response :=
  let customer_org_id := GET !! "customer_org_id" in
  let account_id := GET !! "account_id" in
  let direction := default "IN" (GET !! "direction") in
  if not_ customer_org_id || not_ account_id then
    Ok (JsonResponse_status (Error both_required) 400)
  else
    let daily_counts :=
      Orm.count_by_date
        (List.filter
           (Orm.in_scope_dir (default "" customer_org_id) (default "" account_id)
              direction)
           (event_rows db)) in
    let counts :=
      List.map (fun item => (Date.isoformat (fst item), snd item)) daily_counts in
    Ok (JsonResponse (DailyCounts counts direction)).

(** The dictionary [first_touchpoints] of the handler of that name, its
    entries in insertion order. *)
Abbreviation touchpoints := (list (Py.value * Touchpoint.t)).

(** [person_id in first_touchpoints] *)
Definition has_key (d : touchpoints) (k : Py.value) : bool :=
  existsb (fun kv => bool_decide (fst kv = k)) d.

(** The body of the inner loop: one person-reference of one event. *)
Definition touch (persons : list Person.t) (event : ActivityEvent.t)
    (first_touchpoints : touchpoints) (person_ref : Py.dict) : touchpoints :=
  let person_id := person_id_of person_ref in
  if Py.truthy person_id && negb (has_key first_touchpoints person_id) then
    let '(person_name, person_email) :=
      match Orm.get_person persons person_id with
      | Some person =>
          (Py.strip (Person.first_name person ++ " " ++ Person.last_name person),
           Py.VStr (Person.email_address person))
      | None =>
          (Py.str_or
             (Py.strip
                (Py.str (Py.get_or person_ref "first_name" (Py.VStr ""))
                 ++ " "
                 ++ Py.str (Py.get_or person_ref "last_name" (Py.VStr ""))))
             "Unknown",
           Py.get_or person_ref "email_address" (Py.VStr ""))
      end in
    first_touchpoints ++
      [(person_id,
        {| Touchpoint.person_id := person_id;
           Touchpoint.person_name := person_name;
           Touchpoint.email := person_email;
           Touchpoint.timestamp :=
             Datetime.isoformat (ActivityEvent.timestamp event);
           Touchpoint.activity := ActivityEvent.activity event;
           Touchpoint.channel := ActivityEvent.channel event |})]
  else first_touchpoints.

(** The outer loop, over the events in query order. *)
Definition scan_event (persons : list Person.t) (first_touchpoints : touchpoints)
    (event : ActivityEvent.t) : touchpoints :=
  fold_left (touch persons event) (ActivityEvent.people event) first_touchpoints.

Definition scan (persons : list Person.t) (events : list ActivityEvent.t)
  : touchpoints :=
  fold_left (scan_event persons) events [].

Definition first_touchpoints (db : Db) (GET : QueryDict) : result response :=
  let customer_org_id := GET !! "customer_org_id" in
  let account_id := GET !! "account_id" in
  if not_ customer_org_id || not_ account_id then
    Ok (JsonResponse_status (Error both_required) 400)
  else
    let events :=
      Orm.order_by_timestamp
        (List.filter
           (Orm.in_scope (default "" customer_org_id) (default "" account_id))
           (event_rows db)) in
    let first_touchpoints := scan (person_rows db) events in
    let sorted_touchpoints :=
      Orm.sort_by
        (fun x y => String.leb (Touchpoint.timestamp x) (Touchpoint.timestamp y))
        (List.map snd first_touchpoints) in
    Ok (JsonResponse (FirstTouchpoints sorted_touchpoints)).

Definition random_activity_events (seed : list nat) (db : Db) (GET : QueryDict)
  : result response :=
  let customer_org_id := GET !! "customer_org_id" in
  let account_id := GET !! "account_id" in
  if not_ customer_org_id || not_ account_id then
    Ok (JsonResponse_status (Error both_required) 400)
  else
    let events_qs :=
      take 10
        (Orm.order_by_random seed
           (List.filter
              (Orm.in_scope (default "" customer_org_id) (default "" account_id))
              (event_rows db))) in
    Ok (JsonResponse (EventRows events_qs)).

(** [customers[org_id] = {...}] when the key is new, then the append to
    its [accounts]. *)
Fixpoint append_account (org_id : string) (account : string * string)
    (customers : list (string * list (string * string)))
  : list (string * list (string * string)) :=
  match customers with
  | [] => []
  | (o, accounts) :: rest =>
      if String.eqb o org_id then (o, (accounts ++ [account])%list) :: rest
      else (o, accounts) :: append_account org_id account rest
  end.

Definition add_customer (customers : list (string * list (string * string)))
    (item : string * string) : list (string * list (string * string)) :=
  let org_id := fst item in
  let account_id := snd item in
  let customers :=
    if existsb (fun kv => String.eqb (fst kv) org_id) customers then customers
    else (customers ++ [(org_id, [])])%list in
  append_account org_id (account_id, account_id) customers.

Definition customers (db : Db) : result response :=
  let customers_data := Orm.distinct_scopes (event_rows db) in
  Ok (JsonResponse (Customers (fold_left add_customer customers_data []))).

Definition random_persons (seed : list nat) (db : Db) (GET : QueryDict)
  : result response :=
  let customer_org_id := GET !! "customer_org_id" in
  if not_ customer_org_id then
    Ok (JsonResponse_status
          (Error "'customer_org_id' query parameter is required.") 400)
  else
    let persons_qs :=
      take 5
        (Orm.order_by_random seed
           (List.filter
              (fun p => String.eqb (Person.customer_org_id p)
                          (default "" customer_org_id))
              (person_rows db))) in
    Ok (JsonResponse (PersonRows persons_qs)).

End Views.

(** ** [urls.py]: the routes *)

Inductive view : Type :=
| index
| customers
| activity_events
| activity_counts
| first_touchpoints
| random_activity_events
| random_persons.

Definition urlpatterns : list (string * view) :=
  [ ("", index);
    ("api/customers/", customers);
    ("api/events/", activity_events);
    ("api/events/counts/", activity_counts);
    ("api/events/first-touchpoints/", first_touchpoints);
    ("api/events/random/", random_activity_events);
    ("api/people/random/", random_persons) ].

(** The view a path resolves to. *)
Definition resolve (path : string) : option view :=
  snd <$> List.find (fun r => String.eqb (fst r) path) urlpatterns.

(** A request handled by a view; [seed] is the randomness the database
    spends on [order_by("?")]. *)
Definition call (fromisoformat : string -> option Datetime.t) (seed : list nat)
    (v : view) (db : Db) (GET : QueryDict) : result response :=
  match v with
  | index => Views.index
  | customers => Views.customers db
  | activity_events => Views.activity_events fromisoformat db GET
  | activity_counts => Views.activity_counts db GET
  | first_touchpoints => Views.first_touchpoints db GET
  | random_activity_events => Views.random_activity_events seed db GET
  | random_persons => Views.random_persons seed db GET
  end.

(** The parameters the docstring of each handler marks as required. *)
Definition required_params (v : view) : list string :=
  match v with
  | index | customers => []
  | random_persons => ["customer_org_id"]
  | activity_events | activity_counts | first_touchpoints
  | random_activity_events => ["customer_org_id"; "account_id"]
  end.

(** ** Sample data *)

Module Sample.

Definition at_ (y m d h : Z) : Datetime.t := Datetime.mk y m d h 0 0 0.

Definition event (i : Z) (t : Datetime.t) (people : list Py.dict)
    (dir c a : string) : ActivityEvent.t :=
  ActivityEvent.mk i t "email" "web" "done" people [] dir c a.

Definition db : Db :=
  mkDb
    [ event 1 (at_ 2024 1 3 0) [ {[ "id" := Py.VInt 7 ]} ] "IN" "org" "acc";
      event 2 (at_ 2024 1 1 0)
        [ {[ "id" := Py.VInt 7; "role_in_touchpoint" := Py.VStr "to" ]};
          {[ "person_id" := Py.VInt 8; "first_name" := Py.VStr "Zed" ]} ]
        "IN" "org" "acc";
      event 3 (at_ 2024 1 1 5) [ {[ "id" := Py.VInt 9 ]} ] "OUT" "org" "acc";
      event 4 (at_ 2024 1 1 9) [ {[ "first_name" := Py.VStr "Ann" ]} ]
        "IN" "org" "acc";
      event 5 (at_ 2024 1 2 5) [] "IN" "org2" "acc" ]
    [ Person.mk (Py.VInt 7) "A" "B" "ab@example.org" "org";
      Person.mk (Py.VInt 5) "" "" "e@example.org" "org" ].

Definition scope : QueryDict :=
  {[ "customer_org_id" := "org"; "account_id" := "acc" ]}.

(** The scope with both dates set to the first of January. *)
Definition first_of_january : QueryDict :=
  <["start_date" := "2024-01-01"]> (<["end_date" := "2024-01-01"]> scope).

(** The scope, asking for page 5 of pages of two. *)
Definition page_five : QueryDict :=
  <["page" := "5"]> (<["page_size" := "2"]> scope).

Definition two_digits (a b : ascii) : option Z :=
  if Py.isdigit a && Py.isdigit b
  then Some (10 * Py.digit_value a + Py.digit_value b)
  else None.

(** A parser for the calendar form [YYYY-MM-DD], midnight UTC; it
    instantiates the parser of [activity_events] in the examples. *)
Definition fromisoformat (s : string) : option Datetime.t :=
  match s with
  | String y1 (String y2 (String y3 (String y4 (String "-"
      (String m1 (String m2 (String "-"
        (String d1 (String d2 EmptyString))))))))) =>
      hi ← two_digits y1 y2;
      lo ← two_digits y3 y4;
      m ← two_digits m1 m2;
      d ← two_digits d1 d2;
      Some (Datetime.mk (100 * hi + lo) m d 0 0 0 0)
  | _ => None
  end.

(** The example of the specification: two events of person 7. *)
Definition spec_db : Db :=
  mkDb
    [ event 1 (at_ 2024 1 1 0) [ {[ "id" := Py.VInt 7 ]} ] "IN" "org" "acc";
      event 2 (at_ 2024 1 3 0) [ {[ "id" := Py.VInt 7 ]} ] "IN" "org" "acc" ]
    [ Person.mk (Py.VInt 7) "A" "B" "" "org" ].

(** A request without scope whose page is no number. *)
Definition page_two_in_words : QueryDict := {[ "page" := "two" ]}.

(** A person whose record holds no name, referenced by one event. *)
Definition nameless_db : Db :=
  mkDb
    [ event 1 (at_ 2024 1 1 0) [ {[ "id" := Py.VInt 5 ]} ] "IN" "org" "acc" ]
    [ Person.mk (Py.VInt 5) "" "" "e@example.org" "org" ].

End Sample.

(** ** Vocabulary of the statements *)

(** A required parameter of the view is absent or empty. *)
Definition missing_required (v : view) (GET : QueryDict) : Prop :=
  exists k, In k (required_params v) /\ not_ (GET !! k) = true.

(** A date parameter is given and the parser rejects it. *)
Definition unparsable (fromisoformat : string -> option Datetime.t)
    (param : option string) : Prop :=
  exists s, param = Some s /\ s <> "" /\
            fromisoformat (Py.replace_char "Z" "+00:00" s) = None.

Definition malformed_date (fromisoformat : string -> option Datetime.t)
    (v : view) (GET : QueryDict) : Prop :=
  v = activity_events /\
  (unparsable fromisoformat (GET !! "start_date") \/
   unparsable fromisoformat (GET !! "end_date")).

(** [page] and [page_size], where the view reads them, are absent or
    accepted by [int]. *)
Definition integers_parse (v : view) (GET : QueryDict) : Prop :=
  v = activity_events ->
  (exists n, int_param (GET !! "page") 1 = Ok n) /\
  (exists n, int_param (GET !! "page_size") 50 = Ok n).

(** A person-reference of the event resolves to the identifier [k]. *)
Definition references (e : ActivityEvent.t) (k : Py.value) : Prop :=
  Py.truthy k = true /\
  exists person_ref, In person_ref (ActivityEvent.people e) /\
                     Views.person_id_of person_ref = k.

(** Every stored timestamp is a [datetime], its fields in range. *)
Definition timestamps_valid (db : Db) : Prop :=
  Forall (fun e => Datetime.valid (ActivityEvent.timestamp e)) (event_rows db).

(** The number of pages of [count] rows, [per_page] on each: none when
    the page size is so large that one row, as a fraction of a page, is
    the float zero; else the quotient rounded up, one page at least. *)
Definition total_pages_of (count per_page : Z) : Z :=
  if Z.max 1 count * 2 ^ 1075 <=? per_page then 0
  else - ((- Z.max 1 count) / per_page).

(** The page shown for the page asked for: a number out of range is
    replaced by the last page. *)
Definition shown_page (total_pages page : Z) : Z :=
  if (page <? 1) || (total_pages <? page) then total_pages else page.

(** The rows of page [n]. *)
Definition page_slice {A : Type} (per_page n : Z) (l : list A) : list A :=
  take (Z.to_nat per_page) (drop (Z.to_nat ((n - 1) * per_page)) l).

(** The listing a request gets once its parameters pass: the page
    shown, and the metadata computed from the page asked for. *)
Definition listing (db : Db) (qs : list ActivityEvent.t) (page page_size : Z)
  : response :=
  let np := total_pages_of (Z.of_nat (length qs)) page_size in
  let n := shown_page np page in
  JsonResponse
    (Events
       (List.map (Views.event_dict (person_rows db)) (page_slice page_size n qs))
       (Pagination.mk page np (Z.of_nat (length qs)) (n <? np) (1 <? n))).

(** The sum of a list of counts. *)
Definition total (l : list Z) : Z := fold_right Z.add 0 l.

(** The number of events of [l] on the calendar date [d]. *)
Definition events_on (d : Date.t) (l : list ActivityEvent.t) : Z :=
  Z.of_nat
    (length
       (List.filter
          (fun e => bool_decide (Datetime.date (ActivityEvent.timestamp e) = d))
          l)).

Definition date_lt (a b : Date.t) : Prop := Date.compare a b = Lt.

(** Rows of daily counts in strictly ascending order of date. *)
Abbreviation by_date :=
  (StronglySorted (fun x y : Date.t * Z => date_lt (fst x) (fst y))).

(** The entry of the dictionary was recorded while the scan was at the
    event [e]. *)
Definition recorded_at (e : ActivityEvent.t) (kv : Py.value * Touchpoint.t)
  : Prop :=
  references e (fst kv) /\
  Touchpoint.person_id (snd kv) = fst kv /\
  Touchpoint.timestamp (snd kv)
  = Datetime.isoformat (ActivityEvent.timestamp e) /\
  Touchpoint.activity (snd kv) = ActivityEvent.activity e /\
  Touchpoint.channel (snd kv) = ActivityEvent.channel e.

(** Two touchpoints in the order of the key [sorted] is called with. *)
Definition timestamp_le (x y : Touchpoint.t) : Prop :=
  String.leb (Touchpoint.timestamp x) (Touchpoint.timestamp y) = true.

(** A string of decimal digits only. *)
Fixpoint all_digits (s : string) : bool :=
  match s with
  | EmptyString => true
  | String c s' => Py.isdigit c && all_digits s'
  end.

(** The name and e-mail address a touchpoint gets for the reference it
    was recorded from: those of the person record when the lookup finds
    one, else those of the reference. *)
Definition resolved_from (persons : list Person.t) (person_ref : Py.dict)
    (tp : Touchpoint.t) : Prop :=
  match Orm.get_person persons (Views.person_id_of person_ref) with
  | Some person =>
      Touchpoint.person_name tp
      = Py.strip (Person.first_name person ++ " " ++ Person.last_name person)
      /\ Touchpoint.email tp = Py.VStr (Person.email_address person)
  | None =>
      Touchpoint.person_name tp
      = Py.str_or
          (Py.strip
             (Py.str (Py.get_or person_ref "first_name" (Py.VStr ""))
              ++ " "
              ++ Py.str (Py.get_or person_ref "last_name" (Py.VStr ""))))
          "Unknown"
      /\ Touchpoint.email tp = Py.get_or person_ref "email_address" (Py.VStr "")
  end.

(** The rows of a customer and account as the handlers query them. *)
Definition scoped_events (db : Db) (c a : string) : list ActivityEvent.t :=
  Orm.order_by_timestamp (List.filter (Orm.in_scope c a) (event_rows db)).

(** What an entry of the dictionary owes to the event and the reference
    it was recorded from. *)
Definition entry_of (persons : list Person.t) (e : ActivityEvent.t)
    (person_ref : Py.dict) (kv : Py.value * Touchpoint.t) : Prop :=
  In person_ref (ActivityEvent.people e) /\
  fst kv = Views.person_id_of person_ref /\
  Py.truthy (fst kv) = true /\
  Touchpoint.person_id (snd kv) = fst kv /\
  Touchpoint.timestamp (snd kv)
  = Datetime.isoformat (ActivityEvent.timestamp e) /\
  Touchpoint.activity (snd kv) = ActivityEvent.activity e /\
  Touchpoint.channel (snd kv) = ActivityEvent.channel e /\
  resolved_from persons person_ref (snd kv).

(** Strings, and pairs of strings, in strictly ascending order. *)
Definition string_lt (s t : string) : Prop := String.compare s t = Lt.

Definition pair_lt (p q : string * string) : Prop := Orm.pair_compare p q = Lt.

(** The account entries the directory lists under [org_id] once the
    pairs [ps] are grouped. *)
Definition accounts_of (org_id : string) (ps : list (string * string))
  : list (string * string) :=
  List.map (fun p => (snd p, snd p))
    (List.filter (fun p => String.eqb (fst p) org_id) ps).

(** The scope of an event: its customer and its account. *)
Definition scope_of (e : ActivityEvent.t) : string * string :=
  (ActivityEvent.customer_org_id e, ActivityEvent.account_id e).

(** The directory [R] groups the pairs [ps]: one entry for each
    customer of a pair, holding the accounts of its pairs in order. *)
Definition grouped (ps : list (string * string))
    (R : list (string * list (string * string))) : Prop :=
  NoDup (List.map fst R) /\
  forall o accts,
    In (o, accts) R <->
    accts = accounts_of o ps /\ exists p, In p ps /\ fst p = o.

(** A value that tells a person: neither [None], nor zero, nor the
    empty string. *)
Definition is_identifier (k : Py.value) : Prop :=
  k <> Py.VNone /\ k <> Py.VInt 0 /\ k <> Py.VStr "".

(** The identifier [k] of a person-reference: what it holds under the
    key ["id"] or, when that is no identifier, under ["person_id"]. *)
Definition identifies (person_ref : Py.dict) (k : Py.value) : Prop :=
  is_identifier k /\
  (person_ref !! "id" = Some k \/
   ((forall v, person_ref !! "id" = Some v -> ~ is_identifier v) /\
    person_ref !! "person_id" = Some k)).

(** The people of the event [e] hold a reference to the person [k]. *)
Definition mentions (e : ActivityEvent.t) (k : Py.value) : Prop :=
  exists person_ref,
    In person_ref (ActivityEvent.people e) /\ identifies person_ref k.

(** The entry [out] of a returned event for the reference [person_ref]
    of the stored one: the record of five keys of a person the
    reference identifies, or the reference when no person has its
    identifier, or when it has none. *)
Definition enriched_entry (persons : list Person.t)
    (person_ref out : Py.dict) : Prop :=
  (forall k, identifies person_ref k ->
     (exists p, In p persons /\ Person.id p = k) ->
     exists person,
       In person persons /\ Person.id person = k /\
       out = {[ "id" := k;
                "first_name" := Py.VStr (Person.first_name person);
                "last_name" := Py.VStr (Person.last_name person);
                "email_address" := Py.VStr (Person.email_address person);
                "role_in_touchpoint" :=
                  default Py.VNone (person_ref !! "role_in_touchpoint") ]})
  /\
  ((forall k, identifies person_ref k ->
      forall p, In p persons -> Person.id p <> k) ->
   out = person_ref).

(** An event of the customer, the account and the direction. *)
Definition matches (c a direction : string) (e : ActivityEvent.t) : Prop :=
  ActivityEvent.customer_org_id e = c /\ ActivityEvent.account_id e = a /\
  ActivityEvent.direction e = direction.

#[global] Instance matches_dec c a direction e :
  Decision (matches c a direction e).
Proof. unfold matches. apply _. Defined.

(** The timestamp of the event lies on the calendar date [d]. *)
Definition on_day (d : Date.t) (e : ActivityEvent.t) : Prop :=
  Datetime.year (ActivityEvent.timestamp e) = Date.year d /\
  Datetime.month (ActivityEvent.timestamp e) = Date.month d /\
  Datetime.day (ActivityEvent.timestamp e) = Date.day d.

#[global] Instance on_day_dec d e : Decision (on_day d e).
Proof. unfold on_day. apply _. Defined.

(** The number of events of [l] on the calendar date [d]. *)
Definition count_on (d : Date.t) (l : list ActivityEvent.t) : Z :=
  Z.of_nat (length (List.filter (fun e => bool_decide (on_day d e)) l)).

(** * Properties *)

(** ** The order of dates and datetimes *)

Lemma lex_compare_refl (l : list Z) : lex_compare l l = Eq.
Proof.
  induction l as [|x l IH]; simpl; [reflexivity|].
  now rewrite Z.compare_refl.
Qed.

Lemma lex_compare_Eq (l1 l2 : list Z) : lex_compare l1 l2 = Eq -> l1 = l2.
Proof.
  revert l2; induction l1 as [|x l1 IH]; intros [|y l2]; simpl;
    try discriminate; [reflexivity|].
  destruct (Z.compare_spec x y); try discriminate.
  intros H'; f_equal; [assumption | now apply IH].
Qed.

Lemma lex_compare_antisym (l1 l2 : list Z) :
  lex_compare l2 l1 = CompOpp (lex_compare l1 l2).
Proof.
  revert l2; induction l1 as [|x l1 IH]; intros [|y l2]; simpl; try reflexivity.
  rewrite (Z.compare_antisym x y).
  destruct (x ?= y); simpl; auto.
Qed.

Lemma lex_compare_le_trans (l1 l2 l3 : list Z) :
  lex_compare l1 l2 <> Gt -> lex_compare l2 l3 <> Gt -> lex_compare l1 l3 <> Gt.
Proof.
  revert l2 l3; induction l1 as [|x l1 IH]; intros [|y l2] [|z l3]; simpl;
    try congruence.
  destruct (Z.compare_spec x y), (Z.compare_spec y z), (Z.compare_spec x z);
    try lia; try congruence; subst; eauto.
Qed.

Lemma lex_compare_lt_trans (l1 l2 l3 : list Z) :
  lex_compare l1 l2 = Lt -> lex_compare l2 l3 = Lt -> lex_compare l1 l3 = Lt.
Proof.
  revert l2 l3; induction l1 as [|x l1 IH]; intros [|y l2] [|z l3]; simpl;
    try congruence.
  destruct (Z.compare_spec x y), (Z.compare_spec y z), (Z.compare_spec x z);
    try lia; try congruence; subst; eauto.
Qed.

Lemma datetime_fields_inj (a b : Datetime.t) :
  Datetime.fields a = Datetime.fields b -> a = b.
Proof. destruct a, b; unfold Datetime.fields; simpl; congruence. Qed.

Lemma date_fields_inj (a b : Date.t) : Date.fields a = Date.fields b -> a = b.
Proof. destruct a, b; unfold Date.fields; simpl; congruence. Qed.

Lemma datetime_leb_refl (a : Datetime.t) : Datetime.leb a a = true.
Proof. unfold Datetime.leb, Datetime.compare. now rewrite lex_compare_refl. Qed.

Lemma datetime_leb_trans (a b c : Datetime.t) :
  Datetime.leb a b = true -> Datetime.leb b c = true -> Datetime.leb a c = true.
Proof.
  unfold Datetime.leb, Datetime.compare; intros Hab Hbc.
  pose proof (lex_compare_le_trans (Datetime.fields a) (Datetime.fields b)
                (Datetime.fields c)) as Ht.
  destruct (lex_compare (Datetime.fields a) (Datetime.fields b));
    destruct (lex_compare (Datetime.fields b) (Datetime.fields c));
    destruct (lex_compare (Datetime.fields a) (Datetime.fields c));
    try discriminate; try reflexivity; exfalso; apply Ht; congruence.
Qed.

Lemma datetime_leb_total (a b : Datetime.t) :
  Datetime.leb a b = true \/ Datetime.leb b a = true.
Proof.
  unfold Datetime.leb, Datetime.compare.
  rewrite (lex_compare_antisym (Datetime.fields a) (Datetime.fields b)).
  destruct (lex_compare (Datetime.fields a) (Datetime.fields b)); simpl; auto.
Qed.

Lemma datetime_leb_antisym (a b : Datetime.t) :
  Datetime.leb a b = true -> Datetime.leb b a = true -> a = b.
Proof.
  unfold Datetime.leb, Datetime.compare.
  rewrite (lex_compare_antisym (Datetime.fields a) (Datetime.fields b)).
  destruct (lex_compare (Datetime.fields a) (Datetime.fields b)) eqn:E;
    simpl; try discriminate.
  intros _ _. now apply datetime_fields_inj, lex_compare_Eq.
Qed.

(** ** The stable sort *)

Section Sorting.
Context {A : Type} (leb : A -> A -> bool).

Let R (x y : A) : Prop := leb x y = true.

Lemma insert_by_perm (x : A) (l : list A) :
  Permutation (Orm.insert_by leb x l) (x :: l).
Proof.
  induction l as [|y l IH]; simpl; [reflexivity|].
  destruct (leb x y); [reflexivity|].
  rewrite IH. apply perm_swap.
Qed.

Lemma sort_by_perm (l : list A) : Permutation (Orm.sort_by leb l) l.
Proof.
  induction l as [|x l IH]; simpl; [reflexivity|].
  unfold Orm.sort_by in *; simpl.
  rewrite insert_by_perm. now constructor.
Qed.

Lemma sort_by_In (l : list A) (x : A) : In x (Orm.sort_by leb l) <-> In x l.
Proof.
  split; apply Permutation_in; [|symmetry]; apply sort_by_perm.
Qed.

(** Sorting a list that is in order already changes nothing. *)
Lemma sort_by_sorted_id (l : list A) :
  StronglySorted R l -> Orm.sort_by leb l = l.
Proof.
  induction 1 as [|x l Hs IH Hx]; [reflexivity|].
  unfold Orm.sort_by in *; simpl. rewrite IH.
  destruct l as [|y l]; simpl; [reflexivity|].
  inversion Hx as [|? ? Hxy _]; subst. unfold R in Hxy. now rewrite Hxy.
Qed.

Hypothesis leb_total : forall x y, leb x y = true \/ leb y x = true.
Hypothesis leb_trans :
  forall x y z, leb x y = true -> leb y z = true -> leb x z = true.

Lemma insert_by_sorted (x : A) (l : list A) :
  StronglySorted R l -> StronglySorted R (Orm.insert_by leb x l).
Proof.
  induction 1 as [|y l Hs IH Hy]; simpl.
  - constructor; constructor.
  - destruct (leb x y) eqn:E.
    + constructor; [now constructor|].
      constructor; [exact E|].
      eapply List.Forall_impl; [|exact Hy]. intros z Hz. eapply leb_trans; eauto.
    + constructor; [exact IH|].
      rewrite (insert_by_perm x l). constructor; [|exact Hy].
      destruct (leb_total x y) as [H|H]; [congruence | exact H].
Qed.

Lemma sort_by_sorted (l : list A) : StronglySorted R (Orm.sort_by leb l).
Proof.
  induction l as [|x l IH]; [constructor|].
  unfold Orm.sort_by in *; simpl. now apply insert_by_sorted.
Qed.

End Sorting.

Lemma StronglySorted_sublist {A : Type} (R : A -> A -> Prop) (l1 l2 : list A) :
  sublist l1 l2 -> StronglySorted R l2 -> StronglySorted R l1.
Proof.
  induction 1 as [|x l1 l2 Hsub IH|x l1 l2 Hsub IH]; intros Hs.
  - constructor.
  - apply StronglySorted_inv in Hs as [Hs Hx].
    constructor; [now apply IH|].
    rewrite Forall_forall in Hx. rewrite Forall_forall. intros y Hy.
    apply Hx. eapply elem_of_sublist; eauto.
  - apply StronglySorted_inv in Hs as [Hs _]. now apply IH.
Qed.

Lemma filter_sublist {A : Type} (f : A -> bool) (l : list A) :
  sublist (List.filter f l) l.
Proof.
  induction l as [|x l IH]; simpl; [constructor|].
  destruct (f x); now constructor.
Qed.

Lemma StronglySorted_map_iff {A B : Type} (f : A -> B) (R : B -> B -> Prop)
    (l : list A) :
  StronglySorted R (List.map f l) <-> StronglySorted (fun x y => R (f x) (f y)) l.
Proof.
  induction l as [|x l IH]; simpl.
  - split; constructor.
  - split; intros H; apply StronglySorted_inv in H as [Hs Hx];
      (constructor; [now apply IH|]).
    + rewrite Forall_forall in Hx. rewrite Forall_forall. intros y Hy.
      apply Hx, list_elem_of_In, in_map, list_elem_of_In, Hy.
    + rewrite Forall_forall in Hx. rewrite Forall_forall. intros y Hy.
      apply list_elem_of_In, in_map_iff in Hy as (z & <- & Hz).
      apply Hx, list_elem_of_In, Hz.
Qed.

(** ** ISO strings order as the instants they print *)

Lemma string_compare_refl (s : string) : String.compare s s = Eq.
Proof.
  induction s as [|c s IH]; simpl; [reflexivity|].
  unfold Ascii.compare. now rewrite N.compare_refl.
Qed.

Lemma string_compare_cons (c : ascii) (s1 s2 : string) :
  String.compare (String c s1) (String c s2) = String.compare s1 s2.
Proof. simpl. unfold Ascii.compare. now rewrite N.compare_refl. Qed.

(** Behind prefixes of one length the comparison is lexicographic. *)
Lemma string_compare_app (p1 p2 s1 s2 : string) :
  String.length p1 = String.length p2 ->
  String.compare (p1 ++ s1) (p2 ++ s2) =
  match String.compare p1 p2 with
  | Eq => String.compare s1 s2
  | c => c
  end.
Proof.
  revert p2; induction p1 as [|c p1 IH]; intros [|d p2] Hlen; simpl in *;
    try discriminate; [reflexivity|].
  destruct (Ascii.compare c d); try reflexivity.
  apply IH. congruence.
Qed.

Lemma string_length_app (s1 s2 : string) :
  String.length (s1 ++ s2) = (String.length s1 + String.length s2)%nat.
Proof. induction s1 as [|c s1 IH]; simpl; [reflexivity | now rewrite IH]. Qed.

Lemma length_fixed_width (w : nat) (x : Z) : String.length (fixed_width w x) = w.
Proof.
  revert x; induction w as [|w IH]; intros x; simpl; [reflexivity|].
  rewrite string_length_app, IH. simpl. lia.
Qed.

Lemma decimal_compare (x y : Z) :
  match x / 10 ?= y / 10 with
  | Eq => x mod 10 ?= y mod 10
  | c => c
  end = (x ?= y).
Proof.
  pose proof (Z.div_mod x 10 ltac:(lia)) as Hx.
  pose proof (Z.div_mod y 10 ltac:(lia)) as Hy.
  pose proof (Z.mod_pos_bound x 10 ltac:(lia)) as Bx.
  pose proof (Z.mod_pos_bound y 10 ltac:(lia)) as By.
  destruct (Z.compare_spec (x / 10) (y / 10)),
    (Z.compare_spec (x mod 10) (y mod 10)), (Z.compare_spec x y);
    try reflexivity; lia.
Qed.

Lemma digit_char_compare (a b : Z) :
  0 <= a < 10 -> 0 <= b < 10 ->
  Ascii.compare (digit_char a) (digit_char b) = (a ?= b).
Proof.
  intros Ha Hb. unfold Ascii.compare, digit_char.
  rewrite !N_ascii_embedding by lia.
  rewrite Z2N.inj_compare by lia.
  apply Z.add_compare_mono_l.
Qed.

Lemma fixed_width_compare (w : nat) (x y : Z) :
  String.compare (fixed_width w x) (fixed_width w y)
  = (x mod 10 ^ Z.of_nat w ?= y mod 10 ^ Z.of_nat w).
Proof.
  revert x y; induction w as [|w IH]; intros x y.
  - simpl. now rewrite !Z.mod_1_r.
  - cbn [fixed_width].
    rewrite string_compare_app by now rewrite !length_fixed_width.
    rewrite IH. simpl String.compare.
    rewrite digit_char_compare by (apply Z.mod_pos_bound; lia).
    rewrite Nat2Z.inj_succ, Z.pow_succ_r by lia.
    rewrite <- (decimal_compare (x mod (10 * 10 ^ Z.of_nat w))
                  (y mod (10 * 10 ^ Z.of_nat w))).
    assert (Hd : forall z, (z mod (10 * 10 ^ Z.of_nat w)) / 10
                           = (z / 10) mod 10 ^ Z.of_nat w).
    { intros z. rewrite Z.rem_mul_r by lia.
      rewrite (Z.add_comm (z mod 10)), (Z.mul_comm 10), Z.div_add_l by lia.
      rewrite (Z.div_small (z mod 10)) by (apply Z.mod_pos_bound; lia). lia. }
    assert (Hm : forall z, (z mod (10 * 10 ^ Z.of_nat w)) mod 10 = z mod 10).
    { intros z. rewrite Z.rem_mul_r by lia.
      rewrite (Z.mul_comm 10), Z.mod_add by lia.
      apply Z.mod_mod. lia. }
    rewrite !Hd, !Hm.
    destruct (_ ?= _); try reflexivity.
    destruct (x mod 10 ?= y mod 10); reflexivity.
Qed.

Lemma zero_pad_fixed (w : nat) (x : Z) :
  0 <= x < 10 ^ Z.of_nat w -> zero_pad w x = fixed_width w x.
Proof.
  intros [H0 H1]. unfold zero_pad.
  apply Z.leb_le in H0. apply Z.ltb_lt in H1. now rewrite H0, H1.
Qed.

Lemma zero_pad_length (w : nat) (x : Z) :
  0 <= x < 10 ^ Z.of_nat w -> String.length (zero_pad w x) = w.
Proof. intros H. rewrite zero_pad_fixed by exact H. apply length_fixed_width. Qed.

Lemma zero_pad_compare (w : nat) (x y : Z) :
  0 <= x < 10 ^ Z.of_nat w -> 0 <= y < 10 ^ Z.of_nat w ->
  String.compare (zero_pad w x) (zero_pad w y) = (x ?= y).
Proof.
  intros Hx Hy. rewrite !zero_pad_fixed by assumption.
  rewrite fixed_width_compare. now rewrite !Z.mod_small by assumption.
Qed.

(** One field of an ISO string, in front of the rest. *)
Lemma iso_field_compare (w : nat) (x y : Z) (xs ys : list Z) (s1 s2 : string) :
  0 <= x < 10 ^ Z.of_nat w -> 0 <= y < 10 ^ Z.of_nat w ->
  String.compare s1 s2 = lex_compare xs ys ->
  String.compare (zero_pad w x ++ s1) (zero_pad w y ++ s2)
  = lex_compare (x :: xs) (y :: ys).
Proof.
  intros Hx Hy Hs.
  rewrite string_compare_app by now rewrite !zero_pad_length.
  rewrite zero_pad_compare by assumption. simpl. now rewrite Hs.
Qed.

Lemma string_compare_sep (c : ascii) (s1 s2 : string) :
  String.compare (String c EmptyString ++ s1) (String c EmptyString ++ s2)
  = String.compare s1 s2.
Proof. apply string_compare_cons. Qed.

Lemma lex_compare_single (x y : Z) : lex_compare [x] [y] = (x ?= y).
Proof. simpl. now destruct (x ?= y). Qed.

(** The fraction and the zone suffix: a string without fraction sorts
    before any with one, as [+] sorts before the decimal point. *)
Lemma iso_fraction_compare (ua ub : Z) :
  0 <= ua <= 999999 -> 0 <= ub <= 999999 ->
  String.compare
    ((if ua =? 0 then "" else "." ++ zero_pad 6 ua) ++ "+00:00")
    ((if ub =? 0 then "" else "." ++ zero_pad 6 ub) ++ "+00:00")
  = lex_compare [ua] [ub].
Proof.
  intros Ha Hb. rewrite lex_compare_single.
  destruct (Z.eqb_spec ua 0) as [->|Na], (Z.eqb_spec ub 0) as [->|Nb].
  - reflexivity.
  - cbn [append String.compare].
    change (Ascii.compare "+" ".") with Lt. symmetry. apply Z.compare_lt_iff. lia.
  - cbn [append String.compare].
    change (Ascii.compare "." "+") with Gt. symmetry. apply Z.compare_gt_iff. lia.
  - change (String.compare (String "." (zero_pad 6 ua ++ "+00:00"))
              (String "." (zero_pad 6 ub ++ "+00:00")) = (ua ?= ub)).
    rewrite string_compare_cons.
    rewrite string_compare_app by (rewrite !zero_pad_length; simpl; lia).
    rewrite zero_pad_compare by (simpl; lia).
    rewrite string_compare_refl. now destruct (ua ?= ub).
Qed.

(** Comparing the ISO strings of two datetimes compares the datetimes. *)
Lemma datetime_isoformat_compare (a b : Datetime.t) :
  Datetime.valid a -> Datetime.valid b ->
  String.compare (Datetime.isoformat a) (Datetime.isoformat b)
  = Datetime.compare a b.
Proof.
  intros (Ya & Ma & Da & Ha & Mia & Sa & Ua) (Yb & Mb & Db & Hb & Mib & Sb & Ub).
  unfold Datetime.isoformat, Datetime.compare, Datetime.fields.
  apply iso_field_compare; [simpl; lia | simpl; lia |].
  rewrite string_compare_sep.
  apply iso_field_compare; [simpl; lia | simpl; lia |].
  rewrite string_compare_sep.
  apply iso_field_compare; [simpl; lia | simpl; lia |].
  rewrite string_compare_sep.
  apply iso_field_compare; [simpl; lia | simpl; lia |].
  rewrite string_compare_sep.
  apply iso_field_compare; [simpl; lia | simpl; lia |].
  rewrite string_compare_sep.
  apply iso_field_compare; [simpl; lia | simpl; lia |].
  now apply iso_fraction_compare.
Qed.

Lemma string_app_nil_r (s : string) : (s ++ "")%string = s.
Proof.
  induction s as [|c s IH]; [reflexivity|].
  change (String c (s ++ "")%string = String c s). now rewrite IH.
Qed.

Lemma date_isoformat_compare (a b : Date.t) :
  Date.valid a -> Date.valid b ->
  String.compare (Date.isoformat a) (Date.isoformat b) = Date.compare a b.
Proof.
  intros (Ya & Ma & Da) (Yb & Mb & Db).
  unfold Date.isoformat, Date.compare, Date.fields.
  apply iso_field_compare; [simpl; lia | simpl; lia |].
  rewrite string_compare_sep.
  apply iso_field_compare; [simpl; lia | simpl; lia |].
  rewrite string_compare_sep.
  rewrite <- (string_app_nil_r (zero_pad 2 (Date.day a))).
  rewrite <- (string_app_nil_r (zero_pad 2 (Date.day b))).
  apply iso_field_compare; [simpl; lia | simpl; lia | reflexivity].
Qed.

Lemma datetime_isoformat_leb (a b : Datetime.t) :
  Datetime.valid a -> Datetime.valid b ->
  String.leb (Datetime.isoformat a) (Datetime.isoformat b) = Datetime.leb a b.
Proof.
  intros Ha Hb. unfold String.leb, Datetime.leb.
  now rewrite datetime_isoformat_compare.
Qed.

Lemma date_isoformat_inj (a b : Date.t) :
  Date.valid a -> Date.valid b -> Date.isoformat a = Date.isoformat b -> a = b.
Proof.
  intros Ha Hb E.
  pose proof (date_isoformat_compare a b Ha Hb) as H.
  rewrite E, string_compare_refl in H.
  apply date_fields_inj, lex_compare_Eq. now symmetry.
Qed.

(** ** Examples *)

Example int_of_str_padded : Py.int_of_str " 42 " = Some 42.
Proof. reflexivity. Qed.

Example int_of_str_grouped : Py.int_of_str "-1_000" = Some (-1000).
Proof. reflexivity. Qed.

Example int_of_str_word : Py.int_of_str "abc" = None.
Proof. reflexivity. Qed.

Example int_of_str_float : Py.int_of_str "1.5" = None.
Proof. reflexivity. Qed.

Example int_of_str_empty : Py.int_of_str "" = None.
Proof. reflexivity. Qed.

Example strip_both_ends : Py.strip "  a b  " = "a b".
Proof. reflexivity. Qed.

Example isoformat_whole_second :
  Datetime.isoformat (Sample.at_ 2024 1 3 0) = "2024-01-03T00:00:00+00:00".
Proof. reflexivity. Qed.

Example isoformat_fraction :
  Datetime.isoformat (Datetime.mk 2024 1 3 4 5 6 7)
  = "2024-01-03T04:05:06.000007+00:00".
Proof. reflexivity. Qed.

Example resolve_events : resolve "api/events/" = Some activity_events.
Proof. reflexivity. Qed.

(** The example of the specification: one entry for person 7, at the
    earlier of the two events, named from the person record. *)
Example first_touchpoints_spec_example :
  Views.first_touchpoints Sample.spec_db Sample.scope
  = Ok (JsonResponse
          (FirstTouchpoints
             [ Touchpoint.mk (Py.VInt 7) "A B" (Py.VStr "")
                 "2024-01-01T00:00:00+00:00" "email" "web" ])).
Proof. reflexivity. Qed.

(** ** Request validation *)

(** [not v] holds of a parameter that is absent or empty. *)
Lemma not_true_iff (v : option string) :
  not_ v = true <-> v = None \/ v = Some "".
Proof.
  destruct v as [s|]; simpl.
  - rewrite String.eqb_eq. split; [intros ->; now right|].
    intros [H|H]; congruence.
  - split; auto.
Qed.

Lemma not_false_iff (v : option string) :
  not_ v = false <-> exists s, v = Some s /\ s <> "".
Proof.
  destruct v as [s|]; simpl.
  - rewrite String.eqb_neq. split; [eauto|]. intros (s' & [= <-] & H). exact H.
  - split; [discriminate|]. intros (s & H & _). discriminate.
Qed.

Lemma int_param_raises (v : option string) (dflt : Z) (e : exn) :
  int_param v dflt = Exc e ->
  e = ValueError /\ exists s, v = Some s /\ Py.int_of_str s = None.
Proof.
  destruct v as [s|]; simpl; [|discriminate].
  destruct (Py.int_of_str s) eqn:E; [discriminate|].
  intros [= <-]. eauto.
Qed.

(** C9: when [page] or [page_size] is present and [int] rejects it, the
    event listing raises [ValueError]; nothing else of the request is
    looked at, so the required parameters may be missing as well. *)
Theorem activity_events_malformed_page_raises
    (fromisoformat : string -> option Datetime.t) (db : Db) (GET : QueryDict) :
  (exists s, GET !! "page" = Some s /\ Py.int_of_str s = None) \/
  (exists s, GET !! "page_size" = Some s /\ Py.int_of_str s = None) ->
  Views.activity_events fromisoformat db GET = Exc ValueError.
Proof.
  intros [(s & Hs & Hbad)|(s & Hs & Hbad)]; unfold Views.activity_events.
  - rewrite Hs. simpl. now rewrite Hbad.
  - rewrite Hs.
    destruct (int_param (GET !! "page") 1) as [page|e] eqn:Hp.
    + simpl. now rewrite Hbad.
    + apply int_param_raises in Hp as [-> _]. reflexivity.
Qed.

Lemma activity_events_malformed_page_raises_witness :
  not_ (Sample.page_two_in_words !! "customer_org_id") = true /\
  Views.activity_events Sample.fromisoformat Sample.db Sample.page_two_in_words
  = Exc ValueError.
Proof.
  split; [reflexivity|].
  apply activity_events_malformed_page_raises.
  left. exists "two". split; reflexivity.
Defined.

Lemma date_filter_cases (fromisoformat : string -> option Datetime.t)
    (keep : Datetime.t -> ActivityEvent.t -> bool) (param : option string)
    (msg : string) (qs : list ActivityEvent.t) :
  (unparsable fromisoformat param /\
   Views.date_filter fromisoformat keep param msg qs
   = inr (JsonResponse_status (Error msg) 400))
  \/
  (~ unparsable fromisoformat param /\
   exists qs', Views.date_filter fromisoformat keep param msg qs = inl qs').
Proof.
  unfold Views.date_filter, unparsable.
  destruct param as [s|].
  - destruct (String.eqb_spec s "") as [->|Hne].
    + right. split; [|eauto]. intros (s & [= <-] & H & _). now apply H.
    + destruct (fromisoformat (Py.replace_char "Z" "+00:00" s)) as [dt|] eqn:E.
      * right. split; [|eauto]. intros (s' & [= <-] & _ & H). congruence.
      * left. split; [|reflexivity]. eauto.
  - right. split; [|eauto]. intros (s & H & _). discriminate.
Qed.

Lemma matched_events_cases (fromisoformat : string -> option Datetime.t)
    (db : Db) (c a : string) (start_date end_date : option string) :
  ((unparsable fromisoformat start_date \/ unparsable fromisoformat end_date) /\
   exists msg, Views.matched_events fromisoformat db c a start_date end_date
               = inr (JsonResponse_status (Error msg) 400))
  \/
  (~ (unparsable fromisoformat start_date \/ unparsable fromisoformat end_date) /\
   exists qs, Views.matched_events fromisoformat db c a start_date end_date
              = inl qs).
Proof.
  unfold Views.matched_events.
  set (qs0 := Orm.order_by_timestamp _).
  destruct (date_filter_cases fromisoformat Orm.timestamp_gte start_date
              "Invalid start_date format" qs0) as [[Hs ->]|[Hs [qs1 ->]]].
  - left. split; [now left | eauto].
  - destruct (date_filter_cases fromisoformat Orm.timestamp_lte end_date
                "Invalid end_date format" qs1) as [[He ->]|[He [qs2 ->]]].
    + left. split; [now right | eauto].
    + right. split; [tauto | eauto].
Qed.

Lemma missing_required_two (v : view) (GET : QueryDict) :
  required_params v = ["customer_org_id"; "account_id"] ->
  missing_required v GET <->
  not_ (GET !! "customer_org_id") || not_ (GET !! "account_id") = true.
Proof.
  intros Hreq. unfold missing_required. rewrite Hreq, orb_true_iff. split.
  - intros (k & [<-|[<-|[]]] & Hk); auto.
  - intros [H|H]; eexists; (split; [|exact H]); simpl; auto.
Qed.

Lemma missing_required_one (GET : QueryDict) :
  missing_required random_persons GET <-> not_ (GET !! "customer_org_id") = true.
Proof.
  unfold missing_required. simpl. split.
  - intros (k & [<-|[]] & Hk); auto.
  - intros H; eexists; (split; [|exact H]); simpl; auto.
Qed.

Lemma missing_required_none (v : view) (GET : QueryDict) :
  required_params v = [] -> ~ missing_required v GET.
Proof. intros Hreq (k & Hk & _). rewrite Hreq in Hk. destruct Hk. Qed.

(** The four handlers that test their parameters first. *)
Ltac two_param_view GET :=
  destruct (not_ (GET !! "customer_org_id") || not_ (GET !! "account_id"))
    eqn:Hmiss;
  [ split;
    [ intros _ _; eauto
    | intros r [= <-] _; simpl;
      repeat split; auto; left;
      now apply missing_required_two ]
  | split;
    [ intros _ [Hm|[Hv _]]; [|discriminate];
      apply missing_required_two in Hm; [congruence | reflexivity]
    | intros r [= <-]; simpl; congruence ] ].

(** C4, amended: a request of which a required parameter is absent or
    empty, or an event listing of which a date that is given does not
    parse, is answered 400 with an [error] body, provided the page
    numbers of an event listing are absent or integers; and a handler
    sends no response other than 200 except in these two cases. *)
Theorem error_responses
    (fromisoformat : string -> option Datetime.t) (seed : list nat)
    (v : view) (db : Db) (GET : QueryDict) :
  (integers_parse v GET ->
   missing_required v GET \/ malformed_date fromisoformat v GET ->
   exists msg, call fromisoformat seed v db GET
               = Ok (JsonResponse_status (Error msg) 400))
  /\
  (forall r, call fromisoformat seed v db GET = Ok r -> status r <> 200 ->
     status r = 400 /\ In "error" (body_keys (content r)) /\
     (missing_required v GET \/ malformed_date fromisoformat v GET)).
Proof.
  destruct v; simpl.
  - split.
    + intros _ [Hm|[Hv _]]; [|discriminate].
      now apply missing_required_none in Hm.
    + unfold Views.index. intros r [= <-]. simpl. congruence.
  - split.
    + intros _ [Hm|[Hv _]]; [|discriminate].
      now apply missing_required_none in Hm.
    + unfold Views.customers. intros r [= <-]. simpl. congruence.
  - unfold Views.activity_events. split.
    + intros Hint Hbad.
      destruct (Hint eq_refl) as [[page ->] [page_size ->]]. simpl.
      destruct (not_ (GET !! "customer_org_id") || not_ (GET !! "account_id"))
        eqn:Hmiss; [eauto|].
      destruct Hbad as [Hm|[_ Hd]].
      { apply missing_required_two in Hm; [congruence | reflexivity]. }
      destruct (matched_events_cases fromisoformat db
                  (default "" (GET !! "customer_org_id"))
                  (default "" (GET !! "account_id"))
                  (GET !! "start_date") (GET !! "end_date"))
        as [[_ [msg ->]]|[Hn _]]; [eauto | tauto].
    + intros r.
      destruct (int_param (GET !! "page") 1) as [page|]; simpl; [|discriminate].
      destruct (int_param (GET !! "page_size") 50) as [page_size|]; simpl;
        [|discriminate].
      destruct (not_ (GET !! "customer_org_id") || not_ (GET !! "account_id"))
        eqn:Hmiss.
      { intros [= <-] _. simpl. repeat split; auto. left.
        now apply missing_required_two. }
      destruct (matched_events_cases fromisoformat db
                  (default "" (GET !! "customer_org_id"))
                  (default "" (GET !! "account_id"))
                  (GET !! "start_date") (GET !! "end_date"))
        as [[Hd [msg ->]]|[_ [qs ->]]].
      { intros [= <-] _. simpl. repeat split; auto. right. now split. }
      destruct (Paginator.get_page _ _) as [pg|]; simpl; [|discriminate].
      destruct (Paginator.num_pages _) as [np|]; simpl; [|discriminate].
      destruct (Paginator.has_next pg) as [hn|]; simpl; [|discriminate].
      intros [= <-]. simpl. congruence.
  - unfold Views.activity_counts. two_param_view GET.
  - unfold Views.first_touchpoints. two_param_view GET.
  - unfold Views.random_activity_events. two_param_view GET.
  - unfold Views.random_persons.
    destruct (not_ (GET !! "customer_org_id")) eqn:Hmiss.
    + split; [intros _ _; eauto|].
      intros r [= <-] _; simpl. repeat split; auto. left.
      now apply missing_required_one.
    + split.
      * intros _ [Hm|[Hv _]]; [|discriminate].
        apply missing_required_one in Hm. congruence.
      * intros r [= <-]; simpl; congruence.
Qed.

Lemma error_responses_witness :
  exists msg,
    call Sample.fromisoformat [] activity_events Sample.db
      (<["start_date" := "yesterday"]> Sample.scope)
    = Ok (JsonResponse_status (Error msg) 400).
Proof.
  apply (proj1 (error_responses Sample.fromisoformat [] activity_events
                  Sample.db (<["start_date" := "yesterday"]> Sample.scope))).
  - intros _. split; eexists; reflexivity.
  - right. split; [reflexivity|]. left.
    exists "yesterday". split; [reflexivity|]. split; [discriminate | reflexivity].
Defined.

(** C4 as stated fails: a listing request without [customer_org_id]
    whose [page] is not an integer gets no response at all. *)
Lemma missing_parameter_without_response :
  ~ (forall GET : QueryDict,
       missing_required activity_events GET ->
       exists r, call Sample.fromisoformat [] activity_events Sample.db GET = Ok r
                 /\ status r = 400).
Proof.
  intros H.
  destruct (H Sample.page_two_in_words) as (r & Hr & _).
  - exists "customer_org_id". split; [simpl; auto | reflexivity].
  - vm_compute in Hr. discriminate.
Qed.

(** ** Random samples *)

Lemma order_by_random_perm {A : Type} (seed : list nat) (l : list A) :
  Permutation (Orm.order_by_random seed l) l.
Proof.
  revert l; induction seed as [|s seed IH]; intros l; simpl; [reflexivity|].
  destruct (l !! (s mod length l)%nat) as [x|] eqn:E.
  - rewrite IH. symmetry. now apply delete_Permutation.
  - destruct l as [|y l]; [reflexivity|].
    apply lookup_ge_None in E.
    pose proof (Nat.mod_upper_bound s (length (y :: l))) as Hb.
    simpl in *. lia.
Qed.

Lemma order_by_random_In {A : Type} (seed : list nat) (l : list A) (x : A) :
  In x (Orm.order_by_random seed l) -> In x l.
Proof. apply Permutation_in, order_by_random_perm. Qed.

Lemma in_take {A : Type} (n : nat) (l : list A) (x : A) :
  In x (take n l) -> In x l.
Proof.
  intros H. apply list_elem_of_In. eapply elem_of_sublist; [|apply sublist_take].
  apply list_elem_of_In, H.
Qed.

(** C8: with its parameters present, the events sample holds at most
    ten rows, each a stored event of the customer and account asked
    for, and the persons sample at most five rows, each a stored person
    of the customer asked for. *)
Theorem random_samples_bounded_and_scoped
    (seed : list nat) (db : Db) (GET : QueryDict) (c : string) :
  GET !! "customer_org_id" = Some c -> c <> "" ->
  (forall a, GET !! "account_id" = Some a -> a <> "" ->
     exists rows,
       Views.random_activity_events seed db GET = Ok (JsonResponse (EventRows rows))
       /\ (length rows <= 10)%nat
       /\ forall e, In e rows ->
            In e (event_rows db) /\ ActivityEvent.customer_org_id e = c
            /\ ActivityEvent.account_id e = a)
  /\
  (exists rows,
     Views.random_persons seed db GET = Ok (JsonResponse (PersonRows rows))
     /\ (length rows <= 5)%nat
     /\ forall p, In p rows ->
          In p (person_rows db) /\ Person.customer_org_id p = c).
Proof.
  intros Hc Hne.
  assert (Hnc : not_ (GET !! "customer_org_id") = false).
  { apply not_false_iff. eauto. }
  split.
  - intros a Ha Hna.
    assert (Hnota : not_ (GET !! "account_id") = false).
    { apply not_false_iff. eauto. }
    unfold Views.random_activity_events. rewrite Hnc, Hnota, Hc, Ha. simpl.
    eexists. split; [reflexivity|]. split.
    + rewrite length_take. lia.
    + intros e He. apply in_take, order_by_random_In, filter_In in He.
      destruct He as [He Hs]. unfold Orm.in_scope in Hs.
      apply andb_true_iff in Hs as [H1 H2].
      apply String.eqb_eq in H1, H2. auto.
  - unfold Views.random_persons. rewrite Hnc, Hc. simpl.
    eexists. split; [reflexivity|]. split.
    + rewrite length_take. lia.
    + intros p Hp. apply in_take, order_by_random_In, filter_In in Hp.
      destruct Hp as [Hp Hs]. apply String.eqb_eq in Hs. auto.
Qed.

Lemma random_samples_bounded_and_scoped_witness :
  exists rows,
    Views.random_persons [3; 1; 4]%nat Sample.db Sample.scope
    = Ok (JsonResponse (PersonRows rows))
    /\ (length rows <= 5)%nat
    /\ forall p, In p rows ->
         In p (person_rows Sample.db) /\ Person.customer_org_id p = "org".
Proof.
  apply (proj2 (random_samples_bounded_and_scoped [3; 1; 4]%nat Sample.db
                  Sample.scope "org" eq_refl ltac:(discriminate))).
Defined.

(** ** The paginator *)

Section PaginatorFacts.
Context {A : Type}.
Implicit Types (l : list A) (per_page n page : Z).

Lemma underflow_bound_pos : 0 < underflow_bound.
Proof. unfold underflow_bound. apply Z.pow_pos_nonneg; lia. Qed.

(** The two cases of a positive page size. *)
Lemma total_pages_of_cases (count per_page : Z) :
  0 < per_page ->
  (Z.max 1 count * underflow_bound <= per_page /\
   total_pages_of count per_page = 0)
  \/
  (per_page < Z.max 1 count * underflow_bound /\
   total_pages_of count per_page = - ((- Z.max 1 count) / per_page) /\
   1 <= total_pages_of count per_page).
Proof.
  intros Hp. unfold total_pages_of. fold underflow_bound.
  destruct (Z.leb_spec (Z.max 1 count * underflow_bound) per_page) as [H|H].
  - left. auto.
  - right. split; [exact H|]. split; [reflexivity|].
    assert ((- Z.max 1 count) / per_page < 0); [|lia].
    apply Z.div_lt_upper_bound; lia.
Qed.

Lemma total_pages_of_pos (count per_page : Z) :
  0 < per_page -> per_page < underflow_bound ->
  1 <= total_pages_of count per_page.
Proof.
  intros Hp Hb. pose proof underflow_bound_pos as HB.
  destruct (total_pages_of_cases count per_page Hp) as [[H _]|(_ & _ & H)];
    [nia | exact H].
Qed.

Lemma total_pages_of_exact (count per_page : Z) :
  0 < per_page -> 1 <= total_pages_of count per_page ->
  total_pages_of count per_page = - ((- Z.max 1 count) / per_page).
Proof.
  intros Hp Hnp.
  destruct (total_pages_of_cases count per_page Hp) as [[_ H]|(_ & H & _)];
    [lia | exact H].
Qed.

(** More rows never leave fewer than one page. *)
Lemma total_pages_of_more_rows (count count' per_page : Z) :
  0 < per_page -> count <= count' ->
  1 <= total_pages_of count per_page -> 1 <= total_pages_of count' per_page.
Proof.
  intros Hp Hc Hnp. pose proof underflow_bound_pos as HB.
  destruct (total_pages_of_cases count per_page Hp) as [[_ H]|(H & _ & _)];
    [lia|].
  destruct (total_pages_of_cases count' per_page Hp) as [[H' _]|(_ & _ & H')];
    [nia | exact H'].
Qed.

Lemma total_pages_of_neg (count per_page : Z) :
  per_page < 0 -> total_pages_of count per_page <= 0.
Proof.
  intros Hp. unfold total_pages_of. fold underflow_bound.
  pose proof underflow_bound_pos as HB.
  destruct (Z.leb_spec (Z.max 1 count * underflow_bound) per_page) as [H|H];
    [lia|].
  assert (0 <= (- Z.max 1 count) / per_page); [|lia].
  rewrite <- (Z.opp_involutive per_page), Z.div_opp_opp by lia.
  apply Z.div_pos; lia.
Qed.

(** The last page starts inside the list, or at its end when empty. *)
Lemma last_page_starts_inside (count per_page : Z) :
  0 < per_page -> 0 <= count -> 1 <= total_pages_of count per_page ->
  (total_pages_of count per_page - 1) * per_page < Z.max 1 count.
Proof.
  intros Hp Hc Hnp. rewrite (total_pages_of_exact count per_page Hp Hnp).
  pose proof (Z.div_mod (- Z.max 1 count) per_page ltac:(lia)) as Hdm.
  pose proof (Z.mod_pos_bound (- Z.max 1 count) per_page Hp) as Hb.
  nia.
Qed.

Lemma num_pages_eq l per_page :
  per_page <> 0 ->
  Paginator.num_pages (Paginator.mk l per_page)
  = Ok (total_pages_of (Z.of_nat (length l)) per_page).
Proof.
  intros Hp. unfold Paginator.num_pages, Paginator.count, total_pages_of.
  simpl. apply Z.eqb_neq in Hp. rewrite Hp. fold underflow_bound.
  now destruct (_ <=? per_page).
Qed.

Lemma page_in_range l per_page n :
  0 < per_page -> 1 <= n <= total_pages_of (Z.of_nat (length l)) per_page ->
  Paginator.page (Paginator.mk l per_page) n
  = Ok (Paginator.mk_page (page_slice per_page n l) n (Paginator.mk l per_page)).
Proof.
  intros Hp [Hn1 Hn2].
  unfold Paginator.page, Paginator.validate_number.
  rewrite num_pages_eq by lia.
  assert (H1 : (n <? 1) = false) by (apply Z.ltb_ge; lia).
  assert (H2 : (total_pages_of (Z.of_nat (length l)) per_page <? n) = false)
    by (apply Z.ltb_ge; lia).
  rewrite H1. simpl. rewrite H2. simpl.
  unfold Paginator.slice, Paginator.count. simpl.
  set (bottom := (n - 1) * per_page).
  assert (Hb : 0 <= bottom) by (unfold bottom; nia).
  assert (H3 : (bottom <? 0) = false) by (apply Z.ltb_ge; lia).
  rewrite H3. simpl.
  destruct (Z.leb_spec (Z.of_nat (length l)) (bottom + per_page)) as [Hle|Hgt].
  - assert (H4 : (Z.of_nat (length l) <? 0) = false) by (apply Z.ltb_ge; lia).
    rewrite H4. simpl. do 2 f_equal. unfold page_slice. fold bottom.
    rewrite !take_ge; [reflexivity | |]; rewrite length_drop; lia.
  - assert (H4 : (bottom + per_page <? 0) = false) by (apply Z.ltb_ge; lia).
    rewrite H4. simpl. do 2 f_equal. unfold page_slice. fold bottom.
    f_equal. lia.
Qed.

Lemma shown_page_in_range (total_pages page : Z) :
  1 <= total_pages -> 1 <= shown_page total_pages page <= total_pages.
Proof.
  intros Hnp. unfold shown_page.
  destruct (Z.ltb_spec page 1), (Z.ltb_spec total_pages page); simpl; lia.
Qed.

(** With a positive page size and a page at least [get_page] returns
    a page. *)
Lemma get_page_pos l per_page page :
  0 < per_page ->
  1 <= total_pages_of (Z.of_nat (length l)) per_page ->
  let np := total_pages_of (Z.of_nat (length l)) per_page in
  let n := shown_page np page in
  Paginator.get_page (Paginator.mk l per_page) page
  = Ok (Paginator.mk_page (page_slice per_page n l) n (Paginator.mk l per_page)).
Proof.
  intros Hp Hnp np n. fold np in Hnp.
  unfold Paginator.get_page, Paginator.validate_number.
  rewrite num_pages_eq by lia. fold np.
  subst n. unfold shown_page.
  destruct (Z.ltb_spec page 1) as [Hlt|Hge]; simpl.
  - apply page_in_range; [assumption | fold np; lia].
  - destruct (Z.ltb_spec np page) as [Hgt|Hle]; simpl.
    + apply page_in_range; [assumption | fold np; lia].
    + apply page_in_range; [assumption | fold np; lia].
Qed.

(** Without a page there is none to show. *)
Lemma get_page_none l per_page page :
  per_page <> 0 -> total_pages_of (Z.of_nat (length l)) per_page <= 0 ->
  Paginator.get_page (Paginator.mk l per_page) page = Exc EmptyPage.
Proof.
  intros Hp Hnp. unfold Paginator.get_page, Paginator.validate_number.
  assert (Hlast :
    Paginator.page (Paginator.mk l per_page)
      (total_pages_of (Z.of_nat (length l)) per_page) = Exc EmptyPage).
  { unfold Paginator.page, Paginator.validate_number.
    destruct (Z.ltb_spec (total_pages_of (Z.of_nat (length l)) per_page) 1);
      [reflexivity | lia]. }
  rewrite num_pages_eq by exact Hp.
  destruct (Z.ltb_spec page 1); simpl; [exact Hlast|].
  destruct (Z.ltb_spec (total_pages_of (Z.of_nat (length l)) per_page) page);
    simpl; [exact Hlast | lia].
Qed.

(** A page size of zero divides by zero, a negative one leaves no page
    to show. *)
Lemma get_page_nonpos l per_page page :
  per_page <= 0 ->
  Paginator.get_page (Paginator.mk l per_page) page
  = Exc (if per_page =? 0 then ZeroDivisionError else EmptyPage).
Proof.
  intros Hp. destruct (Z.eqb_spec per_page 0) as [->|Hne].
  - unfold Paginator.get_page, Paginator.validate_number, Paginator.num_pages.
    simpl. destruct (page <? 1); reflexivity.
  - apply get_page_none; [exact Hne|]. apply total_pages_of_neg. lia.
Qed.

(** A page size of [2^1075] leaves a single row no page. *)
Example get_page_underflow :
  Paginator.get_page (Paginator.mk [tt] (2 ^ 1075)) 1 = Exc EmptyPage.
Proof. reflexivity. Qed.

Lemma page_slice_sublist per_page n l : sublist (page_slice per_page n l) l.
Proof.
  unfold page_slice. etransitivity; [apply sublist_take | apply sublist_drop].
Qed.

End PaginatorFacts.

(** ** The event listing *)

Section Listing.
Variable fromisoformat : string -> option Datetime.t.

Lemma activity_events_paginates (db : Db) (GET : QueryDict)
    (page page_size : Z) (c a : string) (qs : list ActivityEvent.t) :
  int_param (GET !! "page") 1 = Ok page ->
  int_param (GET !! "page_size") 50 = Ok page_size ->
  GET !! "customer_org_id" = Some c -> c <> "" ->
  GET !! "account_id" = Some a -> a <> "" ->
  Views.matched_events fromisoformat db c a
    (GET !! "start_date") (GET !! "end_date") = inl qs ->
  Views.activity_events fromisoformat db GET
  = if 0 <? page_size then
      if 1 <=? total_pages_of (Z.of_nat (length qs)) page_size
      then Ok (listing db qs page page_size)
      else Exc EmptyPage
    else Exc (if page_size =? 0 then ZeroDivisionError else EmptyPage).
Proof.
  intros Hpage Hsize Hc Hnc Ha Hna Hqs.
  unfold Views.activity_events.
  rewrite Hpage, Hsize. simpl.
  assert (H1 : not_ (GET !! "customer_org_id") = false)
    by (apply not_false_iff; eauto).
  assert (H2 : not_ (GET !! "account_id") = false)
    by (apply not_false_iff; eauto).
  rewrite H1, H2, Hc, Ha. simpl. rewrite Hqs.
  destruct (Z.ltb_spec 0 page_size) as [Hpos|Hnon].
  - destruct (Z.leb_spec 1 (total_pages_of (Z.of_nat (length qs)) page_size))
      as [Hnp|Hnp].
    + rewrite get_page_pos by assumption. simpl.
      rewrite num_pages_eq by lia. simpl.
      unfold Paginator.has_next. simpl.
      rewrite num_pages_eq by lia. reflexivity.
    + rewrite get_page_none by lia. reflexivity.
  - rewrite get_page_nonpos by exact Hnon. reflexivity.
Qed.

(** Every 200 response of the listing is of that form. *)
Lemma activity_events_listing (db : Db) (GET : QueryDict) (r : response) :
  Views.activity_events fromisoformat db GET = Ok r -> status r = 200 ->
  exists page page_size c a qs,
    int_param (GET !! "page") 1 = Ok page /\
    int_param (GET !! "page_size") 50 = Ok page_size /\
    GET !! "customer_org_id" = Some c /\ c <> "" /\
    GET !! "account_id" = Some a /\ a <> "" /\
    Views.matched_events fromisoformat db c a
      (GET !! "start_date") (GET !! "end_date") = inl qs /\
    0 < page_size /\
    1 <= total_pages_of (Z.of_nat (length qs)) page_size /\
    r = listing db qs page page_size.
Proof.
  intros Hr Hst.
  destruct (int_param (GET !! "page") 1) as [page|e] eqn:Hpage;
    [|unfold Views.activity_events in Hr; rewrite Hpage in Hr; discriminate].
  destruct (int_param (GET !! "page_size") 50) as [page_size|e] eqn:Hsize;
    [|unfold Views.activity_events in Hr; rewrite Hpage, Hsize in Hr;
      discriminate].
  destruct (not_ (GET !! "customer_org_id") || not_ (GET !! "account_id"))
    eqn:Hmiss.
  { unfold Views.activity_events in Hr. rewrite Hpage, Hsize in Hr.
    simpl in Hr. rewrite Hmiss in Hr. injection Hr as <-. discriminate. }
  apply orb_false_iff in Hmiss as [H1 H2].
  apply not_false_iff in H1 as (c & Hc & Hnc).
  apply not_false_iff in H2 as (a & Ha & Hna).
  destruct (Views.matched_events fromisoformat db c a
              (GET !! "start_date") (GET !! "end_date")) as [qs|r'] eqn:Hqs.
  - rewrite (activity_events_paginates db GET page page_size c a qs) in Hr
      by assumption.
    destruct (Z.ltb_spec 0 page_size) as [Hpos|Hnon]; [|discriminate].
    destruct (Z.leb_spec 1 (total_pages_of (Z.of_nat (length qs)) page_size))
      as [Hnp|Hnp]; [|discriminate].
    injection Hr as <-. exists page, page_size, c, a, qs. auto 12.
  - destruct (matched_events_cases fromisoformat db c a
                (GET !! "start_date") (GET !! "end_date"))
      as [[_ [msg Hm]]|[_ [qs Hm]]]; [|congruence].
    unfold Views.activity_events in Hr. rewrite Hpage, Hsize in Hr.
    simpl in Hr.
    assert (H1 : not_ (GET !! "customer_org_id") = false)
      by (apply not_false_iff; eauto).
    assert (H2 : not_ (GET !! "account_id") = false)
      by (apply not_false_iff; eauto).
    rewrite H1, H2, Hc, Ha in Hr. simpl in Hr. rewrite Hm in Hr.
    injection Hr as <-. discriminate.
Qed.

End Listing.

Lemma order_by_timestamp_sorted (l : list ActivityEvent.t) :
  StronglySorted
    (fun x y => Datetime.le (ActivityEvent.timestamp x) (ActivityEvent.timestamp y))
    (Orm.order_by_timestamp l).
Proof.
  unfold Orm.order_by_timestamp, Datetime.le.
  apply (sort_by_sorted
           (fun x y => Datetime.leb (ActivityEvent.timestamp x)
                         (ActivityEvent.timestamp y))).
  - intros x y. apply datetime_leb_total.
  - intros x y z. apply datetime_leb_trans.
Qed.

Lemma order_by_timestamp_In (l : list ActivityEvent.t) (e : ActivityEvent.t) :
  In e (Orm.order_by_timestamp l) <-> In e l.
Proof. apply sort_by_In. Qed.

Lemma in_scope_iff (c a : string) (e : ActivityEvent.t) :
  Orm.in_scope c a e = true <->
  ActivityEvent.customer_org_id e = c /\ ActivityEvent.account_id e = a.
Proof.
  unfold Orm.in_scope. now rewrite andb_true_iff, !String.eqb_eq.
Qed.

(** The rows of a customer and account, by ascending timestamp. *)
Lemma scoped_events_In (db : Db) (c a : string) (e : ActivityEvent.t) :
  In e (Orm.order_by_timestamp (List.filter (Orm.in_scope c a) (event_rows db)))
  <-> In e (event_rows db) /\ ActivityEvent.customer_org_id e = c
      /\ ActivityEvent.account_id e = a.
Proof. now rewrite order_by_timestamp_In, filter_In, in_scope_iff. Qed.

(** What a date block keeps: all rows when the parameter is not given,
    else the rows [keep] accepts for the parsed date. *)
Lemma date_filter_inl (fromisoformat : string -> option Datetime.t)
    (keep : Datetime.t -> ActivityEvent.t -> bool) (param : option string)
    (msg : string) (qs qs' : list ActivityEvent.t) :
  Views.date_filter fromisoformat keep param msg qs = inl qs' ->
  sublist qs' qs /\
  forall e, In e qs' <->
    In e qs /\
    forall s, param = Some s -> s <> "" ->
      exists dt, fromisoformat (Py.replace_char "Z" "+00:00" s) = Some dt
                 /\ keep dt e = true.
Proof.
  unfold Views.date_filter.
  destruct param as [s|].
  - destruct (String.eqb_spec s "") as [->|Hne].
    + intros [= <-]. split; [reflexivity|].
      intros e. split; [|tauto]. intros He. split; [exact He|].
      intros s [= <-] H. now destruct H.
    + destruct (fromisoformat (Py.replace_char "Z" "+00:00" s)) as [dt|] eqn:E;
        [|discriminate].
      intros [= <-]. split; [apply filter_sublist|].
      intros e. rewrite filter_In. split.
      * intros [He Hk]. split; [exact He|].
        intros s' [= <-] _. eauto.
      * intros [He Hk]. split; [exact He|].
        destruct (Hk s eq_refl Hne) as (dt' & Hdt & Hkeep). congruence.
  - intros [= <-]. split; [reflexivity|].
    intros e. split; [|tauto]. intros He. split; [exact He|]. discriminate.
Qed.

Lemma matched_events_unfiltered (fromisoformat : string -> option Datetime.t)
    (db : Db) (c a : string) :
  Views.matched_events fromisoformat db c a None None
  = inl (Orm.order_by_timestamp
           (List.filter (Orm.in_scope c a) (event_rows db))).
Proof. reflexivity. Qed.

Lemma matched_events_inl (fromisoformat : string -> option Datetime.t)
    (db : Db) (c a : string) (start_date end_date : option string)
    (qs : list ActivityEvent.t) :
  Views.matched_events fromisoformat db c a start_date end_date = inl qs ->
  let all :=
    Orm.order_by_timestamp (List.filter (Orm.in_scope c a) (event_rows db)) in
  sublist qs all /\
  forall e, In e qs <->
    In e all /\
    (forall s, start_date = Some s -> s <> "" ->
       exists dt, fromisoformat (Py.replace_char "Z" "+00:00" s) = Some dt
                  /\ Datetime.le dt (ActivityEvent.timestamp e)) /\
    (forall s, end_date = Some s -> s <> "" ->
       exists dt, fromisoformat (Py.replace_char "Z" "+00:00" s) = Some dt
                  /\ Datetime.le (ActivityEvent.timestamp e) dt).
Proof.
  intros H all. unfold Views.matched_events in H. fold all in H.
  destruct (Views.date_filter fromisoformat Orm.timestamp_gte start_date _ all)
    as [qs1|r] eqn:H1; [|discriminate].
  apply date_filter_inl in H1 as [S1 I1].
  apply date_filter_inl in H as [S2 I2].
  split; [etransitivity; eassumption|].
  intros e. rewrite I2, I1. unfold Orm.timestamp_gte, Orm.timestamp_lte.
  tauto.
Qed.

(** A page of the matched rows is in order and in scope. *)
Lemma matched_events_sorted (fromisoformat : string -> option Datetime.t)
    (db : Db) (c a : string) (start_date end_date : option string)
    (qs : list ActivityEvent.t) :
  Views.matched_events fromisoformat db c a start_date end_date = inl qs ->
  StronglySorted
    (fun x y => Datetime.le (ActivityEvent.timestamp x) (ActivityEvent.timestamp y))
    qs.
Proof.
  intros H. apply matched_events_inl in H as [Hsub _].
  eapply StronglySorted_sublist; [exact Hsub|].
  apply order_by_timestamp_sorted.
Qed.

Lemma StronglySorted_impl_In {A : Type} (R R' : A -> A -> Prop) (l : list A) :
  (forall x y, In x l -> In y l -> R x y -> R' x y) ->
  StronglySorted R l -> StronglySorted R' l.
Proof.
  intros Himp Hs. induction Hs as [|x l Hs IH Hx]; [constructor|].
  constructor.
  - apply IH. intros y z Hy Hz. apply Himp; now right.
  - rewrite Forall_forall in Hx. rewrite Forall_forall. intros y Hy.
    apply list_elem_of_In in Hy as Hy'.
    apply Himp; [now left | now right | now apply Hx].
Qed.

Lemma in_sublist {A : Type} (l1 l2 : list A) (x : A) :
  sublist l1 l2 -> In x l1 -> In x l2.
Proof.
  intros Hsub Hx. apply list_elem_of_In.
  eapply elem_of_sublist; [|exact Hsub]. now apply list_elem_of_In.
Qed.

(** C5: the events of a successful listing are those of a list of
    stored rows in non-decreasing order of timestamp, all of the
    customer and account of the query; the timestamps as printed are
    in non-decreasing order too. *)
Theorem listing_sorted_and_scoped
    (fromisoformat : string -> option Datetime.t) (db : Db) (GET : QueryDict)
    (c a : string) (r : response) :
  Views.activity_events fromisoformat db GET = Ok r -> status r = 200 ->
  GET !! "customer_org_id" = Some c -> GET !! "account_id" = Some a ->
  exists rows pg,
    content r = Events (List.map (Views.event_dict (person_rows db)) rows) pg /\
    (forall e, In e rows -> In e (event_rows db)) /\
    StronglySorted
      (fun x y => Datetime.le (ActivityEvent.timestamp x)
                    (ActivityEvent.timestamp y)) rows /\
    (timestamps_valid db ->
     StronglySorted
       (fun x y => String.leb (EventDict.timestamp x) (EventDict.timestamp y)
                   = true)
       (List.map (Views.event_dict (person_rows db)) rows)) /\
    Forall
      (fun ed => EventDict.customer_org_id ed = c /\ EventDict.account_id ed = a)
      (List.map (Views.event_dict (person_rows db)) rows).
Proof.
  intros Hr Hst Hc Ha.
  destruct (activity_events_listing fromisoformat db GET r Hr Hst)
    as (page & page_size & c' & a' & qs & Hpage & Hsize & Hc' & _ & Ha' & _
        & Hqs & Hpos & Hnp & ->).
  assert (c' = c) by congruence. assert (a' = a) by congruence. subst c' a'.
  pose proof (matched_events_sorted _ _ _ _ _ _ _ Hqs) as Hsorted.
  apply matched_events_inl in Hqs as [Hsub Hin].
  set (n := shown_page (total_pages_of (Z.of_nat (length qs)) page_size) page).
  assert (Hrows : forall e, In e (page_slice page_size n qs) ->
                    In e (event_rows db) /\ ActivityEvent.customer_org_id e = c
                    /\ ActivityEvent.account_id e = a).
  { intros e He. apply scoped_events_In.
    eapply in_sublist; [exact Hsub|].
    eapply in_sublist; [apply page_slice_sublist | exact He]. }
  assert (Hpage_sorted :
    StronglySorted
      (fun x y => Datetime.le (ActivityEvent.timestamp x)
                    (ActivityEvent.timestamp y)) (page_slice page_size n qs)).
  { eapply StronglySorted_sublist; [apply page_slice_sublist | exact Hsorted]. }
  exists (page_slice page_size n qs). eexists.
  split; [reflexivity|]. split; [intros e He; now apply Hrows|].
  split; [exact Hpage_sorted|]. split.
  - intros Hvalid. apply StronglySorted_map_iff.
    eapply StronglySorted_impl_In; [|exact Hpage_sorted].
    intros x y Hx Hy Hle. unfold Views.event_dict. simpl.
    unfold timestamps_valid in Hvalid. rewrite Forall_forall in Hvalid.
    rewrite datetime_isoformat_leb; [exact Hle | |];
      apply Hvalid, list_elem_of_In; now apply Hrows.
  - rewrite Forall_forall. intros ed Hed.
    apply list_elem_of_In, in_map_iff in Hed as (e & <- & He).
    destruct (Hrows e He) as (_ & H1 & H2). simpl. auto.
Qed.

Lemma listing_sorted_and_scoped_witness :
  exists rows pg,
    content (listing Sample.db
               (Orm.order_by_timestamp
                  (List.filter (Orm.in_scope "org" "acc")
                     (event_rows Sample.db))) 1 50)
    = Events (List.map (Views.event_dict (person_rows Sample.db)) rows) pg /\
    (forall e, In e rows -> In e (event_rows Sample.db)) /\
    StronglySorted
      (fun x y => Datetime.le (ActivityEvent.timestamp x)
                    (ActivityEvent.timestamp y)) rows /\
    (timestamps_valid Sample.db ->
     StronglySorted
       (fun x y => String.leb (EventDict.timestamp x) (EventDict.timestamp y)
                   = true)
       (List.map (Views.event_dict (person_rows Sample.db)) rows)) /\
    Forall
      (fun ed => EventDict.customer_org_id ed = "org"
                 /\ EventDict.account_id ed = "acc")
      (List.map (Views.event_dict (person_rows Sample.db)) rows).
Proof.
  apply (listing_sorted_and_scoped Sample.fromisoformat Sample.db Sample.scope);
    reflexivity.
Defined.

(** C6: the rows a listing request matches are a sublist of the rows
    the same request matches without its two dates, and a row of the
    latter is kept exactly when its timestamp is not before the start
    date, if one is given, and not after the end date, if one is
    given. *)
Theorem date_filters_narrow
    (fromisoformat : string -> option Datetime.t) (db : Db) (GET : QueryDict)
    (r : response) :
  Views.activity_events fromisoformat db GET = Ok r -> status r = 200 ->
  exists page page_size qs all,
    r = listing db qs page page_size /\
    Views.activity_events fromisoformat db
      (delete "start_date" (delete "end_date" GET))
    = Ok (listing db all page page_size) /\
    sublist qs all /\
    forall e, In e qs <->
      In e all /\
      (forall s, GET !! "start_date" = Some s -> s <> "" ->
         exists dt, fromisoformat (Py.replace_char "Z" "+00:00" s) = Some dt
                    /\ Datetime.le dt (ActivityEvent.timestamp e)) /\
      (forall s, GET !! "end_date" = Some s -> s <> "" ->
         exists dt, fromisoformat (Py.replace_char "Z" "+00:00" s) = Some dt
                    /\ Datetime.le (ActivityEvent.timestamp e) dt).
Proof.
  intros Hr Hst.
  destruct (activity_events_listing fromisoformat db GET r Hr Hst)
    as (page & page_size & c & a & qs & Hpage & Hsize & Hc & Hnc & Ha & Hna
        & Hqs & Hpos & Hnp & ->).
  exists page, page_size, qs,
    (Orm.order_by_timestamp (List.filter (Orm.in_scope c a) (event_rows db))).
  split; [reflexivity|]. split.
  - rewrite (activity_events_paginates fromisoformat db _ page page_size c a
               (Orm.order_by_timestamp
                  (List.filter (Orm.in_scope c a) (event_rows db)))).
    + assert (Hall :
        1 <= total_pages_of
               (Z.of_nat
                  (length
                     (Orm.order_by_timestamp
                        (List.filter (Orm.in_scope c a) (event_rows db)))))
               page_size).
      { apply (total_pages_of_more_rows (Z.of_nat (length qs)));
          [exact Hpos | | exact Hnp].
        apply matched_events_inl in Hqs as [Hsub _].
        apply sublist_length in Hsub. lia. }
      apply Z.ltb_lt in Hpos. apply Z.leb_le in Hall.
      now rewrite Hpos, Hall.
    + now rewrite !lookup_delete_ne by discriminate.
    + now rewrite !lookup_delete_ne by discriminate.
    + now rewrite !lookup_delete_ne by discriminate.
    + exact Hnc.
    + now rewrite !lookup_delete_ne by discriminate.
    + exact Hna.
    + rewrite lookup_delete_eq.
      rewrite lookup_delete_ne, lookup_delete_eq by discriminate.
      reflexivity.
  - now apply matched_events_inl in Hqs.
Qed.

Lemma date_filters_narrow_witness :
  exists page page_size qs all,
    listing Sample.db
      [ Sample.event 2 (Sample.at_ 2024 1 1 0)
          [ {[ "id" := Py.VInt 7; "role_in_touchpoint" := Py.VStr "to" ]};
            {[ "person_id" := Py.VInt 8; "first_name" := Py.VStr "Zed" ]} ]
          "IN" "org" "acc" ] 1 50
    = listing Sample.db qs page page_size /\
    Views.activity_events Sample.fromisoformat Sample.db
      (delete "start_date" (delete "end_date" Sample.first_of_january))
    = Ok (listing Sample.db all page page_size) /\
    sublist qs all /\
    forall e, In e qs <->
      In e all /\
      (forall s, Sample.first_of_january !! "start_date" = Some s -> s <> "" ->
         exists dt,
           Sample.fromisoformat (Py.replace_char "Z" "+00:00" s) = Some dt
           /\ Datetime.le dt (ActivityEvent.timestamp e)) /\
      (forall s, Sample.first_of_january !! "end_date" = Some s -> s <> "" ->
         exists dt,
           Sample.fromisoformat (Py.replace_char "Z" "+00:00" s) = Some dt
           /\ Datetime.le (ActivityEvent.timestamp e) dt).
Proof.
  apply (date_filters_narrow Sample.fromisoformat Sample.db
           Sample.first_of_january); reflexivity.
Defined.



(** On the sample data page 5 of two is asked for: the answer echoes 5
    and shows page 2, the last. *)
Example out_of_range_page_echoed :
  exists evs,
    Views.activity_events Sample.fromisoformat Sample.db Sample.page_five
    = Ok (JsonResponse (Events evs (Pagination.mk 5 2 4 false true)))
    /\ List.map EventDict.id evs = [4; 1].
Proof. eexists. split; reflexivity. Qed.

(** ** Enrichment *)

Lemma truthy_iff (k : Py.value) : Py.truthy k = true <-> is_identifier k.
Proof.
  unfold is_identifier. destruct k as [|n|s]; simpl.
  - split; [discriminate | intros (H & _); congruence].
  - rewrite negb_true_iff, Z.eqb_neq. split.
    + intros Hn. repeat split; congruence.
    + intros (_ & H & _) ->. congruence.
  - rewrite negb_true_iff. split.
    + intros Hs. repeat split; try discriminate.
      intros [= ->]. discriminate.
    + intros (_ & _ & H). destruct (String.eqb_spec s ""); congruence.
Qed.

(** The identifier the handler reads off a reference is the one under
    its keys. *)
Lemma identifies_iff (person_ref : Py.dict) (k : Py.value) :
  identifies person_ref k
  <-> Py.truthy k = true /\ Views.person_id_of person_ref = k.
Proof.
  unfold identifies, Views.person_id_of, Py.or_, Py.get.
  rewrite <- truthy_iff. split.
  - intros [Hk [Hid|[Hno Hpid]]]; split; try exact Hk.
    + rewrite Hid. simpl. now rewrite Hk.
    + destruct (person_ref !! "id") as [v|] eqn:E; simpl.
      * destruct (Py.truthy v) eqn:Hv.
        -- apply truthy_iff in Hv. now destruct (Hno v).
        -- now rewrite Hpid.
      * now rewrite Hpid.
  - intros [Hk Hor]. split; [exact Hk|].
    destruct (person_ref !! "id") as [v|] eqn:E; simpl in Hor.
    + destruct (Py.truthy v) eqn:Hv.
      * left. now subst.
      * right. split.
        -- intros v' [= <-] Hi. apply truthy_iff in Hi. congruence.
        -- destruct (person_ref !! "person_id") as [w|]; simpl in Hor;
             [now subst | subst; discriminate].
    + right. split; [discriminate|].
      destruct (person_ref !! "person_id") as [w|]; simpl in Hor;
        [now subst | subst; discriminate].
Qed.

Lemma get_person_Some (persons : list Person.t) (v : Py.value) (p : Person.t) :
  Orm.get_person persons v = Some p -> In p persons /\ Person.id p = v.
Proof.
  unfold Orm.get_person. intros H. apply find_some in H as [Hin Hid].
  split; [exact Hin|]. now apply bool_decide_eq_true in Hid.
Qed.

Lemma get_person_None (persons : list Person.t) (v : Py.value) :
  Orm.get_person persons v = None <->
  forall p, In p persons -> Person.id p <> v.
Proof.
  unfold Orm.get_person. split.
  - intros H p Hp. eapply find_none in H; [|exact Hp].
    now apply bool_decide_eq_false in H.
  - intros H. destruct (List.find _ persons) as [p|] eqn:E; [|reflexivity].
    apply find_some in E as [Hin Hid].
    apply bool_decide_eq_true in Hid. now apply H in Hin.
Qed.

Lemma enrich_enriched_entry (persons : list Person.t) (person_ref : Py.dict) :
  enriched_entry persons person_ref (Views.enrich persons person_ref).
Proof.
  unfold enriched_entry, Views.enrich. split.
  - intros k Hid (p & Hp & Hpk). apply identifies_iff in Hid as [Hk Hid].
    rewrite Hid, Hk.
    destruct (Orm.get_person persons k) as [person|] eqn:E.
    + apply get_person_Some in E as [Hin Hpid]. exists person.
      split; [exact Hin|]. split; [exact Hpid|]. now rewrite Hpid.
    + rewrite get_person_None in E. now apply E in Hp.
  - intros Hnone.
    destruct (Py.truthy (Views.person_id_of person_ref)) eqn:Hk;
      [|reflexivity].
    destruct (Orm.get_person persons (Views.person_id_of person_ref))
      as [person|] eqn:E; [|reflexivity].
    apply get_person_Some in E as [Hin Hpid].
    destruct (Hnone (Views.person_id_of person_ref)) with person;
      [now apply identifies_iff | exact Hin | exact Hpid].
Qed.

(** C3: each returned event is built from a stored row, and its
    [people] list holds, entry for entry: for a reference whose
    identifier, the value under its key ["id"] or else ["person_id"],
    is that of a person, the record of the five keys built from such a
    person and the role the reference gives; and the reference itself
    when it carries no identifier or no person has it. *)
Theorem people_enriched_or_passed_through
    (fromisoformat : string -> option Datetime.t) (db : Db) (GET : QueryDict)
    (r : response) :
  Views.activity_events fromisoformat db GET = Ok r -> status r = 200 ->
  exists rows pg,
    content r = Events (List.map (Views.event_dict (person_rows db)) rows) pg /\
    forall e, In e rows ->
      In e (event_rows db) /\
      Forall2 (enriched_entry (person_rows db)) (ActivityEvent.people e)
        (EventDict.people (Views.event_dict (person_rows db) e)).
Proof.
  intros Hr Hst.
  destruct (activity_events_listing fromisoformat db GET r Hr Hst)
    as (page & page_size & c & a & qs & Hpage & Hsize & Hc & Hnc & Ha & Hna
        & Hqs & Hpos & Hnp & ->).
  do 2 eexists. split; [reflexivity|].
  intros e He. split.
  - apply matched_events_inl in Hqs as [Hsub _].
    eapply in_sublist in He; [|apply page_slice_sublist].
    eapply in_sublist in He; [|exact Hsub].
    now apply scoped_events_In in He.
  - simpl. induction (ActivityEvent.people e) as [|person_ref l IH]; simpl;
      constructor; [apply enrich_enriched_entry | exact IH].
Qed.

Lemma people_enriched_or_passed_through_witness :
  exists rows pg,
    content (listing Sample.db
               (Orm.order_by_timestamp
                  (List.filter (Orm.in_scope "org" "acc")
                     (event_rows Sample.db))) 1 50)
    = Events (List.map (Views.event_dict (person_rows Sample.db)) rows) pg /\
    forall e, In e rows ->
      In e (event_rows Sample.db) /\
      Forall2 (enriched_entry (person_rows Sample.db)) (ActivityEvent.people e)
        (EventDict.people (Views.event_dict (person_rows Sample.db) e)).
Proof.
  apply (people_enriched_or_passed_through Sample.fromisoformat Sample.db
           Sample.scope); reflexivity.
Defined.

Example enrich_known_person :
  Views.enrich (person_rows Sample.db)
    {[ "id" := Py.VInt 7; "role_in_touchpoint" := Py.VStr "to" ]}
  = {[ "id" := Py.VInt 7; "first_name" := Py.VStr "A";
       "last_name" := Py.VStr "B";
       "email_address" := Py.VStr "ab@example.org";
       "role_in_touchpoint" := Py.VStr "to" ]}.
Proof. reflexivity. Qed.

Example enrich_unknown_person :
  Views.enrich (person_rows Sample.db)
    {[ "person_id" := Py.VInt 8; "first_name" := Py.VStr "Zed" ]}
  = {[ "person_id" := Py.VInt 8; "first_name" := Py.VStr "Zed" ]}.
Proof. reflexivity. Qed.

(** ** Daily counts *)

Lemma date_compare_Eq (a b : Date.t) : Date.compare a b = Eq -> a = b.
Proof. intros H. now apply date_fields_inj, lex_compare_Eq. Qed.

Lemma date_compare_Gt (a b : Date.t) : Date.compare a b = Gt -> date_lt b a.
Proof.
  unfold date_lt, Date.compare. intros H.
  rewrite lex_compare_antisym, H. reflexivity.
Qed.

Lemma date_lt_trans (a b c : Date.t) : date_lt a b -> date_lt b c -> date_lt a c.
Proof. unfold date_lt, Date.compare. apply lex_compare_lt_trans. Qed.

Lemma date_lt_irrefl (a : Date.t) : ~ date_lt a a.
Proof. unfold date_lt, Date.compare. now rewrite lex_compare_refl. Qed.

Lemma count_date_total (d : Date.t) (acc : list (Date.t * Z)) :
  total (List.map snd (Orm.count_date d acc)) = 1 + total (List.map snd acc).
Proof.
  induction acc as [|[d' n] acc IH]; simpl; [reflexivity|].
  destruct (Date.compare d d'); simpl; [lia | lia |].
  rewrite IH. lia.
Qed.

Lemma count_date_keys (d : Date.t) (acc : list (Date.t * Z)) (x : Date.t * Z) :
  In x (Orm.count_date d acc) -> fst x = d \/ exists y, In y acc /\ fst y = fst x.
Proof.
  induction acc as [|[d' n] acc IH]; simpl.
  - intros [<-|[]]. now left.
  - destruct (Date.compare d d') eqn:E; simpl.
    + apply date_compare_Eq in E as ->.
      intros [<-|H]; [now left | right; eauto].
    + intros [<-|[<-|H]]; [now left | right; eauto | right; eauto].
    + intros [<-|H]; [right; eauto|].
      destruct (IH H) as [Hd|(y & Hy & Hf)]; [now left | right; eauto].
Qed.

Lemma count_date_sorted (d : Date.t) (acc : list (Date.t * Z)) :
  by_date acc -> by_date (Orm.count_date d acc).
Proof.
  induction 1 as [|[d' n] acc Hs IH Hx]; simpl.
  - constructor; constructor.
  - rewrite Forall_forall in Hx.
    destruct (Date.compare d d') eqn:E.
    + apply date_compare_Eq in E as ->.
      constructor; [exact Hs|]. rewrite Forall_forall. exact Hx.
    + constructor; [constructor; [exact Hs | now rewrite Forall_forall]|].
      constructor; [exact E|].
      rewrite Forall_forall. intros y Hy. simpl.
      eapply date_lt_trans; [exact E | now apply Hx].
    + constructor; [exact IH|].
      rewrite Forall_forall. intros y Hy. simpl.
      apply list_elem_of_In, count_date_keys in Hy as [->|(z & Hz & <-)].
      * now apply date_compare_Gt.
      * now apply Hx, list_elem_of_In.
Qed.

(** In a list in date order the entry of a date is unique. *)
Lemma by_date_head_fresh (d : Date.t) (n m : Z) (acc : list (Date.t * Z)) :
  by_date ((d, n) :: acc) -> ~ In (d, m) acc.
Proof.
  intros Hs Hin. apply StronglySorted_inv in Hs as [_ Hx].
  rewrite Forall_forall in Hx.
  apply list_elem_of_In, Hx in Hin. simpl in Hin.
  now apply date_lt_irrefl in Hin.
Qed.

(** What [count_date] does to the entry of each date. *)
Lemma count_date_In (d : Date.t) (acc : list (Date.t * Z)) (d' : Date.t) (n : Z) :
  by_date acc ->
  In (d', n) (Orm.count_date d acc) <->
  (d' <> d /\ In (d', n) acc) \/
  (d' = d /\ ((exists m, In (d, m) acc /\ n = m + 1) \/
              ((forall m, ~ In (d, m) acc) /\ n = 1))).
Proof.
  induction acc as [|[d0 n0] acc IH]; intros Hs.
  - simpl. split.
    + intros [[= <- <-]|[]]. right. split; [reflexivity|]. right. auto.
    + intros [[_ []]|[-> [(m & [] & _)|[_ ->]]]]. now left.
  - pose proof Hs as Hs'. apply StronglySorted_inv in Hs' as [Hacc Hx].
    rewrite Forall_forall in Hx. specialize (IH Hacc).
    assert (Hlater : forall m, In (d, m) acc -> date_lt d0 d).
    { intros m Hm. apply list_elem_of_In, Hx in Hm. exact Hm. }
    cbn [Orm.count_date]. destruct (Date.compare d d0) eqn:E.
    + apply date_compare_Eq in E as ->.
      pose proof (by_date_head_fresh d0 n0) as Hfresh.
      simpl. split.
      * intros [[= <- <-]|Hin].
        -- right. split; [reflexivity|]. left. exists n0. auto.
        -- left. split; [|now right]. intros ->.
           now apply (Hfresh n acc Hs) in Hin.
      * intros [[Hne [[= <- <-]|Hin]]|[-> [(m & [[= <-]|Hin] & ->)|[Hno _]]]];
          try congruence; auto.
        -- now apply (Hfresh m acc Hs) in Hin.
        -- exfalso. apply (Hno n0). now left.
    + assert (Hno : forall m, ~ In (d, m) ((d0, n0) :: acc)).
      { intros m [[= -> _]|Hm].
        - now apply date_lt_irrefl in E.
        - apply (date_lt_irrefl d).
          eapply date_lt_trans; [exact E | now apply (Hlater m)]. }
      simpl. split.
      * intros [[= <- <-]|Hin].
        -- right. split; [reflexivity|]. right. split; [exact Hno | reflexivity].
        -- left. split; [|exact Hin]. intros ->. now apply (Hno n).
      * intros [[Hne Hin]|[-> [(m & Hin & _)|[_ ->]]]]; auto.
        now apply Hno in Hin.
    + apply date_compare_Gt in E.
      assert (Hne : d0 <> d).
      { intros ->. now apply date_lt_irrefl in E. }
      simpl. rewrite IH. split.
      * intros [[= <- <-]|[[Hd Hin]|[-> Hd]]].
        -- left. split; [exact Hne | now left].
        -- left. split; [exact Hd | now right].
        -- right. split; [reflexivity|].
           destruct Hd as [(m & Hin & ->)|[Hno ->]].
           ++ left. exists m. split; [now right | reflexivity].
           ++ right. split; [|reflexivity].
              intros m [[= -> _]|Hin]; [congruence | now apply Hno in Hin].
      * intros [[Hd [[= <- <-]|Hin]]|[-> Hd]]; auto.
        right. right. split; [reflexivity|].
        destruct Hd as [(m & [[= -> _]|Hin] & ->)|[Hno ->]];
          [congruence | left; eauto |].
        right. split; [|reflexivity]. intros m Hin. apply (Hno m). now right.
Qed.

Lemma count_by_date_sorted (l : list ActivityEvent.t) :
  by_date (Orm.count_by_date l).
Proof.
  induction l as [|e l IH]; [constructor|].
  unfold Orm.count_by_date in *. simpl. now apply count_date_sorted.
Qed.

Lemma count_by_date_total (l : list ActivityEvent.t) :
  total (List.map snd (Orm.count_by_date l)) = Z.of_nat (length l).
Proof.
  induction l as [|e l IH]; [reflexivity|].
  unfold Orm.count_by_date in *. cbn [fold_right].
  rewrite count_date_total, IH. simpl length. lia.
Qed.

Lemma events_on_cons (d : Date.t) (e : ActivityEvent.t) (l : list ActivityEvent.t) :
  events_on d (e :: l)
  = events_on d l
    + (if decide (Datetime.date (ActivityEvent.timestamp e) = d) then 1 else 0).
Proof.
  unfold events_on. simpl.
  destruct (decide (Datetime.date (ActivityEvent.timestamp e) = d)) as [H|H].
  - rewrite bool_decide_eq_true_2 by exact H. simpl length. lia.
  - rewrite bool_decide_eq_false_2 by exact H. lia.
Qed.

Lemma events_on_nonneg (d : Date.t) (l : list ActivityEvent.t) : 0 <= events_on d l.
Proof. unfold events_on. lia. Qed.

Lemma events_on_pos (d : Date.t) (l : list ActivityEvent.t) :
  1 <= events_on d l ->
  exists e, In e l /\ Datetime.date (ActivityEvent.timestamp e) = d.
Proof.
  unfold events_on. intros H.
  destruct (List.filter _ l) as [|e l'] eqn:E; [simpl in H; lia|].
  assert (Hin : In e (e :: l')) by now left.
  rewrite <- E in Hin. apply filter_In in Hin as [Hin Hd].
  apply bool_decide_eq_true in Hd. eauto.
Qed.

(** Each date with an event has one row, holding the number of its
    events, and no other date has a row. *)
Lemma count_by_date_In (l : list ActivityEvent.t) (d : Date.t) (n : Z) :
  In (d, n) (Orm.count_by_date l) <-> 1 <= n /\ n = events_on d l.
Proof.
  revert d n. induction l as [|e l IH]; intros d n.
  - simpl. unfold events_on. simpl. split; [intros [] | lia].
  - change (Orm.count_by_date (e :: l))
      with (Orm.count_date (Datetime.date (ActivityEvent.timestamp e))
              (Orm.count_by_date l)).
    rewrite count_date_In by apply count_by_date_sorted.
    rewrite events_on_cons.
    pose proof (events_on_nonneg d l) as Hnn.
    destruct (decide (Datetime.date (ActivityEvent.timestamp e) = d)) as [<-|Hne].
    + set (d0 := Datetime.date (ActivityEvent.timestamp e)) in *. split.
      * intros [[Hd _]|[_ [(m & Hm & ->)|[Hno ->]]]]; [congruence | |].
        -- apply IH in Hm. lia.
        -- destruct (Z.le_gt_cases 1 (events_on d0 l)) as [Hge|Hlt]; [|lia].
           exfalso. apply (Hno (events_on d0 l)). apply IH. lia.
      * intros [Hn ->]. right. split; [reflexivity|].
        destruct (Z.le_gt_cases 1 (events_on d0 l)) as [Hge|Hlt].
        -- left. exists (events_on d0 l). split; [apply IH; lia | reflexivity].
        -- right. split; [|lia]. intros m Hm. apply IH in Hm. lia.
    + rewrite Z.add_0_r. rewrite <- IH. split.
      * intros [[_ H]|[-> _]]; [exact H | congruence].
      * intros H. left. split; [congruence | exact H].
Qed.

Lemma StronglySorted_NoDup {A : Type} (R : A -> A -> Prop) (l : list A) :
  (forall x, ~ R x x) -> StronglySorted R l -> NoDup l.
Proof.
  intros Hirr. induction 1 as [|x l Hs IH Hx]; constructor; [|exact IH].
  intros Hin. rewrite Forall_forall in Hx. now apply Hx, Hirr in Hin.
Qed.

(** The daily counts in terms of the filter and the truncation the
    handler queries with. *)
Lemma daily_counts_by_filter (db : Db) (GET : QueryDict) (c a : string) :
  GET !! "customer_org_id" = Some c -> c <> "" ->
  GET !! "account_id" = Some a -> a <> "" ->
  let direction := default "IN" (GET !! "direction") in
  let matching :=
    List.filter (Orm.in_scope_dir c a direction) (event_rows db) in
  exists counts days,
    Views.activity_counts db GET = Ok (JsonResponse (DailyCounts counts direction)) /\
    counts = List.map (fun item => (Date.isoformat (fst item), snd item)) days /\
    total (List.map snd counts) = Z.of_nat (length matching) /\
    by_date days /\
    NoDup (List.map fst days) /\
    (forall d n, In (d, n) days <-> 1 <= n /\ n = events_on d matching) /\
    (timestamps_valid db ->
     NoDup (List.map fst counts) /\
     StronglySorted (fun s t => String.ltb s t = true) (List.map fst counts)).
Proof.
  intros Hc Hnc Ha Hna direction matching.
  assert (H1 : not_ (GET !! "customer_org_id") = false)
    by (apply not_false_iff; eauto).
  assert (H2 : not_ (GET !! "account_id") = false)
    by (apply not_false_iff; eauto).
  exists (List.map (fun item => (Date.isoformat (fst item), snd item))
            (Orm.count_by_date matching)), (Orm.count_by_date matching).
  split.
  { unfold Views.activity_counts. rewrite H1, H2, Hc, Ha. reflexivity. }
  split; [reflexivity|].
  pose proof (count_by_date_sorted matching) as Hsorted.
  assert (Hdays : StronglySorted date_lt (List.map fst (Orm.count_by_date matching))).
  { now apply StronglySorted_map_iff. }
  split.
  { rewrite map_map. simpl. apply count_by_date_total. }
  split; [exact Hsorted|].
  split.
  { eapply StronglySorted_NoDup; [apply date_lt_irrefl | exact Hdays]. }
  split; [intros d n; apply count_by_date_In|].
  intros Hvalid.
  assert (Hdv : forall d, In d (List.map fst (Orm.count_by_date matching)) ->
                          Date.valid d).
  { intros d Hd. apply in_map_iff in Hd as ([d' n] & <- & Hin). simpl.
    apply count_by_date_In in Hin as [Hn ->].
    apply events_on_pos in Hn as (e & He & <-).
    apply filter_In in He as [He _].
    unfold timestamps_valid in Hvalid. rewrite Forall_forall in Hvalid.
    apply list_elem_of_In, Hvalid in He.
    unfold Datetime.valid in He. unfold Date.valid, Datetime.date. simpl. tauto. }
  assert (Hstr : StronglySorted (fun s t => String.ltb s t = true)
                   (List.map fst
                      (List.map (fun item => (Date.isoformat (fst item), snd item))
                         (Orm.count_by_date matching)))).
  { rewrite map_map. simpl.
    rewrite <- (map_map fst Date.isoformat).
    apply StronglySorted_map_iff.
    eapply StronglySorted_impl_In; [|exact Hdays].
    intros x y Hx Hy Hlt. unfold String.ltb.
    rewrite date_isoformat_compare by (apply Hdv; assumption).
    unfold date_lt in Hlt. now rewrite Hlt. }
  split; [|exact Hstr].
  eapply StronglySorted_NoDup; [|exact Hstr].
  intros s. unfold String.ltb. now rewrite string_compare_refl.
Qed.

(** The filter of the query keeps the events of the customer, the
    account and the direction. *)
Lemma in_scope_dir_matches (c a direction : string) (e : ActivityEvent.t) :
  Orm.in_scope_dir c a direction e = bool_decide (matches c a direction e).
Proof.
  unfold Orm.in_scope_dir, Orm.in_scope, matches.
  destruct (String.eqb_spec (ActivityEvent.customer_org_id e) c) as [Hc|Hc],
    (String.eqb_spec (ActivityEvent.account_id e) a) as [Ha|Ha],
    (String.eqb_spec (ActivityEvent.direction e) direction) as [Hd|Hd];
    simpl; symmetry;
    (apply bool_decide_eq_true; tauto) || (apply bool_decide_eq_false; tauto).
Qed.

Lemma date_on_day (d : Date.t) (e : ActivityEvent.t) :
  Datetime.date (ActivityEvent.timestamp e) = d <-> on_day d e.
Proof.
  unfold on_day, Datetime.date. destruct d as [y m dd]. simpl. split.
  - intros [= <- <- <-]. auto.
  - intros (-> & -> & ->). reflexivity.
Qed.

Lemma events_on_count_on (d : Date.t) (l : list ActivityEvent.t) :
  events_on d l = count_on d l.
Proof.
  unfold events_on, count_on. do 2 f_equal.
  apply List.filter_ext. intros e. apply bool_decide_ext, date_on_day.
Qed.

(** C7: with its parameters present the daily-counts handler answers
    with one pair for each calendar date on which an event falls whose
    customer, account and direction are those of the request, the
    direction ["IN"] when the request has none, holding the number of
    these events; the counts add up to the number of all such events,
    the dates ascend strictly, and so no date comes twice. *)
Theorem daily_counts_partition (db : Db) (GET : QueryDict) (c a : string) :
  GET !! "customer_org_id" = Some c -> c <> "" ->
  GET !! "account_id" = Some a -> a <> "" ->
  let direction := default "IN" (GET !! "direction") in
  let matching :=
    List.filter (fun e => bool_decide (matches c a direction e))
      (event_rows db) in
  exists counts days,
    Views.activity_counts db GET = Ok (JsonResponse (DailyCounts counts direction)) /\
    counts = List.map (fun item => (Date.isoformat (fst item), snd item)) days /\
    total (List.map snd counts) = Z.of_nat (length matching) /\
    by_date days /\
    NoDup (List.map fst days) /\
    (forall d n, In (d, n) days <-> 1 <= n /\ n = count_on d matching) /\
    (timestamps_valid db ->
     NoDup (List.map fst counts) /\
     StronglySorted (fun s t => String.ltb s t = true) (List.map fst counts)).
Proof.
  intros Hc Hnc Ha Hna direction matching.
  assert (Hm : matching
               = List.filter (Orm.in_scope_dir c a direction) (event_rows db)).
  { apply List.filter_ext. intros e. symmetry. apply in_scope_dir_matches. }
  rewrite Hm.
  destruct (daily_counts_by_filter db GET c a Hc Hnc Ha Hna)
    as (counts & days & Hr & Hcounts & Htotal & Hsorted & Hnd & Hin & Hv).
  exists counts, days.
  split; [exact Hr|]. split; [exact Hcounts|]. split; [exact Htotal|].
  split; [exact Hsorted|]. split; [exact Hnd|]. split; [|exact Hv].
  intros d n. rewrite <- events_on_count_on. apply Hin.
Qed.

Lemma daily_counts_partition_witness :
  exists counts days,
    Views.activity_counts Sample.db Sample.scope
    = Ok (JsonResponse (DailyCounts counts "IN")) /\
    counts = List.map (fun item => (Date.isoformat (fst item), snd item)) days /\
    total (List.map snd counts)
    = Z.of_nat
        (length (List.filter (fun e => bool_decide (matches "org" "acc" "IN" e))
                   (event_rows Sample.db))) /\
    by_date days /\
    NoDup (List.map fst days) /\
    (forall d n,
       In (d, n) days <->
       1 <= n /\
       n = count_on d
             (List.filter (fun e => bool_decide (matches "org" "acc" "IN" e))
                (event_rows Sample.db))) /\
    (timestamps_valid Sample.db ->
     NoDup (List.map fst counts) /\
     StronglySorted (fun s t => String.ltb s t = true) (List.map fst counts)).
Proof.
  apply (daily_counts_partition Sample.db Sample.scope "org" "acc");
    [reflexivity | discriminate | reflexivity | discriminate].
Defined.

Example daily_counts_sample :
  Views.activity_counts Sample.db Sample.scope
  = Ok (JsonResponse
          (DailyCounts [("2024-01-01", 2); ("2024-01-03", 1)] "IN")).
Proof. reflexivity. Qed.

(** ** First touchpoints *)

Lemma has_key_iff (d : Views.touchpoints) (k : Py.value) :
  Views.has_key d k = true <-> In k (List.map fst d).
Proof.
  unfold Views.has_key. rewrite existsb_exists, in_map_iff. split.
  - intros (kv & Hin & Hk). apply bool_decide_eq_true in Hk. eauto.
  - intros (kv & Hk & Hin). exists kv. split; [exact Hin|].
    now apply bool_decide_eq_true.
Qed.

(** One turn of the inner loop: nothing changes, or one entry for a new
    identifier is appended. *)
Lemma touch_cases (persons : list Person.t) (e : ActivityEvent.t)
    (d : Views.touchpoints) (person_ref : Py.dict) :
  let k := Views.person_id_of person_ref in
  (Views.touch persons e d person_ref = d /\
   (Py.truthy k = true -> In k (List.map fst d)))
  \/
  (exists tp,
     Views.touch persons e d person_ref = (d ++ [(k, tp)])%list /\
     Py.truthy k = true /\ ~ In k (List.map fst d) /\
     Touchpoint.person_id tp = k /\
     Touchpoint.timestamp tp = Datetime.isoformat (ActivityEvent.timestamp e) /\
     Touchpoint.activity tp = ActivityEvent.activity e /\
     Touchpoint.channel tp = ActivityEvent.channel e).
Proof.
  intros k. unfold Views.touch. fold k.
  destruct (Py.truthy k) eqn:Ht; simpl; [|left; split; [reflexivity | discriminate]].
  destruct (Views.has_key d k) eqn:Hk; simpl.
  - left. split; [reflexivity|]. intros _. now apply has_key_iff.
  - right.
    assert (Hnot : ~ In k (List.map fst d)).
    { intros Hin. apply has_key_iff in Hin. congruence. }
    destruct (Orm.get_person persons k); eexists; (split; [reflexivity|]);
      simpl; auto 10.
Qed.

(** The inner loop over the references [refs] of the event [e]. *)
Lemma touch_fold (persons : list Person.t) (e : ActivityEvent.t)
    (refs : list Py.dict) (d : Views.touchpoints) :
  (forall person_ref, In person_ref refs ->
                      In person_ref (ActivityEvent.people e)) ->
  exists added,
    fold_left (Views.touch persons e) refs d = (d ++ added)%list /\
    (NoDup (List.map fst d) -> NoDup (List.map fst (d ++ added))) /\
    Forall (fun kv => ~ In (fst kv) (List.map fst d) /\ recorded_at e kv) added /\
    (forall person_ref, In person_ref refs ->
       Py.truthy (Views.person_id_of person_ref) = true ->
       In (Views.person_id_of person_ref) (List.map fst (d ++ added))).
Proof.
  revert d. induction refs as [|person_ref refs IH]; intros d Hrefs.
  - exists []. rewrite app_nil_r. simpl. repeat split; auto. intros _ [].
  - assert (Hrefs' : forall r, In r refs -> In r (ActivityEvent.people e))
      by (intros r Hr; apply Hrefs; now right).
    simpl fold_left.
    destruct (touch_cases persons e d person_ref)
      as [[-> Hold]|(tp & -> & Ht & Hnew & Hid & Hts & Hact & Hch)].
    + destruct (IH d Hrefs') as (added & Hfold & Hnd & Hadd & Hall).
      exists added. split; [exact Hfold|]. split; [exact Hnd|].
      split; [exact Hadd|].
      intros r [<-|Hr] Htr; [|now apply Hall].
      rewrite map_app. apply in_or_app. left. now apply Hold.
    + set (k := Views.person_id_of person_ref) in *.
      destruct (IH (d ++ [(k, tp)])%list Hrefs')
        as (added & Hfold & Hnd & Hadd & Hall).
      exists ((k, tp) :: added).
      assert (Heq : ((d ++ [(k, tp)]) ++ added = d ++ (k, tp) :: added)%list)
        by now rewrite <- app_assoc.
      rewrite Heq in *.
      split; [exact Hfold|]. split.
      { intros Hd. apply Hnd. rewrite map_app. simpl.
        apply NoDup_app. split; [exact Hd|]. split.
        - intros x Hx [->|[]]%list_elem_of_In. now apply list_elem_of_In in Hx.
        - apply NoDup_singleton. }
      split.
      { constructor.
        - simpl. split; [exact Hnew|].
          unfold recorded_at, references. simpl.
          split; [|auto]. split; [exact Ht|].
          exists person_ref. split; [apply Hrefs; now left | reflexivity].
        - eapply List.Forall_impl; [|exact Hadd].
          intros kv [Hn Hrec]. split; [|exact Hrec].
          intros Hin. apply Hn. rewrite map_app. apply in_or_app. now left. }
      intros r [<-|Hr] Htr; [|now apply Hall].
      rewrite map_app. apply in_or_app. right. now left.
Qed.

Lemma scan_event_fold (persons : list Person.t) (e : ActivityEvent.t)
    (d : Views.touchpoints) :
  exists added,
    Views.scan_event persons d e = (d ++ added)%list /\
    (NoDup (List.map fst d) -> NoDup (List.map fst (d ++ added))) /\
    Forall (fun kv => ~ In (fst kv) (List.map fst d) /\ recorded_at e kv) added /\
    (forall k, references e k -> In k (List.map fst (d ++ added))).
Proof.
  destruct (touch_fold persons e (ActivityEvent.people e) d (fun _ H => H))
    as (added & Hfold & Hnd & Hadd & Hall).
  exists added. split; [exact Hfold|]. split; [exact Hnd|].
  split; [exact Hadd|].
  intros k [Ht (person_ref & Hin & <-)]. now apply Hall.
Qed.

(** The outer loop: every entry appended was recorded at the first
    event of the scan that references its identifier. *)
Lemma scan_fold (persons : list Person.t) (evs : list ActivityEvent.t)
    (d : Views.touchpoints) :
  exists added,
    fold_left (Views.scan_event persons) evs d = (d ++ added)%list /\
    (NoDup (List.map fst d) -> NoDup (List.map fst (d ++ added))) /\
    Forall
      (fun kv =>
         ~ In (fst kv) (List.map fst d) /\
         exists pre e post,
           evs = (pre ++ e :: post)%list /\ recorded_at e kv /\
           forall e', In e' pre -> ~ references e' (fst kv))
      added /\
    (forall e k, In e evs -> references e k ->
                 In k (List.map fst (d ++ added))).
Proof.
  revert d. induction evs as [|e evs IH]; intros d.
  - exists []. rewrite app_nil_r. simpl. repeat split; auto. intros e k [].
  - simpl fold_left.
    destruct (scan_event_fold persons e d) as (added1 & -> & Hnd1 & Hadd1 & Hall1).
    destruct (IH (d ++ added1)%list) as (added2 & Hfold & Hnd2 & Hadd2 & Hall2).
    exists (added1 ++ added2)%list.
    rewrite app_assoc.
    split; [exact Hfold|]. split; [auto|]. split.
    + apply Forall_app. split.
      * eapply List.Forall_impl; [|exact Hadd1].
        intros kv [Hn Hrec]. split; [exact Hn|].
        exists [], e, evs. split; [reflexivity|]. split; [exact Hrec|].
        intros e' [].
      * eapply List.Forall_impl; [|exact Hadd2].
        intros kv [Hn (pre & e2 & post & -> & Hrec & Hpre)]. split.
        -- intros Hin. apply Hn. rewrite map_app. apply in_or_app. now left.
        -- exists (e :: pre), e2, post. split; [reflexivity|].
           split; [exact Hrec|].
           intros e' [<-|He'] Href; [|now apply (Hpre e')].
           apply Hn. now apply Hall1.
    + intros e' k [<-|He'] Href; [|now apply (Hall2 e')].
      apply Hall1 in Href. rewrite map_app. apply in_or_app. now left.
Qed.

Lemma string_leb_refl (s : string) : String.leb s s = true.
Proof. unfold String.leb. now rewrite string_compare_refl. Qed.

Lemma string_leb_trans (s1 s2 s3 : string) :
  String.leb s1 s2 = true -> String.leb s2 s3 = true -> String.leb s1 s3 = true.
Proof.
  intros H12 H23.
  pose proof (@transitivity string String.le _ s1 s2 s3) as Ht.
  unfold String.le in Ht.
  apply Is_true_true. apply Ht; now apply Is_true_true.
Qed.

(** Scanning events that are in order of time leaves the entries in
    order of their printed timestamps. *)
Lemma scan_in_order (persons : list Person.t) (evs : list ActivityEvent.t)
    (d : Views.touchpoints) :
  StronglySorted
    (fun x y => Datetime.le (ActivityEvent.timestamp x) (ActivityEvent.timestamp y))
    evs ->
  Forall (fun e => Datetime.valid (ActivityEvent.timestamp e)) evs ->
  StronglySorted timestamp_le (List.map snd d) ->
  (forall kv e, In kv d -> In e evs ->
     String.leb (Touchpoint.timestamp (snd kv))
       (Datetime.isoformat (ActivityEvent.timestamp e)) = true) ->
  StronglySorted timestamp_le
    (List.map snd (fold_left (Views.scan_event persons) evs d)).
Proof.
  revert d. induction evs as [|e evs IH]; intros d Hs Hv Hd Hbound; [exact Hd|].
  simpl fold_left.
  destruct (scan_event_fold persons e d) as (added & -> & _ & Hadd & _).
  apply StronglySorted_inv in Hs as [Hs Hhead].
  apply Forall_cons in Hv as [Hve Hv].
  rewrite Forall_forall in Hadd. rewrite Forall_forall in Hhead.
  rewrite Forall_forall in Hv.
  assert (Hts : forall kv, In kv added ->
            Touchpoint.timestamp (snd kv)
            = Datetime.isoformat (ActivityEvent.timestamp e)).
  { intros kv Hkv. apply list_elem_of_In, Hadd in Hkv.
    destruct Hkv as (_ & _ & _ & H & _). exact H. }
  apply IH; [exact Hs | now rewrite Forall_forall | |].
  - rewrite map_app. apply StronglySorted_app. split; [|split].
    + intros x y Hx Hy.
      apply list_elem_of_In, in_map_iff in Hx as (kx & <- & Hkx).
      apply list_elem_of_In, in_map_iff in Hy as (ky & <- & Hky).
      unfold timestamp_le. rewrite (Hts ky Hky).
      apply Hbound; [exact Hkx | now left].
    + exact Hd.
    + apply StronglySorted_map_iff.
      clear Hadd. induction added as [|kv added IHa]; [constructor|].
      constructor.
      * apply IHa. intros kv' Hkv'. apply Hts. now right.
      * rewrite Forall_forall. intros y Hy. unfold timestamp_le.
        rewrite (Hts kv) by now left.
        rewrite (Hts y) by (right; now apply list_elem_of_In).
        apply string_leb_refl.
  - intros kv e' Hkv He'. apply in_app_or in Hkv as [Hkv|Hkv].
    + apply Hbound; [exact Hkv | now right].
    + rewrite (Hts kv Hkv).
      rewrite datetime_isoformat_leb;
        [| exact Hve | now apply Hv, list_elem_of_In].
      now apply Hhead, list_elem_of_In.
Qed.

Lemma scoped_events_valid (db : Db) (c a : string) :
  timestamps_valid db ->
  Forall (fun e => Datetime.valid (ActivityEvent.timestamp e))
    (Orm.order_by_timestamp (List.filter (Orm.in_scope c a) (event_rows db))).
Proof.
  unfold timestamps_valid. rewrite !Forall_forall. intros Hv e He.
  apply list_elem_of_In, scoped_events_In in He as [He _].
  now apply Hv, list_elem_of_In.
Qed.

(** The dictionary is filled in order of the printed timestamps, so
    the final [sorted] returns its values as they are. *)
Lemma sorted_touchpoints_redundant (db : Db) (c a : string) :
  timestamps_valid db ->
  let first_touchpoints :=
    Views.scan (person_rows db)
      (Orm.order_by_timestamp (List.filter (Orm.in_scope c a) (event_rows db))) in
  Orm.sort_by
    (fun x y => String.leb (Touchpoint.timestamp x) (Touchpoint.timestamp y))
    (List.map snd first_touchpoints)
  = List.map snd first_touchpoints.
Proof.
  intros Hv first_touchpoints. apply sort_by_sorted_id.
  apply (scan_in_order (person_rows db) _ []).
  - apply order_by_timestamp_sorted.
  - now apply scoped_events_valid.
  - constructor.
  - intros kv e [].
Qed.

(** The first touchpoints in terms of the identifier the handler
    reads off a reference. *)
Lemma first_touchpoints_by_reference (db : Db) (GET : QueryDict) (c a : string) :
  GET !! "customer_org_id" = Some c -> c <> "" ->
  GET !! "account_id" = Some a -> a <> "" ->
  let scoped (e : ActivityEvent.t) : Prop :=
    In e (event_rows db) /\ ActivityEvent.customer_org_id e = c
    /\ ActivityEvent.account_id e = a in
  exists tps,
    Views.first_touchpoints db GET = Ok (JsonResponse (FirstTouchpoints tps)) /\
    NoDup (List.map Touchpoint.person_id tps) /\
    (forall tp, In tp tps ->
       exists e,
         scoped e /\ references e (Touchpoint.person_id tp) /\
         Touchpoint.timestamp tp
         = Datetime.isoformat (ActivityEvent.timestamp e) /\
         forall e', scoped e' -> references e' (Touchpoint.person_id tp) ->
           Datetime.le (ActivityEvent.timestamp e) (ActivityEvent.timestamp e')) /\
    (forall e k, scoped e -> references e k ->
                 In k (List.map Touchpoint.person_id tps)) /\
    StronglySorted timestamp_le tps /\
    (timestamps_valid db ->
     StronglySorted
       (fun x y =>
          forall e1 e2, In e1 (event_rows db) -> In e2 (event_rows db) ->
            Touchpoint.timestamp x
            = Datetime.isoformat (ActivityEvent.timestamp e1) ->
            Touchpoint.timestamp y
            = Datetime.isoformat (ActivityEvent.timestamp e2) ->
            Datetime.le (ActivityEvent.timestamp e1) (ActivityEvent.timestamp e2))
       tps).
Proof.
  intros Hc Hnc Ha Hna scoped.
  assert (H1 : not_ (GET !! "customer_org_id") = false)
    by (apply not_false_iff; eauto).
  assert (H2 : not_ (GET !! "account_id") = false)
    by (apply not_false_iff; eauto).
  set (evs := Orm.order_by_timestamp
                (List.filter (Orm.in_scope c a) (event_rows db))).
  set (leb := fun x y : Touchpoint.t =>
                String.leb (Touchpoint.timestamp x) (Touchpoint.timestamp y)).
  set (d := Views.scan (person_rows db) evs).
  exists (Orm.sort_by leb (List.map snd d)).
  split.
  { unfold Views.first_touchpoints. rewrite H1, H2, Hc, Ha. reflexivity. }
  assert (Hevs : forall e, In e evs <-> scoped e)
    by (intros e; apply scoped_events_In).
  destruct (scan_fold (person_rows db) evs []) as (added & Hfold & Hnd & Hadd & Hall).
  simpl in Hfold, Hnd, Hall. fold (Views.scan (person_rows db) evs) in Hfold.
  fold d in Hfold. rewrite <- Hfold in *. clear Hfold added.
  rewrite Forall_forall in Hadd.
  assert (Hids : List.map Touchpoint.person_id (List.map snd d) = List.map fst d).
  { rewrite map_map. apply map_ext_in. intros kv Hkv.
    apply list_elem_of_In, Hadd in Hkv.
    destruct Hkv as (_ & pre & e & post & _ & (_ & Hid & _) & _). exact Hid. }
  pose proof (sort_by_perm leb (List.map snd d)) as Hperm.
  assert (Hsorted : StronglySorted timestamp_le (Orm.sort_by leb (List.map snd d))).
  { apply (sort_by_sorted leb).
    - intros x y. apply String.leb_total.
    - intros x y z. apply string_leb_trans. }
  split.
  { rewrite (Permutation_map Touchpoint.person_id Hperm), Hids.
    apply Hnd. constructor. }
  split.
  { intros tp Htp. apply (proj1 (sort_by_In leb _ _)) in Htp.
    apply in_map_iff in Htp as (kv & <- & Hkv).
    apply list_elem_of_In, Hadd in Hkv.
    destruct Hkv as (_ & pre & e & post & Hsplit & Hrec & Hpre).
    destruct Hrec as (Href & Hid & Hts & _).
    rewrite Hid. exists e.
    assert (He : In e evs) by (rewrite Hsplit; apply in_elt).
    split; [now apply Hevs|]. split; [exact Href|]. split; [exact Hts|].
    intros e' He' Href'. apply Hevs in He'.
    pose proof (order_by_timestamp_sorted
                  (List.filter (Orm.in_scope c a) (event_rows db))) as Hs.
    fold evs in Hs. rewrite Hsplit in Hs, He'.
    apply in_app_or in He' as [He'|[<-|He']].
    - now apply Hpre in He'.
    - apply datetime_leb_refl.
    - apply StronglySorted_app in Hs as (_ & _ & Hs).
      apply StronglySorted_inv in Hs as [_ Hs].
      rewrite Forall_forall in Hs. now apply Hs, list_elem_of_In. }
  split.
  { intros e k He Href. apply Hevs in He.
    rewrite (Permutation_map Touchpoint.person_id Hperm), Hids.
    now apply (Hall e). }
  split; [exact Hsorted|].
  intros Hv.
  eapply StronglySorted_impl_In; [|exact Hsorted].
  intros x y _ _ Hle e1 e2 He1 He2 Hx Hy.
  unfold timestamp_le in Hle. rewrite Hx, Hy in Hle.
  unfold timestamps_valid in Hv. rewrite Forall_forall in Hv.
  rewrite datetime_isoformat_leb in Hle; [exact Hle | |];
    now apply Hv, list_elem_of_In.
Qed.

Lemma references_iff_mentions (e : ActivityEvent.t) (k : Py.value) :
  references e k <-> mentions e k.
Proof.
  unfold references, mentions. split.
  - intros (Hk & person_ref & Hin & Hid). exists person_ref.
    split; [exact Hin|]. now apply identifies_iff.
  - intros (person_ref & Hin & Hid). apply identifies_iff in Hid as [Hk Hid].
    split; [exact Hk|]. now exists person_ref.
Qed.

(** C1: with both parameters present the handler answers with a list
    in which no person identifier comes twice; each entry carries the
    timestamp of an event of the customer and account whose people hold
    a reference with the identifier of the entry under its key ["id"]
    or ["person_id"], and no such event is earlier; every person so
    referenced has an entry; the list ascends by timestamp, as printed
    and in time. *)
Theorem first_touchpoints_earliest (db : Db) (GET : QueryDict) (c a : string) :
  GET !! "customer_org_id" = Some c -> c <> "" ->
  GET !! "account_id" = Some a -> a <> "" ->
  let scoped (e : ActivityEvent.t) : Prop :=
    In e (event_rows db) /\ ActivityEvent.customer_org_id e = c
    /\ ActivityEvent.account_id e = a in
  exists tps,
    Views.first_touchpoints db GET = Ok (JsonResponse (FirstTouchpoints tps)) /\
    NoDup (List.map Touchpoint.person_id tps) /\
    (forall tp, In tp tps ->
       exists e,
         scoped e /\ mentions e (Touchpoint.person_id tp) /\
         Touchpoint.timestamp tp
         = Datetime.isoformat (ActivityEvent.timestamp e) /\
         forall e', scoped e' -> mentions e' (Touchpoint.person_id tp) ->
           Datetime.le (ActivityEvent.timestamp e) (ActivityEvent.timestamp e')) /\
    (forall e k, scoped e -> mentions e k ->
                 In k (List.map Touchpoint.person_id tps)) /\
    StronglySorted timestamp_le tps /\
    (timestamps_valid db ->
     StronglySorted
       (fun x y =>
          forall e1 e2, In e1 (event_rows db) -> In e2 (event_rows db) ->
            Touchpoint.timestamp x
            = Datetime.isoformat (ActivityEvent.timestamp e1) ->
            Touchpoint.timestamp y
            = Datetime.isoformat (ActivityEvent.timestamp e2) ->
            Datetime.le (ActivityEvent.timestamp e1) (ActivityEvent.timestamp e2))
       tps).
Proof.
  intros Hc Hnc Ha Hna scoped.
  destruct (first_touchpoints_by_reference db GET c a Hc Hnc Ha Hna)
    as (tps & Hr & Hnd & Hfirst & Hall & Hs & Hv).
  exists tps. split; [exact Hr|]. split; [exact Hnd|]. split.
  { intros tp Htp. destruct (Hfirst tp Htp) as (e & He & Href & Hts & Hmin).
    exists e. split; [exact He|].
    split; [now apply references_iff_mentions|]. split; [exact Hts|].
    intros e' He' Hm. apply Hmin; [exact He'|].
    now apply references_iff_mentions. }
  split.
  { intros e k He Hm. apply (Hall e); [exact He|].
    now apply references_iff_mentions. }
  split; [exact Hs | exact Hv].
Qed.

Lemma first_touchpoints_earliest_witness :
  let scoped (e : ActivityEvent.t) : Prop :=
    In e (event_rows Sample.db) /\ ActivityEvent.customer_org_id e = "org"
    /\ ActivityEvent.account_id e = "acc" in
  exists tps,
    Views.first_touchpoints Sample.db Sample.scope
    = Ok (JsonResponse (FirstTouchpoints tps)) /\
    NoDup (List.map Touchpoint.person_id tps) /\
    (forall tp, In tp tps ->
       exists e,
         scoped e /\ mentions e (Touchpoint.person_id tp) /\
         Touchpoint.timestamp tp
         = Datetime.isoformat (ActivityEvent.timestamp e) /\
         forall e', scoped e' -> mentions e' (Touchpoint.person_id tp) ->
           Datetime.le (ActivityEvent.timestamp e) (ActivityEvent.timestamp e')) /\
    (forall e k, scoped e -> mentions e k ->
                 In k (List.map Touchpoint.person_id tps)) /\
    StronglySorted timestamp_le tps /\
    (timestamps_valid Sample.db ->
     StronglySorted
       (fun x y =>
          forall e1 e2,
            In e1 (event_rows Sample.db) -> In e2 (event_rows Sample.db) ->
            Touchpoint.timestamp x
            = Datetime.isoformat (ActivityEvent.timestamp e1) ->
            Touchpoint.timestamp y
            = Datetime.isoformat (ActivityEvent.timestamp e2) ->
            Datetime.le (ActivityEvent.timestamp e1) (ActivityEvent.timestamp e2))
       tps).
Proof.
  apply (first_touchpoints_earliest Sample.db Sample.scope "org" "acc");
    [reflexivity | discriminate | reflexivity | discriminate].
Defined.

Example first_touchpoints_sample :
  exists tps,
    Views.first_touchpoints Sample.db Sample.scope
    = Ok (JsonResponse (FirstTouchpoints tps))
    /\ List.map Touchpoint.person_id tps = [Py.VInt 7; Py.VInt 8; Py.VInt 9]
    /\ List.map Touchpoint.person_name tps = ["A B"; "Zed"; "Unknown"]
    /\ List.map Touchpoint.timestamp tps
       = [ "2024-01-01T00:00:00+00:00"; "2024-01-01T00:00:00+00:00";
           "2024-01-01T05:00:00+00:00" ].
Proof. eexists. repeat split; reflexivity. Qed.

Lemma sample_timestamps_valid : timestamps_valid Sample.db.
Proof.
  unfold timestamps_valid, Sample.db. simpl.
  repeat constructor; unfold Datetime.valid; simpl; lia.
Qed.

(** ** Names of first touchpoints *)

(** How a new entry gets its name and e-mail address: from the person
    record when the lookup finds one, else from the reference, and
    then [Unknown] stands in for an empty name. *)
Lemma touch_resolution (persons : list Person.t) (e : ActivityEvent.t)
    (d : Views.touchpoints) (person_ref : Py.dict) :
  let k := Views.person_id_of person_ref in
  Py.truthy k = true -> ~ In k (List.map fst d) ->
  exists tp,
    Views.touch persons e d person_ref = (d ++ [(k, tp)])%list /\
    match Orm.get_person persons k with
    | Some person =>
        Touchpoint.person_name tp
        = Py.strip (Person.first_name person ++ " " ++ Person.last_name person)
        /\ Touchpoint.email tp = Py.VStr (Person.email_address person)
    | None =>
        Touchpoint.person_name tp
        = Py.str_or
            (Py.strip
               (Py.str (Py.get_or person_ref "first_name" (Py.VStr ""))
                ++ " "
                ++ Py.str (Py.get_or person_ref "last_name" (Py.VStr ""))))
            "Unknown"
        /\ Touchpoint.email tp
           = Py.get_or person_ref "email_address" (Py.VStr "")
    end.
Proof.
  intros k Ht Hnew. unfold Views.touch. fold k. rewrite Ht.
  assert (Hk : Views.has_key d k = false).
  { destruct (Views.has_key d k) eqn:E; [|reflexivity].
    now apply has_key_iff in E. }
  rewrite Hk. simpl.
  destruct (Orm.get_person persons k); eexists; (split; [reflexivity|]);
    simpl; auto.
Qed.

(** On the fallback path an empty name becomes [Unknown]. *)
Lemma str_or_nonempty (s : string) : Py.str_or s "Unknown" <> "".
Proof. unfold Py.str_or. destruct (String.eqb_spec s ""); congruence. Qed.

(** C2, at the failing input: person 5 has a record with empty first
    and last name, the one reference to it carries no name either, and
    the touchpoint is named by the empty string, not [Unknown]. *)
Theorem nameless_person_not_unknown :
  Views.first_touchpoints Sample.nameless_db Sample.scope
  = Ok (JsonResponse
          (FirstTouchpoints
             [ Touchpoint.mk (Py.VInt 5) "" (Py.VStr "e@example.org")
                 "2024-01-01T00:00:00+00:00" "email" "web" ])).
Proof. reflexivity. Qed.

(** The same reference without a person record is named [Unknown]. *)
Example unresolved_person_unknown :
  Views.first_touchpoints
    (mkDb (event_rows Sample.nameless_db) []) Sample.scope
  = Ok (JsonResponse
          (FirstTouchpoints
             [ Touchpoint.mk (Py.VInt 5) "Unknown" (Py.VStr "")
                 "2024-01-01T00:00:00+00:00" "email" "web" ])).
Proof. reflexivity. Qed.

(** A null name in the reference is printed, not replaced. *)
Example null_name_printed :
  Views.touch [] (Sample.event 1 (Sample.at_ 2024 1 1 0) [] "IN" "org" "acc") []
    {[ "id" := Py.VInt 9; "first_name" := Py.VNone; "last_name" := Py.VNone ]}
  = [ (Py.VInt 9,
       Touchpoint.mk (Py.VInt 9) "None None" (Py.VStr "")
         "2024-01-01T00:00:00+00:00" "email" "web") ].
Proof. reflexivity. Qed.

(** ** [int] accepts the decimal numerals *)

Lemma isdigit_not_space (c : ascii) : Py.isdigit c = true -> Py.isspace c = false.
Proof.
  unfold Py.isdigit, Py.isspace. intros H.
  apply andb_true_iff in H as [H1 H2].
  apply N.leb_le in H1, H2.
  apply orb_false_iff. split; apply andb_false_iff.
  - right. apply N.leb_gt. lia.
  - right. apply N.leb_gt. lia.
Qed.

Lemma rstrip_digits (s : string) : all_digits s = true -> Py.rstrip s = s.
Proof.
  induction s as [|c s IH]; [reflexivity|]. simpl.
  intros [Hc Hs]%andb_true_iff. rewrite (IH Hs).
  destruct s; [|reflexivity].
  now rewrite (isdigit_not_space c Hc).
Qed.

Lemma strip_digits (s : string) : all_digits s = true -> Py.strip s = s.
Proof.
  intros H. unfold Py.strip.
  destruct s as [|c s]; [reflexivity|].
  simpl in H. apply andb_true_iff in H as [Hc Hs].
  cbn [Py.lstrip]. rewrite (isdigit_not_space c Hc).
  apply rstrip_digits. simpl. now rewrite Hc, Hs.
Qed.

Lemma int_digits_all_digits (s : string) (acc : Z) (seen : bool) :
  all_digits s = true -> (s <> "" \/ seen = true) ->
  exists n, Py.int_digits s acc seen = Some n.
Proof.
  revert acc seen. induction s as [|c s IH]; intros acc seen Hs Hne.
  - destruct Hne as [Hne| ->]; [congruence|]. simpl. eauto.
  - simpl in Hs. apply andb_true_iff in Hs as [Hc Hs].
    simpl. rewrite Hc. apply IH; auto.
Qed.

(** A numeral within the length limit converts. *)
Lemma int_of_str_digits (s : string) :
  s <> "" -> all_digits s = true ->
  Py.count_digits s <= Py.int_max_str_digits ->
  exists n, Py.int_of_str s = Some n.
Proof.
  intros Hne Hs Hlen. unfold Py.int_of_str.
  rewrite (strip_digits s Hs).
  apply Z.ltb_ge in Hlen. rewrite Hlen.
  destruct s as [|c s]; [congruence|].
  assert (Hc : Py.isdigit c = true).
  { simpl in Hs. now apply andb_true_iff in Hs as [Hc _]. }
  assert (H : exists n, Py.int_digits (String c s) 0 false = Some n).
  { apply int_digits_all_digits; [exact Hs | left; discriminate]. }
  destruct c as [[] [] [] [] [] [] [] []]; try discriminate Hc; exact H.
Qed.

(** * Further properties of the handlers *)

(** ** Entries of the first-touchpoints dictionary *)

(** The response of the handler, its parameters present. *)
Lemma first_touchpoints_response (db : Db) (GET : QueryDict) (c a : string) :
  GET !! "customer_org_id" = Some c -> c <> "" ->
  GET !! "account_id" = Some a -> a <> "" ->
  Views.first_touchpoints db GET
  = Ok (JsonResponse
          (FirstTouchpoints
             (Orm.sort_by
                (fun x y => String.leb (Touchpoint.timestamp x)
                              (Touchpoint.timestamp y))
                (List.map snd (Views.scan (person_rows db) (scoped_events db c a)))))).
Proof.
  intros Hc Hnc Ha Hna.
  assert (H1 : not_ (GET !! "customer_org_id") = false)
    by (apply not_false_iff; eauto).
  assert (H2 : not_ (GET !! "account_id") = false)
    by (apply not_false_iff; eauto).
  unfold Views.first_touchpoints. rewrite H1, H2, Hc, Ha. reflexivity.
Qed.

(** One turn of the inner loop leaves the dictionary as it is or
    appends the entry of the reference at hand. *)
Lemma touch_entry (persons : list Person.t) (e : ActivityEvent.t)
    (d : Views.touchpoints) (person_ref : Py.dict) :
  In person_ref (ActivityEvent.people e) ->
  Views.touch persons e d person_ref = d \/
  exists kv,
    Views.touch persons e d person_ref = (d ++ [kv])%list /\
    entry_of persons e person_ref kv.
Proof.
  intros Hin. unfold Views.touch.
  destruct (Py.truthy (Views.person_id_of person_ref)) eqn:Ht; simpl;
    [|now left].
  destruct (Views.has_key d (Views.person_id_of person_ref)); simpl;
    [now left|].
  right. unfold entry_of, resolved_from.
  destruct (Orm.get_person persons (Views.person_id_of person_ref)) eqn:E;
    eexists; (split; [reflexivity|]); simpl; rewrite ?E; auto 12.
Qed.

Section ScanEntries.
Variables (persons : list Person.t) (all : list ActivityEvent.t).

Let from_scan (kv : Py.value * Touchpoint.t) : Prop :=
  exists e person_ref, In e all /\ entry_of persons e person_ref kv.

Lemma touch_fold_entries (e : ActivityEvent.t) (refs : list Py.dict)
    (d : Views.touchpoints) :
  In e all ->
  (forall r, In r refs -> In r (ActivityEvent.people e)) ->
  Forall from_scan d ->
  Forall from_scan (fold_left (Views.touch persons e) refs d).
Proof.
  intros He. revert d. induction refs as [|r refs IH]; intros d Hrefs Hd;
    [exact Hd|].
  simpl. apply IH; [intros r' Hr'; apply Hrefs; now right|].
  destruct (touch_entry persons e d r (Hrefs r (or_introl eq_refl)))
    as [->|(kv & -> & Hkv)]; [exact Hd|].
  apply Forall_app. split; [exact Hd|].
  constructor; [|constructor]. exists e, r. auto.
Qed.

Lemma scan_fold_entries (evs : list ActivityEvent.t) (d : Views.touchpoints) :
  (forall e, In e evs -> In e all) ->
  Forall from_scan d ->
  Forall from_scan (fold_left (Views.scan_event persons) evs d).
Proof.
  revert d. induction evs as [|e evs IH]; intros d Hevs Hd; [exact Hd|].
  simpl. apply IH; [intros e' He'; apply Hevs; now right|].
  unfold Views.scan_event. apply touch_fold_entries; auto.
  apply Hevs. now left.
Qed.

End ScanEntries.

(** Every touchpoint of a response was recorded from a reference of a
    scoped event. *)
Lemma first_touchpoints_entries (db : Db) (c a : string) (tp : Touchpoint.t) :
  In tp
    (Orm.sort_by
       (fun x y => String.leb (Touchpoint.timestamp x) (Touchpoint.timestamp y))
       (List.map snd (Views.scan (person_rows db) (scoped_events db c a)))) ->
  exists e person_ref,
    In e (scoped_events db c a) /\
    entry_of (person_rows db) e person_ref (Touchpoint.person_id tp, tp).
Proof.
  intros Htp. apply (proj1 (sort_by_In _ _ _)) in Htp.
  apply in_map_iff in Htp as ([k tp'] & Heq & Hkv). simpl in Heq. subst tp'.
  pose proof (scan_fold_entries (person_rows db) (scoped_events db c a)
                (scoped_events db c a) [] (fun _ H => H) (List.Forall_nil _)) as Hall.
  rewrite Forall_forall in Hall.
  apply list_elem_of_In, Hall in Hkv as (e & r & He & Hent).
  exists e, r. split; [exact He|].
  destruct Hent as (H1 & H2 & H3 & H4 & H5). simpl in *.
  rewrite H4. unfold entry_of. simpl. auto 12.
Qed.

(** ** [strip] *)

Lemma rstrip_idempotent (s : string) : Py.rstrip (Py.rstrip s) = Py.rstrip s.
Proof.
  induction s as [|c s IH]; [reflexivity|].
  cbn [Py.rstrip]. destruct (Py.rstrip s) as [|d r] eqn:E.
  - destruct (Py.isspace c) eqn:Hc; [reflexivity|].
    cbn [Py.rstrip]. now rewrite Hc.
  - cbn [Py.rstrip]. cbn [Py.rstrip] in IH. now rewrite IH.
Qed.

(** [rstrip] keeps the first character of what it returns. *)
Lemma rstrip_head (s : string) (c : ascii) (r : string) :
  Py.rstrip s = String c r -> exists r', s = String c r'.
Proof.
  destruct s as [|c' s]; [discriminate|]. cbn [Py.rstrip].
  destruct (Py.rstrip s); [destruct (Py.isspace c'); [discriminate|]|];
    intros [= <- _]; eauto.
Qed.

Lemma lstrip_head (s : string) (c : ascii) (r : string) :
  Py.lstrip s = String c r -> Py.isspace c = false.
Proof.
  induction s as [|c' s IH]; [discriminate|]. cbn [Py.lstrip].
  destruct (Py.isspace c') eqn:Hc; [exact IH|].
  intros [= <- _]. exact Hc.
Qed.

Lemma strip_idempotent (s : string) : Py.strip (Py.strip s) = Py.strip s.
Proof.
  unfold Py.strip.
  destruct (Py.rstrip (Py.lstrip s)) as [|c r] eqn:E; [reflexivity|].
  destruct (rstrip_head _ _ _ E) as [r' Hl].
  apply lstrip_head in Hl.
  cbn [Py.lstrip]. rewrite Hl. rewrite <- E. apply rstrip_idempotent.
Qed.

Lemma strip_str_or_unknown (s : string) :
  Py.strip (Py.str_or (Py.strip s) "Unknown") = Py.str_or (Py.strip s) "Unknown".
Proof.
  unfold Py.str_or. destruct (String.eqb (Py.strip s) ""); [reflexivity|].
  apply strip_idempotent.
Qed.

(** ** What the first-touchpoints response holds *)

Lemma first_touchpoints_first_event (db : Db) (c a : string) (tp : Touchpoint.t) :
  In tp
    (Orm.sort_by
       (fun x y => String.leb (Touchpoint.timestamp x) (Touchpoint.timestamp y))
       (List.map snd (Views.scan (person_rows db) (scoped_events db c a)))) ->
  exists pre e post,
    scoped_events db c a = (pre ++ e :: post)%list /\
    recorded_at e (Touchpoint.person_id tp, tp) /\
    forall e', In e' pre -> ~ references e' (Touchpoint.person_id tp).
Proof.
  intros Htp. apply (proj1 (sort_by_In _ _ _)) in Htp.
  apply in_map_iff in Htp as ([k tp'] & Heq & Hkv). simpl in Heq. subst tp'.
  destruct (scan_fold (person_rows db) (scoped_events db c a) [])
    as (added & Hfold & _ & Hadd & _).
  simpl in Hfold. fold (Views.scan (person_rows db) (scoped_events db c a)) in Hfold.
  rewrite <- Hfold in Hadd. rewrite Forall_forall in Hadd.
  apply list_elem_of_In, Hadd in Hkv.
  destruct Hkv as (_ & pre & e & post & Hsplit & Hrec & Hpre).
  simpl in Hpre. pose proof Hrec as (_ & Hid & _). simpl in Hid.
  rewrite Hid. eauto 10.
Qed.

(** X1: no touchpoint stands for a reference without identifier: the
    identifier of every touchpoint is neither null, nor zero, nor the
    empty string. *)
Theorem touchpoint_identifiers_truthy (db : Db) (GET : QueryDict) (c a : string) :
  GET !! "customer_org_id" = Some c -> c <> "" ->
  GET !! "account_id" = Some a -> a <> "" ->
  exists tps,
    Views.first_touchpoints db GET = Ok (JsonResponse (FirstTouchpoints tps)) /\
    forall tp, In tp tps ->
      Touchpoint.person_id tp <> Py.VNone /\
      Touchpoint.person_id tp <> Py.VInt 0 /\
      Touchpoint.person_id tp <> Py.VStr "".
Proof.
  intros Hc Hnc Ha Hna. eexists.
  split; [now apply (first_touchpoints_response db GET c a)|].
  intros tp Htp.
  apply first_touchpoints_entries in Htp as (e & r & _ & Hent).
  destruct Hent as (_ & _ & Ht & _). simpl in Ht.
  repeat split; intros Heq; rewrite Heq in Ht; discriminate.
Qed.

Lemma touchpoint_identifiers_truthy_witness :
  exists tps,
    Views.first_touchpoints Sample.db Sample.scope
    = Ok (JsonResponse (FirstTouchpoints tps)) /\
    forall tp, In tp tps ->
      Touchpoint.person_id tp <> Py.VNone /\
      Touchpoint.person_id tp <> Py.VInt 0 /\
      Touchpoint.person_id tp <> Py.VStr "".
Proof.
  apply (touchpoint_identifiers_truthy Sample.db Sample.scope "org" "acc");
    [reflexivity | discriminate | reflexivity | discriminate].
Defined.

(** X2: the timestamp, the activity and the channel of a touchpoint are
    those of one event: the first of the scan, an earliest one, that
    references the person. *)
Theorem touchpoint_fields_of_one_event
    (db : Db) (GET : QueryDict) (c a : string) :
  GET !! "customer_org_id" = Some c -> c <> "" ->
  GET !! "account_id" = Some a -> a <> "" ->
  exists tps,
    Views.first_touchpoints db GET = Ok (JsonResponse (FirstTouchpoints tps)) /\
    forall tp, In tp tps ->
      exists e,
        In e (event_rows db) /\
        ActivityEvent.customer_org_id e = c /\ ActivityEvent.account_id e = a /\
        references e (Touchpoint.person_id tp) /\
        Touchpoint.timestamp tp
        = Datetime.isoformat (ActivityEvent.timestamp e) /\
        Touchpoint.activity tp = ActivityEvent.activity e /\
        Touchpoint.channel tp = ActivityEvent.channel e /\
        forall e', In e' (event_rows db) ->
          ActivityEvent.customer_org_id e' = c ->
          ActivityEvent.account_id e' = a ->
          references e' (Touchpoint.person_id tp) ->
          Datetime.le (ActivityEvent.timestamp e) (ActivityEvent.timestamp e').
Proof.
  intros Hc Hnc Ha Hna. eexists.
  split; [now apply (first_touchpoints_response db GET c a)|].
  intros tp Htp.
  apply first_touchpoints_first_event in Htp
    as (pre & e & post & Hsplit & Hrec & Hpre).
  destruct Hrec as (Href & _ & Hts & Hact & Hch). simpl in *.
  assert (He : In e (scoped_events db c a)) by (rewrite Hsplit; apply in_elt).
  apply scoped_events_In in He as (He & Hec & Hea).
  exists e. do 7 (split; [assumption|]).
  intros e' He' Hc' Ha' Href'.
  assert (Hin : In e' (scoped_events db c a)) by now apply scoped_events_In.
  pose proof (order_by_timestamp_sorted
                (List.filter (Orm.in_scope c a) (event_rows db))) as Hs.
  fold (scoped_events db c a) in Hs. rewrite Hsplit in Hs, Hin.
  apply in_app_or in Hin as [Hin|[<-|Hin]].
  - now apply Hpre in Hin.
  - apply datetime_leb_refl.
  - apply StronglySorted_app in Hs as (_ & _ & Hs).
    apply StronglySorted_inv in Hs as [_ Hs].
    rewrite Forall_forall in Hs. now apply Hs, list_elem_of_In.
Qed.

Lemma touchpoint_fields_of_one_event_witness :
  exists tps,
    Views.first_touchpoints Sample.db Sample.scope
    = Ok (JsonResponse (FirstTouchpoints tps)) /\
    forall tp, In tp tps ->
      exists e,
        In e (event_rows Sample.db) /\
        ActivityEvent.customer_org_id e = "org" /\
        ActivityEvent.account_id e = "acc" /\
        references e (Touchpoint.person_id tp) /\
        Touchpoint.timestamp tp
        = Datetime.isoformat (ActivityEvent.timestamp e) /\
        Touchpoint.activity tp = ActivityEvent.activity e /\
        Touchpoint.channel tp = ActivityEvent.channel e /\
        forall e', In e' (event_rows Sample.db) ->
          ActivityEvent.customer_org_id e' = "org" ->
          ActivityEvent.account_id e' = "acc" ->
          references e' (Touchpoint.person_id tp) ->
          Datetime.le (ActivityEvent.timestamp e) (ActivityEvent.timestamp e').
Proof.
  apply (touchpoint_fields_of_one_event Sample.db Sample.scope "org" "acc");
    [reflexivity | discriminate | reflexivity | discriminate].
Defined.

(** X3: the name and the e-mail address of a touchpoint are those of the
    person record its identifier finds; when it finds none they are
    taken from a reference of a scoped event that resolves to the
    identifier, and [Unknown] replaces a name that strips to nothing. *)
Theorem touchpoint_names_resolved (db : Db) (GET : QueryDict) (c a : string) :
  GET !! "customer_org_id" = Some c -> c <> "" ->
  GET !! "account_id" = Some a -> a <> "" ->
  exists tps,
    Views.first_touchpoints db GET = Ok (JsonResponse (FirstTouchpoints tps)) /\
    forall tp, In tp tps ->
      exists e person_ref,
        In e (event_rows db) /\
        ActivityEvent.customer_org_id e = c /\ ActivityEvent.account_id e = a /\
        In person_ref (ActivityEvent.people e) /\
        Views.person_id_of person_ref = Touchpoint.person_id tp /\
        resolved_from (person_rows db) person_ref tp.
Proof.
  intros Hc Hnc Ha Hna. eexists.
  split; [now apply (first_touchpoints_response db GET c a)|].
  intros tp Htp.
  apply first_touchpoints_entries in Htp as (e & r & He & Hent).
  apply scoped_events_In in He as (He & Hec & Hea).
  destruct Hent as (Hin & Hid & _ & _ & _ & _ & _ & Hres). simpl in *.
  exists e, r. auto 10.
Qed.

Lemma touchpoint_names_resolved_witness :
  exists tps,
    Views.first_touchpoints Sample.db Sample.scope
    = Ok (JsonResponse (FirstTouchpoints tps)) /\
    forall tp, In tp tps ->
      exists e person_ref,
        In e (event_rows Sample.db) /\
        ActivityEvent.customer_org_id e = "org" /\
        ActivityEvent.account_id e = "acc" /\
        In person_ref (ActivityEvent.people e) /\
        Views.person_id_of person_ref = Touchpoint.person_id tp /\
        resolved_from (person_rows Sample.db) person_ref tp.
Proof.
  apply (touchpoint_names_resolved Sample.db Sample.scope "org" "acc");
    [reflexivity | discriminate | reflexivity | discriminate].
Defined.

(** X4: a name in the response has no white space at either end, and a
    name taken from a reference, no person record found, is never
    empty. *)
Theorem touchpoint_names_stripped (db : Db) (GET : QueryDict) (c a : string) :
  GET !! "customer_org_id" = Some c -> c <> "" ->
  GET !! "account_id" = Some a -> a <> "" ->
  exists tps,
    Views.first_touchpoints db GET = Ok (JsonResponse (FirstTouchpoints tps)) /\
    forall tp, In tp tps ->
      Py.strip (Touchpoint.person_name tp) = Touchpoint.person_name tp /\
      (Orm.get_person (person_rows db) (Touchpoint.person_id tp) = None ->
       Touchpoint.person_name tp <> "").
Proof.
  intros Hc Hnc Ha Hna. eexists.
  split; [now apply (first_touchpoints_response db GET c a)|].
  intros tp Htp.
  apply first_touchpoints_entries in Htp as (e & r & _ & Hent).
  destruct Hent as (_ & Hid & _ & _ & _ & _ & _ & Hres). simpl in *.
  unfold resolved_from in Hres. rewrite <- Hid in Hres.
  destruct (Orm.get_person (person_rows db) (Touchpoint.person_id tp))
    as [person|]; destruct Hres as [-> _].
  - split; [apply strip_idempotent | discriminate].
  - split; [apply strip_str_or_unknown|]. intros _. apply str_or_nonempty.
Qed.

Lemma touchpoint_names_stripped_witness :
  exists tps,
    Views.first_touchpoints Sample.db Sample.scope
    = Ok (JsonResponse (FirstTouchpoints tps)) /\
    forall tp, In tp tps ->
      Py.strip (Touchpoint.person_name tp) = Touchpoint.person_name tp /\
      (Orm.get_person (person_rows Sample.db) (Touchpoint.person_id tp) = None ->
       Touchpoint.person_name tp <> "").
Proof.
  apply (touchpoint_names_stripped Sample.db Sample.scope "org" "acc");
    [reflexivity | discriminate | reflexivity | discriminate].
Defined.

(** X5: with stored timestamps in range the final [sorted] moves nothing:
    the response lists the values of the dictionary in the order the
    scan inserted them. *)
Theorem sorted_changes_nothing (db : Db) (GET : QueryDict) (c a : string) :
  timestamps_valid db ->
  GET !! "customer_org_id" = Some c -> c <> "" ->
  GET !! "account_id" = Some a -> a <> "" ->
  Views.first_touchpoints db GET
  = Ok (JsonResponse
          (FirstTouchpoints
             (List.map snd
                (Views.scan (person_rows db)
                   (Orm.order_by_timestamp
                      (List.filter (Orm.in_scope c a) (event_rows db))))))).
Proof.
  intros Hv Hc Hnc Ha Hna.
  rewrite (first_touchpoints_response db GET c a) by assumption.
  unfold scoped_events.
  now rewrite (sorted_touchpoints_redundant db c a Hv).
Qed.

Lemma sorted_changes_nothing_witness :
  Views.first_touchpoints Sample.db Sample.scope
  = Ok (JsonResponse
          (FirstTouchpoints
             (List.map snd
                (Views.scan (person_rows Sample.db)
                   (Orm.order_by_timestamp
                      (List.filter (Orm.in_scope "org" "acc")
                         (event_rows Sample.db))))))).
Proof.
  apply (sorted_changes_nothing Sample.db Sample.scope "org" "acc");
    [apply sample_timestamps_valid | reflexivity | discriminate
    | reflexivity | discriminate].
Defined.

(** ** Pages of the listing *)

Lemma total_pages_of_empty (per_page : Z) :
  0 < per_page -> per_page < underflow_bound -> total_pages_of 0 per_page = 1.
Proof.
  intros Hp Hb.
  pose proof (total_pages_of_pos 0 per_page Hp Hb) as Hnp.
  pose proof (last_page_starts_inside 0 per_page Hp ltac:(lia) Hnp).
  nia.
Qed.

Lemma total_pages_of_one (count per_page : Z) :
  0 < per_page -> 0 <= count ->
  total_pages_of count per_page = 1 -> count <= per_page.
Proof.
  intros Hp Hc H.
  rewrite (total_pages_of_exact count per_page Hp ltac:(lia)) in H.
  pose proof (Z.div_mod (- Z.max 1 count) per_page ltac:(lia)) as Hdm.
  pose proof (Z.mod_pos_bound (- Z.max 1 count) per_page Hp) as Hb.
  nia.
Qed.

Lemma shown_page_single (page : Z) : shown_page 1 page = 1.
Proof.
  unfold shown_page.
  destruct (Z.ltb_spec page 1), (Z.ltb_spec 1 page); simpl; lia.
Qed.

Lemma listing_empty (db : Db) (page page_size : Z) :
  0 < page_size -> page_size < underflow_bound ->
  listing db [] page page_size
  = JsonResponse (Events [] (Pagination.mk page 1 0 false false)).
Proof.
  intros Hp Hb. unfold listing. simpl length.
  change (Z.of_nat 0) with 0.
  rewrite total_pages_of_empty by assumption. rewrite shown_page_single.
  unfold page_slice. now rewrite drop_nil, take_nil.
Qed.

Lemma length_page_slice {A : Type} (per_page n : Z) (l : list A) :
  length (page_slice per_page n l)
  = Nat.min (Z.to_nat per_page) (length l - Z.to_nat ((n - 1) * per_page)).
Proof. unfold page_slice. now rewrite length_take, length_drop. Qed.

(** X6: a successful listing never holds more events than the page size;
    it holds exactly that many when there is a next page, and all the
    matched events when there is neither a next nor a previous page. *)
Theorem listing_page_length
    (fromisoformat : string -> option Datetime.t) (db : Db) (GET : QueryDict)
    (r : response) :
  Views.activity_events fromisoformat db GET = Ok r -> status r = 200 ->
  exists evs pg page_size,
    content r = Events evs pg /\
    int_param (GET !! "page_size") 50 = Ok page_size /\
    Z.of_nat (length evs) <= page_size /\
    (Pagination.has_next pg = true -> Z.of_nat (length evs) = page_size) /\
    (Pagination.has_next pg = false -> Pagination.has_previous pg = false ->
     Z.of_nat (length evs) = Pagination.total_count pg).
Proof.
  intros Hr Hst.
  destruct (activity_events_listing fromisoformat db GET r Hr Hst)
    as (page & page_size & c & a & qs & Hpage & Hsize & _ & _ & _ & _
        & _ & Hpos & Hnp & ->).
  unfold listing. do 3 eexists. split; [reflexivity|].
  split; [exact Hsize|]. simpl.
  set (np := total_pages_of (Z.of_nat (length qs)) page_size).
  set (n := shown_page np page).
  pose proof (last_page_starts_inside (Z.of_nat (length qs)) page_size Hpos
                ltac:(lia) Hnp) as Hlast.
  fold np in Hnp, Hlast.
  pose proof (shown_page_in_range np page Hnp) as Hn. fold n in Hn.
  rewrite length_map, length_page_slice.
  split; [lia|]. split.
  - intros Hnext. apply Z.ltb_lt in Hnext.
    assert (n * page_size <= (np - 1) * page_size) by nia.
    assert (0 <= (n - 1) * page_size) by nia.
    lia.
  - intros Hnext Hprev. apply Z.ltb_ge in Hnext, Hprev.
    assert (n = 1) by lia. assert (np = 1) by lia.
    pose proof (total_pages_of_one (Z.of_nat (length qs)) page_size Hpos
                  ltac:(lia) ltac:(assumption)).
    subst n. replace (shown_page np page) with 1 by lia. simpl. lia.
Qed.

Lemma listing_page_length_witness :
  exists evs pg page_size,
    content (listing Sample.db
               (Orm.order_by_timestamp
                  (List.filter (Orm.in_scope "org" "acc")
                     (event_rows Sample.db))) 5 2)
    = Events evs pg /\
    int_param (Sample.page_five !! "page_size") 50 = Ok page_size /\
    Z.of_nat (length evs) <= page_size /\
    (Pagination.has_next pg = true -> Z.of_nat (length evs) = page_size) /\
    (Pagination.has_next pg = false -> Pagination.has_previous pg = false ->
     Z.of_nat (length evs) = Pagination.total_count pg).
Proof.
  apply (listing_page_length Sample.fromisoformat Sample.db Sample.page_five);
    reflexivity.
Defined.

Lemma page_slices_concat {A : Type} (per_page : Z) (l : list A) (k : nat) :
  0 < per_page ->
  concat (List.map (fun n => page_slice per_page (Z.of_nat n) l) (seq 1 k))
  = take (k * Z.to_nat per_page) l.
Proof.
  intros Hp. induction k as [|k IH]; [reflexivity|].
  rewrite seq_S, map_app, concat_app, IH. simpl.
  rewrite app_nil_r. unfold page_slice.
  replace (Z.to_nat ((Z.of_nat (S k) - 1) * per_page))
    with (k * Z.to_nat per_page)%nat by nia.
  rewrite take_take_drop. f_equal. lia.
Qed.

(** X7: with a page size that is positive and smaller than
    [2^1075], and fewer than [2^53] rows, the pages one to the last, in
    this order, hold every row of the query set once, in its order. *)
Theorem pages_partition {A : Type} (l : list A) (per_page : Z) :
  0 < per_page -> per_page < 2 ^ 1075 ->
  Z.of_nat (length l) < 2 ^ 53 ->
  exists pages,
    Forall2
      (fun n pg =>
         Paginator.get_page (Paginator.mk l per_page) (Z.of_nat n) = Ok pg)
      (seq 1 (Z.to_nat (total_pages_of (Z.of_nat (length l)) per_page)))
      pages /\
    concat (List.map Paginator.page_items pages) = l.
Proof.
  intros Hp Hb _. fold underflow_bound in Hb.
  set (np := total_pages_of (Z.of_nat (length l)) per_page).
  pose proof (total_pages_of_pos (Z.of_nat (length l)) per_page Hp Hb) as Hnp.
  pose proof (total_pages_of_exact (Z.of_nat (length l)) per_page Hp Hnp)
    as Hex.
  fold np in Hnp, Hex.
  exists (List.map
            (fun n => Paginator.mk_page (page_slice per_page (Z.of_nat n) l)
                        (Z.of_nat n) (Paginator.mk l per_page))
            (seq 1 (Z.to_nat np))).
  split.
  - apply Forall2_fmap_r, Forall_Forall2_diag, Forall_forall.
    intros n Hn%list_elem_of_In%in_seq.
    rewrite get_page_pos by assumption. fold np.
    assert (Hs : shown_page np (Z.of_nat n) = Z.of_nat n).
    { unfold shown_page.
      destruct (Z.ltb_spec (Z.of_nat n) 1), (Z.ltb_spec np (Z.of_nat n));
        simpl; lia. }
    now rewrite Hs.
  - rewrite map_map. simpl.
    rewrite page_slices_concat by exact Hp.
    apply take_ge.
    pose proof (Z.div_mod (- Z.max 1 (Z.of_nat (length l))) per_page
                  ltac:(lia)) as Hdm.
    pose proof (Z.mod_pos_bound (- Z.max 1 (Z.of_nat (length l))) per_page Hp)
      as Hmod.
    nia.
Qed.

Lemma pages_partition_witness :
  exists pages,
    Forall2
      (fun n pg =>
         Paginator.get_page (Paginator.mk [10; 20; 30; 40; 50] 2) (Z.of_nat n)
         = Ok pg)
      (seq 1 (Z.to_nat (total_pages_of
                          (Z.of_nat (length [10; 20; 30; 40; 50])) 2)))
      pages /\
    concat (List.map Paginator.page_items pages) = [10; 20; 30; 40; 50].
Proof.
  apply (pages_partition [10; 20; 30; 40; 50] 2); reflexivity.
Defined.

(** ** Listings without events, and page sizes that are no size *)

Lemma activity_events_empty (fromisoformat : string -> option Datetime.t)
    (db : Db) (GET : QueryDict) (page page_size : Z) (c a : string) :
  int_param (GET !! "page") 1 = Ok page ->
  int_param (GET !! "page_size") 50 = Ok page_size ->
  0 < page_size -> page_size < underflow_bound ->
  GET !! "customer_org_id" = Some c -> c <> "" ->
  GET !! "account_id" = Some a -> a <> "" ->
  Views.matched_events fromisoformat db c a
    (GET !! "start_date") (GET !! "end_date") = inl [] ->
  Views.activity_events fromisoformat db GET
  = Ok (JsonResponse (Events [] (Pagination.mk page 1 0 false false))).
Proof.
  intros Hpage Hsize Hpos Hb Hc Hnc Ha Hna Hqs.
  rewrite (activity_events_paginates fromisoformat db GET page page_size c a [])
    by assumption.
  apply Z.ltb_lt in Hpos as Hpos'. rewrite Hpos'.
  pose proof (total_pages_of_pos (Z.of_nat (length (@nil ActivityEvent.t)))
                page_size Hpos Hb) as Hnp.
  apply Z.leb_le in Hnp. rewrite Hnp.
  now rewrite listing_empty.
Qed.

Lemma nil_of_no_member {A : Type} (l : list A) : (forall x, ~ In x l) -> l = [].
Proof.
  destruct l as [|x l]; [reflexivity|]. intros H. destruct (H x). now left.
Qed.

(** X8: a scope without events is no error: whatever page is asked
    for, with a page size that is positive and smaller than [2^1075],
    the listing is empty, one page of none, with neither a next nor a
    previous page. *)
Theorem listing_of_unknown_scope
    (fromisoformat : string -> option Datetime.t) (db : Db) (GET : QueryDict)
    (page page_size : Z) (c a : string) :
  int_param (GET !! "page") 1 = Ok page ->
  int_param (GET !! "page_size") 50 = Ok page_size ->
  0 < page_size -> page_size < 2 ^ 1075 ->
  GET !! "customer_org_id" = Some c -> c <> "" ->
  GET !! "account_id" = Some a -> a <> "" ->
  ~ unparsable fromisoformat (GET !! "start_date") ->
  ~ unparsable fromisoformat (GET !! "end_date") ->
  (forall e, In e (event_rows db) ->
     ~ (ActivityEvent.customer_org_id e = c /\ ActivityEvent.account_id e = a)) ->
  Views.activity_events fromisoformat db GET
  = Ok (JsonResponse (Events [] (Pagination.mk page 1 0 false false))).
Proof.
  intros Hpage Hsize Hpos Hb Hc Hnc Ha Hna Hs He Hnone.
  fold underflow_bound in Hb.
  apply (activity_events_empty fromisoformat db GET page page_size c a);
    try assumption.
  destruct (matched_events_cases fromisoformat db c a
              (GET !! "start_date") (GET !! "end_date"))
    as [[Hbad _]|[_ [qs Hqs]]]; [tauto|].
  rewrite Hqs. f_equal. apply nil_of_no_member.
  intros e Hin. apply matched_events_inl in Hqs as [_ Hiff].
  apply Hiff in Hin as [Hin _].
  apply scoped_events_In in Hin as (Hrow & Hsc). now apply (Hnone e).
Qed.

Lemma listing_of_unknown_scope_witness :
  Views.activity_events Sample.fromisoformat Sample.db
    (<["account_id" := "none"]> Sample.page_five)
  = Ok (JsonResponse (Events [] (Pagination.mk 5 1 0 false false))).
Proof.
  apply (listing_of_unknown_scope Sample.fromisoformat Sample.db
           (<["account_id" := "none"]> Sample.page_five) 5 2 "org" "none");
    try reflexivity; try discriminate; try lia.
  - intros (s & Hs & _). discriminate.
  - intros (s & Hs & _). discriminate.
  - unfold Sample.db. simpl. intros e Hin [_ Ha].
    repeat (destruct Hin as [<-|Hin]; [discriminate|]). destruct Hin.
Defined.

(** X9: an end date before the start date is no error either: both
    parse, no timestamp lies between them, and the listing, with a page
    size that is positive and smaller than [2^1075], is empty. *)
Theorem listing_of_inverted_window
    (fromisoformat : string -> option Datetime.t) (db : Db) (GET : QueryDict)
    (page page_size : Z) (c a s1 s2 : string) (d1 d2 : Datetime.t) :
  int_param (GET !! "page") 1 = Ok page ->
  int_param (GET !! "page_size") 50 = Ok page_size ->
  0 < page_size -> page_size < 2 ^ 1075 ->
  GET !! "customer_org_id" = Some c -> c <> "" ->
  GET !! "account_id" = Some a -> a <> "" ->
  GET !! "start_date" = Some s1 -> s1 <> "" ->
  fromisoformat (Py.replace_char "Z" "+00:00" s1) = Some d1 ->
  GET !! "end_date" = Some s2 -> s2 <> "" ->
  fromisoformat (Py.replace_char "Z" "+00:00" s2) = Some d2 ->
  Datetime.leb d1 d2 = false ->
  Views.activity_events fromisoformat db GET
  = Ok (JsonResponse (Events [] (Pagination.mk page 1 0 false false))).
Proof.
  intros Hpage Hsize Hpos Hb Hc Hnc Ha Hna Hs1 Hn1 Hd1 Hs2 Hn2 Hd2 Hinv.
  fold underflow_bound in Hb.
  apply (activity_events_empty fromisoformat db GET page page_size c a);
    try assumption.
  destruct (matched_events_cases fromisoformat db c a
              (GET !! "start_date") (GET !! "end_date"))
    as [[[Hbad|Hbad] _]|[_ [qs Hqs]]].
  - destruct Hbad as (s & Hs & _ & Hnone). congruence.
  - destruct Hbad as (s & Hs & _ & Hnone). congruence.
  - rewrite Hqs. f_equal. apply nil_of_no_member.
    intros e Hin. apply matched_events_inl in Hqs as [_ Hiff].
    apply Hiff in Hin as (_ & Hlo & Hhi).
    destruct (Hlo s1 Hs1 Hn1) as (d1' & Hd1' & Hle1).
    destruct (Hhi s2 Hs2 Hn2) as (d2' & Hd2' & Hle2).
    assert (d1' = d1) by congruence. assert (d2' = d2) by congruence. subst.
    pose proof (datetime_leb_trans _ _ _ Hle1 Hle2). congruence.
Qed.

Lemma listing_of_inverted_window_witness :
  Views.activity_events Sample.fromisoformat Sample.db
    (<["start_date" := "2024-01-03"]> Sample.first_of_january)
  = Ok (JsonResponse (Events [] (Pagination.mk 1 1 0 false false))).
Proof.
  apply (listing_of_inverted_window Sample.fromisoformat Sample.db
           (<["start_date" := "2024-01-03"]> Sample.first_of_january)
           1 50 "org" "acc" "2024-01-03" "2024-01-01"
           (Sample.at_ 2024 1 3 0) (Sample.at_ 2024 1 1 0));
    try reflexivity; try discriminate; lia.
Defined.

(** X10: a page size of zero or below gets no response: the handler raises,
    by a division by zero when the size is zero. *)
Theorem nonpositive_page_size_raises
    (fromisoformat : string -> option Datetime.t) (db : Db) (GET : QueryDict)
    (page page_size : Z) (c a : string) :
  int_param (GET !! "page") 1 = Ok page ->
  int_param (GET !! "page_size") 50 = Ok page_size -> page_size <= 0 ->
  GET !! "customer_org_id" = Some c -> c <> "" ->
  GET !! "account_id" = Some a -> a <> "" ->
  ~ unparsable fromisoformat (GET !! "start_date") ->
  ~ unparsable fromisoformat (GET !! "end_date") ->
  exists e,
    Views.activity_events fromisoformat db GET = Exc e /\
    (page_size = 0 -> e = ZeroDivisionError).
Proof.
  intros Hpage Hsize Hnon Hc Hnc Ha Hna Hs He.
  destruct (matched_events_cases fromisoformat db c a
              (GET !! "start_date") (GET !! "end_date"))
    as [[Hbad _]|[_ [qs Hqs]]]; [tauto|].
  rewrite (activity_events_paginates fromisoformat db GET page page_size c a qs)
    by assumption.
  destruct (Z.ltb_spec 0 page_size) as [Hpos|_]; [lia|].
  eexists. split; [reflexivity|]. now intros ->.
Qed.

Lemma nonpositive_page_size_raises_witness :
  exists e,
    Views.activity_events Sample.fromisoformat Sample.db
      (<["page_size" := "0"]> Sample.scope) = Exc e /\
    ((0 : Z) = 0 -> e = ZeroDivisionError).
Proof.
  apply (nonpositive_page_size_raises Sample.fromisoformat Sample.db
           (<["page_size" := "0"]> Sample.scope) 1 0 "org" "acc");
    try reflexivity; try discriminate; try lia.
  - intros (s & Hs & _). discriminate.
  - intros (s & Hs & _). discriminate.
Defined.

(** ** Enrichment, once more *)

(** X11: enriching an enriched entry changes nothing: the record built from
    a person carries that person's identifier, and a reference that was
    passed through is passed through again. *)
Theorem enrich_idempotent (persons : list Person.t) (person_ref : Py.dict) :
  Views.enrich persons (Views.enrich persons person_ref)
  = Views.enrich persons person_ref.
Proof.
  unfold Views.enrich at 2.
  destruct (Py.truthy (Views.person_id_of person_ref)) eqn:Ht.
  - destruct (Orm.get_person persons (Views.person_id_of person_ref))
      as [person|] eqn:E.
    + pose proof (get_person_Some _ _ _ E) as [_ Hid].
      unfold Views.enrich, Views.person_id_of, Py.get.
      rewrite lookup_insert_eq. simpl.
      unfold Py.or_. rewrite Hid.
      fold (Py.get person_ref "id") (Py.get person_ref "person_id").
      fold (Py.or_ (Py.get person_ref "id") (Py.get person_ref "person_id")).
      fold (Views.person_id_of person_ref).
      rewrite Ht, E, Hid. rewrite Ht.
      rewrite !lookup_insert_ne by discriminate.
      now rewrite lookup_singleton_eq.
    + unfold Views.enrich. now rewrite Ht, E.
  - unfold Views.enrich. now rewrite Ht.
Qed.

(** ** Daily counts without a direction *)

(** X12: a request without [direction] is answered as the same request
    with [direction=IN]. *)
Theorem counts_direction_defaults_to_in (db : Db) (GET : QueryDict) :
  GET !! "direction" = None ->
  Views.activity_counts db GET
  = Views.activity_counts db (<["direction" := "IN"]> GET).
Proof.
  intros Hd. unfold Views.activity_counts.
  rewrite lookup_insert_eq, Hd.
  now rewrite !lookup_insert_ne by discriminate.
Qed.

Lemma counts_direction_defaults_to_in_witness :
  Views.activity_counts Sample.db Sample.scope
  = Views.activity_counts Sample.db (<["direction" := "IN"]> Sample.scope).
Proof.
  apply (counts_direction_defaults_to_in Sample.db Sample.scope). reflexivity.
Defined.

(** ** Samples are drawn without replacement *)

Lemma in_scope_decide (c a : string) (e : ActivityEvent.t) :
  Orm.in_scope c a e
  = bool_decide (ActivityEvent.customer_org_id e = c
                 /\ ActivityEvent.account_id e = a).
Proof.
  unfold Orm.in_scope.
  destruct (String.eqb_spec (ActivityEvent.customer_org_id e) c) as [Hc|Hc],
    (String.eqb_spec (ActivityEvent.account_id e) a) as [Ha|Ha];
    simpl; symmetry;
    (apply bool_decide_eq_true; tauto) || (apply bool_decide_eq_false; tauto).
Qed.

Lemma string_eqb_decide (s t : string) : String.eqb s t = bool_decide (s = t).
Proof.
  destruct (String.eqb_spec s t); symmetry;
    [now apply bool_decide_eq_true | now apply bool_decide_eq_false].
Qed.

(** X13: the events sample and the rows left out are, together, the
    stored events whose customer and account are those of the request,
    each as often as stored; the sample holds ten rows, or all of them
    when there are fewer. The persons sample likewise, of the stored
    persons whose customer is that of the request, with five. *)
Theorem random_samples_without_replacement
    (seed : list nat) (db : Db) (GET : QueryDict) (c : string) :
  GET !! "customer_org_id" = Some c -> c <> "" ->
  (forall a, GET !! "account_id" = Some a -> a <> "" ->
     let scoped :=
       List.filter
         (fun e => bool_decide (ActivityEvent.customer_org_id e = c
                                /\ ActivityEvent.account_id e = a))
         (event_rows db) in
     exists rows rest,
       Views.random_activity_events seed db GET
       = Ok (JsonResponse (EventRows rows)) /\
       Permutation (rows ++ rest) scoped /\
       length rows = Nat.min 10 (length scoped))
  /\
  (let scoped :=
     List.filter (fun p => bool_decide (Person.customer_org_id p = c))
       (person_rows db) in
   exists rows rest,
     Views.random_persons seed db GET = Ok (JsonResponse (PersonRows rows)) /\
     Permutation (rows ++ rest) scoped /\
     length rows = Nat.min 5 (length scoped)).
Proof.
  intros Hc Hne.
  assert (Hnc : not_ (GET !! "customer_org_id") = false)
    by (apply not_false_iff; eauto).
  split.
  - intros a Ha Hna scoped.
    assert (Hnota : not_ (GET !! "account_id") = false)
      by (apply not_false_iff; eauto).
    assert (Hs : List.filter (Orm.in_scope c a) (event_rows db) = scoped).
    { apply List.filter_ext. intros e. apply in_scope_decide. }
    unfold Views.random_activity_events. rewrite Hnc, Hnota, Hc, Ha. simpl.
    rewrite Hs.
    exists (take 10 (Orm.order_by_random seed scoped)),
      (drop 10 (Orm.order_by_random seed scoped)).
    split; [reflexivity|]. split.
    + rewrite take_drop. apply order_by_random_perm.
    + rewrite length_take.
      now rewrite (Permutation_length (order_by_random_perm seed scoped)).
  - intros scoped.
    assert (Hs : List.filter (fun p => String.eqb (Person.customer_org_id p) c)
                   (person_rows db) = scoped).
    { apply List.filter_ext. intros p. apply string_eqb_decide. }
    unfold Views.random_persons. rewrite Hnc, Hc. simpl. rewrite Hs.
    exists (take 5 (Orm.order_by_random seed scoped)),
      (drop 5 (Orm.order_by_random seed scoped)).
    split; [reflexivity|]. split.
    + rewrite take_drop. apply order_by_random_perm.
    + rewrite length_take.
      now rewrite (Permutation_length (order_by_random_perm seed scoped)).
Qed.

Lemma random_samples_without_replacement_witness :
  let scoped :=
    List.filter (fun p => bool_decide (Person.customer_org_id p = "org"))
      (person_rows Sample.db) in
  exists rows rest,
    Views.random_persons [2; 7]%nat Sample.db Sample.scope
    = Ok (JsonResponse (PersonRows rows)) /\
    Permutation (rows ++ rest) scoped /\
    length rows = Nat.min 5 (length scoped).
Proof.
  apply (proj2 (random_samples_without_replacement [2; 7]%nat Sample.db
                  Sample.scope "org" eq_refl ltac:(discriminate))).
Defined.

(** ** Printed timestamps *)

(** X14: the ISO strings of two datetimes, fields in range, compare as the
    datetimes do; so they are equal only for equal datetimes. *)
Theorem isoformat_order_embedding (a b : Datetime.t) :
  Datetime.valid a -> Datetime.valid b ->
  (String.leb (Datetime.isoformat a) (Datetime.isoformat b) = true
   <-> Datetime.le a b) /\
  (Datetime.isoformat a = Datetime.isoformat b -> a = b).
Proof.
  intros Ha Hb. split.
  - unfold Datetime.le. now rewrite datetime_isoformat_leb.
  - intros E.
    pose proof (datetime_isoformat_compare a b Ha Hb) as H.
    rewrite E, string_compare_refl in H.
    apply datetime_fields_inj, lex_compare_Eq. now symmetry.
Qed.

Lemma isoformat_order_embedding_witness :
  (String.leb (Datetime.isoformat (Datetime.mk 2024 1 3 4 5 6 0))
     (Datetime.isoformat (Datetime.mk 2024 1 3 4 5 6 7)) = true
   <-> Datetime.le (Datetime.mk 2024 1 3 4 5 6 0) (Datetime.mk 2024 1 3 4 5 6 7))
  /\
  (Datetime.isoformat (Datetime.mk 2024 1 3 4 5 6 0)
   = Datetime.isoformat (Datetime.mk 2024 1 3 4 5 6 7) ->
   Datetime.mk 2024 1 3 4 5 6 0 = Datetime.mk 2024 1 3 4 5 6 7).
Proof.
  apply (isoformat_order_embedding (Datetime.mk 2024 1 3 4 5 6 0)
           (Datetime.mk 2024 1 3 4 5 6 7));
    unfold Datetime.valid; simpl; lia.
Defined.

(** ** Page numbers that are numerals *)

(** X15: a [page] or [page_size] that is a plain decimal numeral, of at
    most 4300 digits, converts: the conversion raises nothing. *)
Theorem numeral_parameter_converts (s : string) (dflt : Z) :
  s <> "" -> all_digits s = true ->
  Py.count_digits s <= Py.int_max_str_digits ->
  exists n, int_param (Some s) dflt = Ok n.
Proof.
  intros Hne Hs Hlen. unfold int_param.
  destruct (int_of_str_digits s Hne Hs Hlen) as [n ->]. eauto.
Qed.

Lemma numeral_parameter_converts_witness :
  exists n, int_param (Some "0042") 1 = Ok n.
Proof.
  apply (numeral_parameter_converts "0042" 1);
    [discriminate | reflexivity | vm_compute; discriminate].
Defined.

(** ** Routes *)

Lemma resolve_In (p : string) (v : view) :
  resolve p = Some v -> In (p, v) urlpatterns.
Proof.
  unfold resolve. destruct (List.find _ urlpatterns) as [[p' v']|] eqn:E;
    [|discriminate].
  simpl. intros [= <-]. apply find_some in E as [Hin Hp].
  simpl in Hp. apply String.eqb_eq in Hp. now subst.
Qed.

(** X16: no two paths lead to one view, and every view has a path. *)
Theorem routes_one_to_one :
  (forall p1 p2 v, resolve p1 = Some v -> resolve p2 = Some v -> p1 = p2) /\
  (forall v, exists p, resolve p = Some v).
Proof.
  split.
  - intros p1 p2 v H1 H2. apply resolve_In in H1, H2.
    unfold urlpatterns in H1, H2. simpl in H1, H2.
    decompose [or] H1; decompose [or] H2; try contradiction; congruence.
  - intros v.
    destruct v;
      [ exists "" | exists "api/customers/" | exists "api/events/"
      | exists "api/events/counts/" | exists "api/events/first-touchpoints/"
      | exists "api/events/random/" | exists "api/people/random/" ];
      reflexivity.
Qed.

(** ** The directory of customers and accounts *)

Lemma ascii_compare_lt_trans (a b c : ascii) :
  Ascii.compare a b = Lt -> Ascii.compare b c = Lt -> Ascii.compare a c = Lt.
Proof.
  unfold Ascii.compare. rewrite !N.compare_lt_iff. apply N.lt_trans.
Qed.

Lemma string_lt_trans (s1 s2 s3 : string) :
  string_lt s1 s2 -> string_lt s2 s3 -> string_lt s1 s3.
Proof.
  unfold string_lt.
  revert s2 s3; induction s1 as [|a s1 IH]; intros [|b s2] [|c s3]; simpl;
    try congruence.
  destruct (Ascii.compare a b) eqn:Eab; try discriminate;
    destruct (Ascii.compare b c) eqn:Ebc; try discriminate.
  - apply Ascii.compare_eq_iff in Eab, Ebc. subst.
    unfold Ascii.compare. rewrite N.compare_refl. apply IH.
  - apply Ascii.compare_eq_iff in Eab. subst. now rewrite Ebc.
  - apply Ascii.compare_eq_iff in Ebc. subst. now rewrite Eab.
  - now rewrite (ascii_compare_lt_trans a b c Eab Ebc).
Qed.

Lemma string_lt_irrefl (s : string) : ~ string_lt s s.
Proof. unfold string_lt. now rewrite string_compare_refl. Qed.

Lemma string_compare_Gt (s t : string) : String.compare s t = Gt -> string_lt t s.
Proof.
  unfold string_lt. intros H. rewrite String.compare_antisym, H. reflexivity.
Qed.

Lemma pair_compare_Eq (p q : string * string) : Orm.pair_compare p q = Eq -> p = q.
Proof.
  destruct p as [p1 p2], q as [q1 q2]. unfold Orm.pair_compare. simpl.
  destruct (String.compare p1 q1) eqn:E1; try discriminate.
  intros E2. apply String.compare_eq_iff in E1, E2. congruence.
Qed.

Lemma pair_compare_Gt (p q : string * string) :
  Orm.pair_compare p q = Gt -> pair_lt q p.
Proof.
  destruct p as [p1 p2], q as [q1 q2]. unfold pair_lt, Orm.pair_compare. simpl.
  rewrite (String.compare_antisym p1 q1), (String.compare_antisym p2 q2).
  destruct (String.compare q1 p1); simpl; try discriminate; try reflexivity.
  destruct (String.compare q2 p2); simpl; try discriminate; reflexivity.
Qed.

Lemma pair_lt_trans (p q r : string * string) :
  pair_lt p q -> pair_lt q r -> pair_lt p r.
Proof.
  destruct p as [p1 p2], q as [q1 q2], r as [r1 r2].
  unfold pair_lt, Orm.pair_compare. simpl.
  destruct (String.compare p1 q1) eqn:E1; try discriminate;
    destruct (String.compare q1 r1) eqn:E2; try discriminate.
  - apply String.compare_eq_iff in E1, E2. subst.
    rewrite string_compare_refl. apply string_lt_trans.
  - apply String.compare_eq_iff in E1. subst. now rewrite E2.
  - apply String.compare_eq_iff in E2. subst. now rewrite E1.
  - intros _ _. now rewrite (string_lt_trans p1 q1 r1 E1 E2).
Qed.

Lemma pair_lt_irrefl (p : string * string) : ~ pair_lt p p.
Proof.
  destruct p. unfold pair_lt, Orm.pair_compare. simpl.
  now rewrite !string_compare_refl.
Qed.

(** A pair that is before another has a customer that is not after. *)
Lemma pair_lt_fst (p q : string * string) :
  pair_lt p q -> fst p = fst q \/ string_lt (fst p) (fst q).
Proof.
  unfold pair_lt, Orm.pair_compare, string_lt.
  destruct (String.compare (fst p) (fst q)) eqn:E; try discriminate.
  - apply String.compare_eq_iff in E. auto.
  - auto.
Qed.

Lemma pair_lt_snd (p q : string * string) :
  fst p = fst q -> pair_lt p q -> string_lt (snd p) (snd q).
Proof.
  unfold pair_lt, Orm.pair_compare, string_lt. intros ->.
  now rewrite string_compare_refl.
Qed.

Lemma insert_distinct_In (p q : string * string) (l : list (string * string)) :
  In q (Orm.insert_distinct p l) <-> q = p \/ In q l.
Proof.
  induction l as [|r l IH]; simpl; [intuition|].
  destruct (Orm.pair_compare p r) eqn:E; simpl.
  - apply pair_compare_Eq in E. subst. intuition.
  - intuition.
  - rewrite IH. intuition.
Qed.

Lemma insert_distinct_sorted (p : string * string) (l : list (string * string)) :
  StronglySorted pair_lt l -> StronglySorted pair_lt (Orm.insert_distinct p l).
Proof.
  induction 1 as [|r l Hs IH Hr]; simpl.
  - constructor; constructor.
  - destruct (Orm.pair_compare p r) eqn:E.
    + now constructor.
    + constructor; [now constructor|].
      constructor; [exact E|].
      eapply List.Forall_impl; [|exact Hr].
      intros q Hq. eapply pair_lt_trans; eauto.
    + constructor; [exact IH|].
      rewrite Forall_forall. intros q Hq.
      apply list_elem_of_In, insert_distinct_In in Hq as [->|Hq].
      * now apply pair_compare_Gt.
      * rewrite Forall_forall in Hr. now apply Hr, list_elem_of_In.
Qed.

Lemma distinct_scopes_sorted (l : list ActivityEvent.t) :
  StronglySorted pair_lt (Orm.distinct_scopes l).
Proof.
  induction l as [|e l IH]; [constructor|].
  unfold Orm.distinct_scopes in *. simpl. now apply insert_distinct_sorted.
Qed.

Lemma distinct_scopes_In (l : list ActivityEvent.t) (p : string * string) :
  In p (Orm.distinct_scopes l) <-> exists e, In e l /\ scope_of e = p.
Proof.
  induction l as [|e l IH].
  - simpl. split; [intros [] | intros (e & [] & _)].
  - change (Orm.distinct_scopes (e :: l))
      with (Orm.insert_distinct (scope_of e) (Orm.distinct_scopes l)).
    rewrite insert_distinct_In, IH. split.
    + intros [->|(e' & He' & <-)]; [exists e | exists e']; simpl; auto.
    + intros (e' & [<-|He'] & <-); [now left | right; eauto].
Qed.

Lemma append_account_keys (o : string) (x : string * string)
    (R : list (string * list (string * string))) :
  List.map fst (Views.append_account o x R) = List.map fst R.
Proof.
  induction R as [|[o0 a0] R IH]; [reflexivity|]. simpl.
  destruct (String.eqb o0 o); simpl; [reflexivity | now rewrite IH].
Qed.

Lemma has_org_iff (R : list (string * list (string * string))) (o : string) :
  existsb (fun kv => String.eqb (fst kv) o) R = true <-> In o (List.map fst R).
Proof.
  rewrite existsb_exists, in_map_iff. split.
  - intros (kv & Hin & Hk). apply String.eqb_eq in Hk. eauto.
  - intros (kv & Hk & Hin). exists kv. split; [exact Hin|].
    now apply String.eqb_eq.
Qed.

Lemma append_account_fresh (o : string) (x : string * string)
    (R : list (string * list (string * string))) (l : list (string * string)) :
  ~ In o (List.map fst R) ->
  Views.append_account o x (R ++ [(o, l)]) = (R ++ [(o, l ++ [x])])%list.
Proof.
  induction R as [|[o0 a0] R IH]; simpl; intros Hn.
  - now rewrite String.eqb_refl.
  - destruct (String.eqb_spec o0 o) as [->|Hne]; [tauto|].
    rewrite IH; [reflexivity | tauto].
Qed.

Lemma append_account_In (o : string) (x : string * string)
    (R : list (string * list (string * string)))
    (o' : string) (accts' : list (string * string)) :
  NoDup (List.map fst R) ->
  In (o', accts') (Views.append_account o x R) <->
  (o' <> o /\ In (o', accts') R) \/
  (o' = o /\ exists accts, In (o, accts) R /\ accts' = (accts ++ [x])%list).
Proof.
  induction R as [|[o0 a0] R IH]; intros Hnd.
  - simpl. split; [intros [] | intros [[_ []]|[_ (accts & [] & _)]]].
  - apply NoDup_cons in Hnd as [Hfresh Hnd]. specialize (IH Hnd).
    assert (Hkey : forall k l, In (k, l) R -> k ∈ List.map fst R).
    { intros k l Hin. apply list_elem_of_In, in_map_iff. now exists (k, l). }
    cbn [Views.append_account].
    destruct (String.eqb_spec o0 o) as [->|Hne].
    + simpl. split.
      * intros [[= <- <-]|Hin].
        -- right. split; [reflexivity|]. exists a0. auto.
        -- left. split; [|now right]. intros ->.
           apply Hfresh. eapply Hkey, Hin.
      * intros [[Hne [[= <- <-]|Hin]]|[-> (accts & [[= <-]|Hin] & ->)]].
        -- congruence.
        -- now right.
        -- now left.
        -- exfalso. apply Hfresh. eapply Hkey, Hin.
    + simpl. rewrite IH. split.
      * intros [[= <- <-]|[[Hd Hin]|[-> (accts & Hin & ->)]]].
        -- left. split; [exact Hne | now left].
        -- left. split; [exact Hd | now right].
        -- right. split; [reflexivity|]. exists accts. auto.
      * intros [[Hd [[= <- <-]|Hin]]|[-> (accts & [[= -> _]|Hin] & ->)]].
        -- now left.
        -- right. left. auto.
        -- congruence.
        -- right. right. split; [reflexivity|]. exists accts. auto.
Qed.

Lemma accounts_of_app (o : string) (ps qs : list (string * string)) :
  accounts_of o (ps ++ qs) = (accounts_of o ps ++ accounts_of o qs)%list.
Proof. unfold accounts_of. now rewrite List.filter_app, map_app. Qed.

Lemma accounts_of_none (o : string) (ps : list (string * string)) :
  (forall p, In p ps -> fst p <> o) -> accounts_of o ps = [].
Proof.
  unfold accounts_of. induction ps as [|p ps IH]; intros H; [reflexivity|].
  simpl. destruct (String.eqb_spec (fst p) o) as [Heq|_].
  - exfalso. apply (H p); [now left | exact Heq].
  - apply IH. intros q Hq. apply H. now right.
Qed.

Lemma accounts_of_single (o o' a : string) :
  accounts_of o' [(o, a)] = if String.eqb o o' then [(a, a)] else [].
Proof. unfold accounts_of. simpl. now destruct (String.eqb o o'). Qed.

(** One turn of the loop of [customers] keeps the directory grouped. *)
Lemma add_customer_grouped (ps : list (string * string))
    (R : list (string * list (string * string))) (o a : string) :
  grouped ps R -> grouped (ps ++ [(o, a)]) (Views.add_customer R (o, a)).
Proof.
  intros [Hnd Hiff]. unfold Views.add_customer. simpl.
  assert (Hmem : forall o', (exists p, In p (ps ++ [(o, a)]) /\ fst p = o') <->
                            (exists p, In p ps /\ fst p = o') \/ o' = o).
  { intros o'. split.
    - intros (p & [Hp|[<-|[]]]%in_app_or & <-); [left; eauto | now right].
    - intros [(p & Hp & <-)| ->].
      + exists p. split; [apply in_or_app; now left | reflexivity].
      + exists (o, a). split; [apply in_or_app; right; now left | reflexivity]. }
  destruct (existsb (fun kv => String.eqb (fst kv) o) R) eqn:Hex.
  - apply has_org_iff, in_map_iff in Hex as ([o0 accts0] & Ho & Hin0).
    simpl in Ho. subst o0.
    pose proof (proj1 (Hiff o accts0) Hin0) as [Heq0 _]. subst accts0.
    split; [now rewrite append_account_keys|].
    intros o' accts'. rewrite append_account_In by exact Hnd.
    rewrite accounts_of_app, accounts_of_single, Hmem. split.
    + intros [[Hne Hin]|[-> (accts & Hin & ->)]].
      * apply Hiff in Hin as [-> Hp].
        apply String.eqb_neq in Hne. rewrite String.eqb_sym in Hne.
        rewrite Hne, app_nil_r. auto.
      * apply Hiff in Hin as [-> Hp].
        rewrite String.eqb_refl. auto.
    + intros [-> Hp]. destruct (String.eqb_spec o o') as [<-|Hne].
      * right. split; [reflexivity|]. eauto.
      * left. split; [congruence|]. apply Hiff.
        rewrite app_nil_r. split; [reflexivity|].
        destruct Hp as [Hp| ->]; [exact Hp | congruence].
  - assert (Hfresh : ~ In o (List.map fst R)).
    { intros Hin. apply has_org_iff in Hin. congruence. }
    assert (Hnone : forall p, In p ps -> fst p <> o).
    { intros p Hp Heq. apply Hfresh.
      pose proof (proj2 (Hiff o (accounts_of o ps))
                    (conj eq_refl (ex_intro _ p (conj Hp Heq)))) as Hin.
      apply in_map_iff. now exists (o, accounts_of o ps). }
    rewrite append_account_fresh by exact Hfresh. simpl. split.
    + rewrite map_app. simpl. apply NoDup_app. split; [exact Hnd|]. split.
      * intros x Hx [->|[]]%list_elem_of_In. now apply list_elem_of_In in Hx.
      * apply NoDup_singleton.
    + intros o' accts'.
      rewrite accounts_of_app, accounts_of_single, Hmem. split.
      * intros [Hin|[[= <- <-]|[]]]%in_app_or.
        -- apply Hiff in Hin as [-> Hp].
           destruct (String.eqb_spec o o') as [<-|Hne].
           ++ destruct Hp as (p & Hp & Heq). now apply Hnone in Hp.
           ++ rewrite app_nil_r. auto.
        -- rewrite String.eqb_refl, (accounts_of_none o ps Hnone). auto.
      * intros [-> Hp]. apply in_or_app.
        destruct (String.eqb_spec o o') as [<-|Hne].
        -- right. left. now rewrite (accounts_of_none o ps Hnone).
        -- left. apply Hiff. rewrite app_nil_r. split; [reflexivity|].
           destruct Hp as [Hp| ->]; [exact Hp | congruence].
Qed.

Lemma fold_add_customer_grouped (qs ps : list (string * string))
    (R : list (string * list (string * string))) :
  grouped ps R -> grouped (ps ++ qs) (fold_left Views.add_customer qs R).
Proof.
  revert ps R. induction qs as [|[o a] qs IH]; intros ps R HR.
  - now rewrite app_nil_r.
  - simpl. replace (ps ++ (o, a) :: qs)%list with ((ps ++ [(o, a)]) ++ qs)%list
      by now rewrite <- app_assoc.
    apply IH. now apply add_customer_grouped.
Qed.

Lemma grouped_nil : grouped [] [].
Proof.
  split; [constructor|]. intros o accts. split; [intros []|].
  intros [_ (p & [] & _)].
Qed.

Lemma add_customer_keys (R : list (string * list (string * string)))
    (o a : string) :
  List.map fst (Views.add_customer R (o, a))
  = if existsb (fun kv => String.eqb (fst kv) o) R then List.map fst R
    else (List.map fst R ++ [o])%list.
Proof.
  unfold Views.add_customer. simpl. rewrite append_account_keys.
  destruct (existsb _ R); [reflexivity|]. now rewrite map_app.
Qed.

Lemma fold_add_customer_keys_sorted (qs ps : list (string * string))
    (R : list (string * list (string * string))) :
  StronglySorted pair_lt (ps ++ qs) -> grouped ps R ->
  StronglySorted string_lt (List.map fst R) ->
  StronglySorted string_lt (List.map fst (fold_left Views.add_customer qs R)).
Proof.
  revert ps R. induction qs as [|[o a] qs IH]; intros ps R Hs HR Hk; [exact Hk|].
  simpl.
  assert (Heq : (ps ++ (o, a) :: qs = (ps ++ [(o, a)]) ++ qs)%list)
    by now rewrite <- app_assoc.
  apply (IH (ps ++ [(o, a)])%list).
  - now rewrite <- Heq.
  - now apply add_customer_grouped.
  - rewrite add_customer_keys.
    destruct (existsb (fun kv => String.eqb (fst kv) o) R) eqn:Hex; [exact Hk|].
    apply StronglySorted_app. split; [|split; [exact Hk | repeat constructor]].
    intros k o' Hkin [<-|[]]%list_elem_of_In.
    apply list_elem_of_In, in_map_iff in Hkin as ([k' accts] & Hk' & Hin).
    simpl in Hk'. subst k'.
    destruct HR as [_ Hiff]. apply Hiff in Hin as [_ (p & Hp & <-)].
    assert (Hlt : pair_lt p (o, a)).
    { eapply (StronglySorted_app_1_elem_of pair_lt ps ((o, a) :: qs));
        [exact Hs | now apply list_elem_of_In | now left]. }
    apply pair_lt_fst in Hlt as [Hsame|Hlt]; [|exact Hlt].
    simpl in Hsame. exfalso.
    assert (Hin : In o (List.map fst R)).
    { apply in_map_iff. exists (fst p, accounts_of (fst p) ps).
      split; [exact Hsame|]. apply Hiff. eauto. }
    apply has_org_iff in Hin. congruence.
Qed.

(** X17: the directory lists every customer of an event once, under it
    every account of its events once and no other, each with its
    identifier as display name; no customer is listed without
    account. *)
Theorem customers_directory (db : Db) :
  exists R,
    Views.customers db = Ok (JsonResponse (Customers R)) /\
    NoDup (List.map fst R) /\
    (forall e, In e (event_rows db) ->
       exists accts,
         In (ActivityEvent.customer_org_id e, accts) R /\
         In (ActivityEvent.account_id e, ActivityEvent.account_id e) accts) /\
    (forall o accts, In (o, accts) R ->
       accts <> [] /\ NoDup accts /\
       forall account_id display_name, In (account_id, display_name) accts ->
         display_name = account_id /\
         exists e, In e (event_rows db) /\
                   ActivityEvent.customer_org_id e = o /\
                   ActivityEvent.account_id e = account_id).
Proof.
  set (ps := Orm.distinct_scopes (event_rows db)).
  exists (fold_left Views.add_customer ps []).
  split; [reflexivity|].
  pose proof (fold_add_customer_grouped ps [] [] grouped_nil) as [Hnd Hiff].
  simpl in Hnd, Hiff.
  split; [exact Hnd|]. split.
  - intros e He.
    assert (Hp : In (scope_of e) ps) by (apply distinct_scopes_In; eauto).
    exists (accounts_of (ActivityEvent.customer_org_id e) ps). split.
    + apply Hiff. split; [reflexivity|]. exists (scope_of e). auto.
    + unfold accounts_of. apply in_map_iff. exists (scope_of e).
      split; [reflexivity|]. apply filter_In. split; [exact Hp|].
      simpl. apply String.eqb_refl.
  - intros o accts Hin. apply Hiff in Hin as [-> (p & Hp & <-)].
    split; [|split].
    + intros Hnil.
      assert (Hin : In (snd p, snd p) (accounts_of (fst p) ps)).
      { unfold accounts_of. apply in_map_iff. exists p. split; [reflexivity|].
        apply filter_In. split; [exact Hp | apply String.eqb_refl]. }
      rewrite Hnil in Hin. destruct Hin.
    + unfold accounts_of. apply NoDup_fmap_2_strong.
      * intros x y [_ Hx%String.eqb_eq]%list_elem_of_In%filter_In
          [_ Hy%String.eqb_eq]%list_elem_of_In%filter_In [= Hsnd].
        destruct x, y. simpl in *. congruence.
      * eapply sublist_NoDup; [|apply filter_sublist].
        eapply StronglySorted_NoDup; [apply pair_lt_irrefl|].
        apply distinct_scopes_sorted.
    + intros account_id display_name Hin.
      unfold accounts_of in Hin.
      apply in_map_iff in Hin as (q & [= <- <-] & Hq).
      apply filter_In in Hq as [Hq Hfst]. apply String.eqb_eq in Hfst.
      split; [reflexivity|].
      apply distinct_scopes_In in Hq as (e & He & <-). exists e. auto.
Qed.

(** X18: the directory ascends strictly by customer, and the accounts of
    each customer ascend strictly by account. *)
Theorem customers_sorted (db : Db) :
  exists R,
    Views.customers db = Ok (JsonResponse (Customers R)) /\
    StronglySorted string_lt (List.map fst R) /\
    forall o accts, In (o, accts) R ->
      StronglySorted string_lt (List.map fst accts).
Proof.
  set (ps := Orm.distinct_scopes (event_rows db)).
  exists (fold_left Views.add_customer ps []).
  split; [reflexivity|].
  pose proof (distinct_scopes_sorted (event_rows db)) as Hs. fold ps in Hs.
  split.
  - apply (fold_add_customer_keys_sorted ps []);
      [exact Hs | apply grouped_nil | constructor].
  - pose proof (fold_add_customer_grouped ps [] [] grouped_nil) as [_ Hiff].
    simpl in Hiff.
    intros o accts Hin. apply Hiff in Hin as [-> _].
    unfold accounts_of. rewrite map_map. simpl.
    apply StronglySorted_map_iff.
    eapply StronglySorted_impl_In;
      [|eapply StronglySorted_sublist; [apply filter_sublist | exact Hs]].
    intros x y [_ Hx%String.eqb_eq]%filter_In [_ Hy%String.eqb_eq]%filter_In Hlt.
    apply pair_lt_snd; congruence.
Qed.

Example customers_sample :
  Views.customers Sample.db
  = Ok (JsonResponse
          (Customers [ ("org", [("acc", "acc")]); ("org2", [("acc", "acc")]) ])).
Proof. reflexivity. Qed.

(** ** Counts against the listing *)

Lemma length_filter_and {A : Type} (f g : A -> bool) (l : list A) :
  (length (List.filter (fun x => f x && g x) l) <= length (List.filter f l))%nat.
Proof.
  induction l as [|x l IH]; simpl; [lia|].
  destruct (f x), (g x); simpl; lia.
Qed.

(** X19: the daily counts of a scope, whatever the direction, add up to no
    more than the [total_count] of the listing of that scope without
    dates. *)
Theorem counts_within_listing
    (fromisoformat : string -> option Datetime.t) (db : Db)
    (GET GET' : QueryDict) (r : response)
    (counts : list (string * Z)) (direction : string) :
  Views.activity_events fromisoformat db GET = Ok r -> status r = 200 ->
  GET !! "start_date" = None -> GET !! "end_date" = None ->
  GET' !! "customer_org_id" = GET !! "customer_org_id" ->
  GET' !! "account_id" = GET !! "account_id" ->
  Views.activity_counts db GET' = Ok (JsonResponse (DailyCounts counts direction)) ->
  exists evs pg,
    content r = Events evs pg /\
    total (List.map snd counts) <= Pagination.total_count pg.
Proof.
  intros Hr Hst Hs He Hc' Ha' Hcounts.
  destruct (activity_events_listing fromisoformat db GET r Hr Hst)
    as (page & page_size & c & a & qs & _ & _ & Hc & Hnc & Ha & Hna
        & Hqs & _ & _ & ->).
  rewrite Hs, He, matched_events_unfiltered in Hqs. injection Hqs as <-.
  unfold listing. do 2 eexists. split; [reflexivity|]. simpl.
  unfold Views.activity_counts in Hcounts.
  assert (H1 : not_ (GET' !! "customer_org_id") = false)
    by (apply not_false_iff; exists c; split; congruence).
  assert (H2 : not_ (GET' !! "account_id") = false)
    by (apply not_false_iff; exists a; split; congruence).
  rewrite H1, H2, Hc', Ha', Hc, Ha in Hcounts. simpl in Hcounts.
  injection Hcounts as <- _.
  rewrite map_map. simpl. rewrite count_by_date_total.
  unfold Orm.order_by_timestamp.
  rewrite (Permutation_length (sort_by_perm _ _)).
  apply inj_le. unfold Orm.in_scope_dir. apply length_filter_and.
Qed.

Lemma counts_within_listing_witness :
  exists evs pg,
    content (listing Sample.db
               (Orm.order_by_timestamp
                  (List.filter (Orm.in_scope "org" "acc")
                     (event_rows Sample.db))) 1 50)
    = Events evs pg /\
    total (List.map snd [("2024-01-01", 1)]) <= Pagination.total_count pg.
Proof.
  apply (counts_within_listing Sample.fromisoformat Sample.db Sample.scope
           (<["direction" := "OUT"]> Sample.scope) _ _ "OUT");
    reflexivity.
Defined.
